(** * Safe metafield writer: a shallow embedding and its verification

    The development follows the Python sources
    [metafield_writer.py] (value transformer, definition cache, single write),
    [batch_writer.py] (batched write) and [shopify_client.py] (the two lookup
    collaborators built on the GraphQL transport).

    Layout: first the model of the Python host (values, strings, numbers,
    the [json] module), then the embedding of the repository's own functions,
    then the theorems.

    Python values are modelled by [PyVal]; a Python [str] is the list of its
    Unicode code points.  Exceptions are values of [exn] (class and message)
    carried by the [Result] monad; effectful code threads a [Store] holding the
    definition cache and the log of transport calls.

    Limits of the host model (none is relied upon by a counterexample):
    dictionaries have [str] keys; [str.lower], [repr] of a [str] and the
    whitespace/digit classes of [float()] are CPython's on U+0000..U+00FF and
    on the listed Unicode spaces, other code points are treated as caseless,
    printable, non-space and non-digit; recursion limits and the integer
    string conversion limit of CPython are not modelled. *)

From Stdlib Require Import ZArith NArith List String Ascii Bool Lia.
From stdpp Require Import base option list gmap.
Import ListNotations.

Local Open Scope Z_scope.

(* ===================================================================== *)
(** * Part I: the Python host *)
(* ===================================================================== *)

(** ** Strings *)

(** A Python [str]: the sequence of its code points. *)
Definition pystr : Type := list N.

(** A string literal of the source (ASCII). *)
Definition lit (s : string) : pystr :=
  List.map N_of_ascii (list_ascii_of_string s).
Global Arguments lit : simpl never.

(** [s.startswith(prefix)] *)
Fixpoint startswith (s prefix : pystr) {struct prefix} : bool :=
  match prefix, s with
  | [], _ => true
  | p :: prefix', c :: s' => N.eqb p c && startswith s' prefix'
  | _ :: _, [] => false
  end.

(** The text after the character [c], when [s] starts with it. *)
Definition after_char (c : N) (s : pystr) : option pystr :=
  match s with
  | x :: s' => if (x =? c)%N then Some s' else None
  | [] => None
  end.

(** [s.replace(old, new)] for a non-empty [old]: the non-overlapping
    occurrences of [old] are replaced from left to right.  [skip] counts the
    characters of a matched occurrence that are still to be dropped. *)
Fixpoint replace_from (skip : nat) (s old new : pystr) : pystr :=
  match s with
  | [] => []
  | c :: s' =>
      match skip with
      | S k => replace_from k s' old new
      | O =>
          if startswith s old
          then new ++ replace_from (Nat.pred (List.length old)) s' old new
          else c :: replace_from O s' old new
      end
  end.

Definition str_replace (s old new : pystr) : pystr := replace_from O s old new.

(** [sep.join(parts)] *)
Fixpoint str_join (sep : pystr) (parts : list pystr) : pystr :=
  match parts with
  | [] => []
  | [p] => p
  | p :: rest => p ++ sep ++ str_join sep rest
  end.

(** [c.lower()] on one code point (exact on U+0000..U+00FF). *)
Definition lower_char (c : N) : N :=
  if ((65 <=? c) && (c <=? 90))%N then (c + 32)%N
  else if ((192 <=? c) && (c <=? 222) && negb (c =? 215))%N then (c + 32)%N
  else c.

(** [s.lower()] *)
Definition str_lower (s : pystr) : pystr := List.map lower_char s.

(** ** Decimal digits *)

Definition digit_char (d : N) : N := (48 + d)%N.

Definition is_digit (c : N) : bool := ((48 <=? c) && (c <=? 57))%N.

(** Digits of [n], most significant first, pushed in front of [acc]. *)
Fixpoint digits_fuel (fuel : nat) (n : N) (acc : list N) : list N :=
  match fuel with
  | O => acc
  | S fuel' =>
      let acc' := (n mod 10)%N :: acc in
      if (n / 10 =? 0)%N then acc' else digits_fuel fuel' (n / 10)%N acc'
  end.

(** The decimal digits of [n] ([0] has the single digit [0]). *)
Definition digits_of_N (n : N) : list N :=
  digits_fuel (S (N.to_nat (N.log2 n))) n [].

(** The number denoted by a list of digits, continuing from [acc]. *)
Fixpoint number_of_digits (acc : N) (ds : list N) : N :=
  match ds with
  | [] => acc
  | d :: ds' => number_of_digits (10 * acc + d)%N ds'
  end.

(** [str(n)] for a natural number. *)
Definition str_of_N (n : N) : pystr := List.map digit_char (digits_of_N n).

(** [str(z)] for a Python [int]. *)
Definition str_of_Z (z : Z) : pystr :=
  if z <? 0 then lit "-" ++ str_of_N (Z.abs_N z) else str_of_N (Z.abs_N z).

(** Hexadecimal digit (lower case), and [width] hexadecimal digits of [n]. *)
Definition hex_char (d : N) : N := if (d <? 10)%N then (48 + d)%N else (87 + d)%N.

Fixpoint hex_fixed (width : nat) (n : N) : pystr :=
  match width with
  | O => []
  | S w => hex_fixed w (n / 16)%N ++ [hex_char (n mod 16)%N]
  end.

(** ** Exceptions and results *)

(** The exception classes that occur; every one is a subclass of
    [Exception], and [JSONDecodeError] is a subclass of [ValueError].
    [TransportError] stands for the exceptions of the HTTP library. *)
Inductive exn_class : Type :=
| Exception
| ValueError
| JSONDecodeError
| TypeError
| OverflowError
| AttributeError
| KeyError
| IndexError
| RecursionError
| TransportError.

(** An exception: its class and [str(e)]. *)
Record exn : Type := mk_exn { cls : exn_class; message : pystr }.

Global Instance exn_class_eq_dec : EqDecision exn_class.
Proof. solve_decision. Defined.

Global Instance exn_eq_dec : EqDecision exn.
Proof. solve_decision. Defined.

(** [isinstance(e, c)] for the classes above. *)
Definition subclass (c parent : exn_class) : bool :=
  match parent, c with
  | Exception, _ => true
  | ValueError, (ValueError | JSONDecodeError) => true
  | JSONDecodeError, JSONDecodeError => true
  | TypeError, TypeError => true
  | OverflowError, OverflowError => true
  | AttributeError, AttributeError => true
  | KeyError, KeyError => true
  | IndexError, IndexError => true
  | RecursionError, RecursionError => true
  | TransportError, TransportError => true
  | _, _ => false
  end.

Definition isinstance (e : exn) (parents : list exn_class) : bool :=
  existsb (subclass (cls e)) parents.

(** The outcome of a Python expression: a value or a raised exception. *)
Inductive Result (A : Type) : Type :=
| Ok (a : A)
| Raise (e : exn).
Arguments Ok {A} a.
Arguments Raise {A} e.

Global Instance Result_ret : MRet Result := fun _ a => Ok a.
Global Instance Result_bind : MBind Result := fun _ _ f r =>
  match r with
  | Ok a => f a
  | Raise e => Raise e
  end.
Global Instance Result_fmap : FMap Result := fun _ _ f r =>
  match r with
  | Ok a => Ok (f a)
  | Raise e => Raise e
  end.

Global Instance Result_eq_dec {A} `{EqDecision A} : EqDecision (Result A).
Proof. solve_decision. Defined.

(** [try: body  except classes as e: handler(e)] *)
Definition try_except {A} (body : Result A) (classes : list exn_class)
    (handler : exn -> Result A) : Result A :=
  match body with
  | Ok a => Ok a
  | Raise e => if isinstance e classes then handler e else Raise e
  end.

Definition raise {A} (c : exn_class) (msg : pystr) : Result A :=
  Raise (mk_exn c msg).

(** [[f(x) for x in xs]], stopping at the first exception. *)
Fixpoint map_result {A B} (f : A -> Result B) (xs : list A) : Result (list B) :=
  match xs with
  | [] => Ok []
  | x :: xs' =>
      match f x with
      | Ok y =>
          match map_result f xs' with
          | Ok ys => Ok (y :: ys)
          | Raise e => Raise e
          end
      | Raise e => Raise e
      end
  end.

(** ** [repr] of a [str] *)

Definition printable (c : N) : bool :=
  if (c <? 32)%N then false
  else if (c <? 127)%N then true
  else if (c <=? 160)%N then false
  else if (c =? 173)%N then false
  else negb ((55296 <=? c) && (c <=? 57343))%N.

Definition repr_char (quote c : N) : pystr :=
  if ((c =? quote) || (c =? 92))%N then [92; c]%N
  else if (c =? 9)%N then lit "\t"
  else if (c =? 10)%N then lit "\n"
  else if (c =? 13)%N then lit "\r"
  else if printable c then [c]
  else if (c <? 256)%N then lit "\x" ++ hex_fixed 2 c
  else if (c <? 65536)%N then lit "\u" ++ hex_fixed 4 c
  else lit "\U" ++ hex_fixed 8 c.

Definition has_char (c : N) (s : pystr) : bool := existsb (N.eqb c) s.

(** [repr(s)]: single quotes unless the string has a single quote and no
    double quote. *)
Definition str_repr (s : pystr) : pystr :=
  let quote := if has_char 39 s && negb (has_char 34 s) then 34%N else 39%N in
  [quote] ++ concat (List.map (repr_char quote) s) ++ [quote].

(** ** Floating-point numbers (IEEE 754 binary64) *)

(** A Python [float].  [FNum neg m e] is [(-1)^neg * m * 2^e]; the numbers
    produced by the host have [2^52 <= m < 2^53] and [-1074 <= e <= 971], or
    [m < 2^52] and [e = -1074] (subnormal). *)
Inductive pyfloat : Type :=
| FNaN
| FInf (neg : bool)
| FZero (neg : bool)
| FNum (neg : bool) (m : positive) (e : Z).

Global Instance pyfloat_eq_dec : EqDecision pyfloat.
Proof. solve_decision. Defined.

(** Round [num/den] (both positive) to the nearest integer, ties to even. *)
Definition round_half_even (num den : Z) : Z :=
  let q := num / den in
  let r := num mod den in
  match 2 * r ?= den with
  | Lt => q
  | Gt => q + 1
  | Eq => if Z.even q then q else q + 1
  end.

(** Numerator and denominator of [(n/d) / 2^e]. *)
Definition scale_num (n e : Z) : Z := if e <? 0 then n * 2 ^ (- e) else n.
Definition scale_den (d e : Z) : Z := if e <? 0 then d else d * 2 ^ e.

(** The exponent [e] at which [n/d] has a 53-bit significand, not below the
    subnormal exponent. *)
Definition binary_exponent (n d : Z) : Z :=
  let e0 := Z.log2 n - Z.log2 d - 52 in
  let e1 := if scale_num n e0 / scale_den d e0 <? 2 ^ 52 then e0 - 1 else e0 in
  Z.max e1 (-1074).

(** The binary64 number nearest to [(-1)^neg * n/d], ties to even
    ([n >= 0], [d > 0]); infinite on overflow. *)
Definition round_ratio (neg : bool) (n d : Z) : pyfloat :=
  if n <=? 0 then FZero neg
  else
    let e := binary_exponent n d in
    let m := round_half_even (scale_num n e) (scale_den d e) in
    let m' := if m =? 2 ^ 53 then 2 ^ 52 else m in
    let e' := if m =? 2 ^ 53 then e + 1 else e in
    if m' =? 0 then FZero neg
    else if 971 <? e' then FInf neg
    else FNum neg (Z.to_pos m') e'.

(** The float nearest to [(-1)^neg * mant * 10^exp10]. *)
Definition round_decimal (neg : bool) (mant exp10 : Z) : pyfloat :=
  if exp10 <? 0 then round_ratio neg mant (10 ^ (- exp10))
  else round_ratio neg (mant * 10 ^ exp10) 1.

(** [int(f)]: truncation toward zero. *)
Definition int_of_float (f : pyfloat) : Result Z :=
  match f with
  | FNaN => raise ValueError (lit "cannot convert float NaN to integer")
  | FInf _ => raise OverflowError (lit "cannot convert float infinity to integer")
  | FZero _ => Ok 0
  | FNum neg m e =>
      let a := if e <? 0 then Z.pos m / 2 ^ (- e) else Z.pos m * 2 ^ e in
      Ok (if neg then - a else a)
  end.

(** [float(z)] for a Python [int]. *)
Definition float_of_int (z : Z) : Result pyfloat :=
  match round_ratio (z <? 0) (Z.abs z) 1 with
  | FInf _ => raise OverflowError (lit "int too large to convert to float")
  | f => Ok f
  end.

(** *** [float(s)] for a [str] *)

(** The code points above U+007E that [float()] treats as white space. *)
Definition unicode_space (c : N) : bool :=
  ((c =? 133) || (c =? 160) || (c =? 5760)
   || ((8192 <=? c) && (c <=? 8202))
   || (c =? 8232) || (c =? 8233) || (c =? 8239) || (c =? 8287)
   || (c =? 12288))%N.

(** ASCII white space: blank, [\t \n \v \f \r]. *)
Definition ascii_space (c : N) : bool :=
  ((c =? 32) || ((9 <=? c) && (c <=? 13)))%N.

(** Code points below U+007F are kept, Unicode spaces become a blank and
    every other code point becomes [?]. *)
Definition to_ascii_char (c : N) : N :=
  if (c <? 127)%N then c else if unicode_space c then 32%N else 63%N.

Fixpoint lstrip (s : pystr) : pystr :=
  match s with
  | c :: s' => if ascii_space c then lstrip s' else s
  | [] => []
  end.

Definition strip (s : pystr) : pystr := rev (lstrip (rev (lstrip s))).

(** Underscores are accepted between two digits only, and removed.
    [prev] is the previous character ([0] at the start). *)
Fixpoint remove_underscores (prev : N) (s : pystr) : option pystr :=
  match s with
  | [] => if (prev =? 95)%N then None else Some []
  | c :: s' =>
      if (c =? 95)%N then
        if is_digit prev then remove_underscores c s' else None
      else if (prev =? 95)%N && negb (is_digit c) then None
      else option_map (cons c) (remove_underscores c s')
  end.

(** The longest prefix of digits, as digit values, and the rest. *)
Fixpoint span_digits (s : pystr) : list N * pystr :=
  match s with
  | c :: s' =>
      if is_digit c
      then let '(ds, rest) := span_digits s' in ((c - 48)%N :: ds, rest)
      else ([], s)
  | [] => ([], [])
  end.

(** An optional sign: [true] for [-]. *)
Definition take_sign (s : pystr) : bool * pystr :=
  match after_char 45 s with
  | Some s' => (true, s')
  | None =>
      match after_char 43 s with
      | Some s' => (false, s')
      | None => (false, s)
      end
  end.

(** An optional exponent part [e[+-]digits]; without digits nothing is
    consumed. *)
Definition take_exponent (s : pystr) : Z * pystr :=
  match s with
  | c :: s' =>
      if ((c =? 101) || (c =? 69))%N then
        let '(neg, s1) := take_sign s' in
        let '(ds, rest) := span_digits s1 in
        match ds with
        | [] => (0, s)
        | _ => let x := Z.of_N (number_of_digits 0 ds) in
               (if neg then - x else x, rest)
        end
      else (0, s)
  | [] => (0, [])
  end.

(** A decimal numeral [digits[.digits][exponent]] covering all of [s]:
    its integer significand and power of ten. *)
Definition parse_decimal (s : pystr) : option (Z * Z) :=
  let '(ip, s1) := span_digits s in
  let '(fp, s2) :=
    match after_char 46 s1 with
    | Some s1' => span_digits s1'
    | None => ([], s1)
    end in
  match ip ++ fp with
  | [] => None
  | ds =>
      let '(ex, s3) := take_exponent s2 in
      match s3 with
      | [] => Some (Z.of_N (number_of_digits 0 ds), ex - Z.of_nat (List.length fp))
      | _ => None
      end
  end.

(** The numeral after white space and underscores have been dealt with. *)
Definition parse_float_literal (s : pystr) : option pyfloat :=
  let '(neg, body) := take_sign s in
  let low := str_lower body in
  if decide (low = lit "inf") then Some (FInf neg)
  else if decide (low = lit "infinity") then Some (FInf neg)
  else if decide (low = lit "nan") then Some FNaN
  else
    match parse_decimal body with
    | Some (mant, exp10) => Some (round_decimal neg mant exp10)
    | None => None
    end.

(** [float(s)] *)
Definition float_of_str (s : pystr) : Result pyfloat :=
  let t := strip (List.map to_ascii_char s) in
  let u := if has_char 95 t then remove_underscores 0 t else Some t in
  match u ≫= parse_float_literal with
  | Some f => Ok f
  | None => raise ValueError (lit "could not convert string to float: " ++ str_repr s)
  end.

(** *** [repr(f)] for a [float] *)

Fixpoint strip_trailing_zeros_rev (rds : list N) : list N :=
  match rds with
  | 0%N :: rds' => strip_trailing_zeros_rev rds'
  | _ => rds
  end.

(** The digits without trailing zeros. *)
Definition strip_trailing_zeros (ds : list N) : list N :=
  rev (strip_trailing_zeros_rev (rev ds)).

Definition zeros (n : nat) : pystr := repeat 48%N n.

(** The exponent of the scientific form: a sign and at least two digits. *)
Definition format_exponent (ex : Z) : pystr :=
  let ds := str_of_N (Z.abs_N ex) in
  lit "e" ++ (if ex <? 0 then lit "-" else lit "+")
  ++ (if (List.length ds <? 2)%nat then lit "0" else []) ++ ds.

(** The text of [0.d1d2...dn * 10^decpt] in the layout of [repr]. *)
Definition format_digits (ds : list N) (decpt : Z) : pystr :=
  let cs := List.map digit_char ds in
  let n := Z.of_nat (List.length ds) in
  if (decpt <=? -4) || (16 <? decpt) then
    firstn 1 cs
    ++ (match skipn 1 cs with [] => [] | more => lit "." ++ more end)
    ++ format_exponent (decpt - 1)
  else if decpt <=? 0 then
    lit "0." ++ zeros (Z.to_nat (- decpt)) ++ cs
  else if decpt <? n then
    firstn (Z.to_nat decpt) cs ++ lit "." ++ skipn (Z.to_nat decpt) cs
  else
    cs ++ zeros (Z.to_nat (decpt - n)) ++ lit ".0".

(** The text of the decimal [c * 10^p] ([c > 0]). *)
Definition format_decimal (c : Z) (p : Z) : pystr :=
  let ds := digits_of_N (Z.to_N c) in
  format_digits (strip_trailing_zeros ds) (p + Z.of_nat (List.length ds)).

(** The position [decpt] of the decimal point of [num/den]:
    [10^(decpt-1) <= num/den < 10^decpt]. *)
Definition decimal_point (num den : Z) : Z :=
  let k := Z.of_nat (List.length (digits_of_N (Z.to_N num)))
           - Z.of_nat (List.length (digits_of_N (Z.to_N den))) in
  let ge := if k <? 0 then den <=? num * 10 ^ (- k) else den * 10 ^ k <=? num in
  if ge then k + 1 else k.

(** The candidates with [n] significant digits for [num/den]: the decimal
    just below and whether the decimal just above is at least as near. *)
Definition candidates (num den : Z) (n : Z) : Z * Z * bool :=
  let p := decimal_point num den - n in
  let a := if p <? 0 then num * 10 ^ (- p) else num in
  let b := if p <? 0 then den else den * 10 ^ p in
  (a / b, p, b <=? 2 * (a mod b)).

(** Try [n], [n+1], ... significant digits ([tries] times): the first
    text that reads back as [f], the nearer one when two do. *)
Fixpoint shortest_text (tries : nat) (n : Z) (f : pyfloat) (num den : Z) : pystr :=
  let '(lo, p, up) := candidates num den n in
  let below := format_decimal lo p in
  let above := format_decimal (lo + 1) p in
  let ok t := bool_decide (float_of_str t = Ok f) in
  match tries with
  | O => if up then above else below
  | S tries' =>
      if ok below && ok above then (if up then above else below)
      else if ok below then below
      else if ok above then above
      else shortest_text tries' (n + 1) f num den
  end.

(** [repr(f)], also [str(f)]. *)
Definition float_repr (f : pyfloat) : pystr :=
  match f with
  | FNaN => lit "nan"
  | FInf neg => if neg then lit "-inf" else lit "inf"
  | FZero neg => if neg then lit "-0.0" else lit "0.0"
  | FNum neg m e =>
      let num := if e <? 0 then Z.pos m else Z.pos m * 2 ^ e in
      let den := if e <? 0 then 2 ^ (- e) else 1 in
      (if neg then lit "-" else [])
      ++ shortest_text 16 1 (FNum false m e) num den
  end.

(** ** Values *)

(** The Python values that reach the writer: [None], [bool], [int],
    [float], [str], [list] and [dict] (with [str] keys, in insertion
    order). *)
#[local] Unset Elimination Schemes.
Inductive PyVal : Type :=
| PNone
| PBool (b : bool)
| PInt (z : Z)
| PFloat (f : pyfloat)
| PStr (s : pystr)
| PList (items : list PyVal)
| PDict (entries : list (pystr * PyVal)).
#[local] Set Elimination Schemes.

(** [type(v).__name__] *)
Definition type_name (v : PyVal) : pystr :=
  match v with
  | PNone => lit "NoneType"
  | PBool _ => lit "bool"
  | PInt _ => lit "int"
  | PFloat _ => lit "float"
  | PStr _ => lit "str"
  | PList _ => lit "list"
  | PDict _ => lit "dict"
  end.

(** [bool(v)] *)
Definition truthy (v : PyVal) : bool :=
  match v with
  | PNone => false
  | PBool b => b
  | PInt z => negb (z =? 0)
  | PFloat (FZero _) => false
  | PFloat _ => true
  | PStr s => match s with [] => false | _ => true end
  | PList l => match l with [] => false | _ => true end
  | PDict d => match d with [] => false | _ => true end
  end.

Definition str_of_bool (b : bool) : pystr := if b then lit "True" else lit "False".

(** [repr(v)] *)
Fixpoint py_repr (v : PyVal) : pystr :=
  match v with
  | PNone => lit "None"
  | PBool b => str_of_bool b
  | PInt z => str_of_Z z
  | PFloat f => float_repr f
  | PStr s => str_repr s
  | PList l => lit "[" ++ str_join (lit ", ") (List.map py_repr l) ++ lit "]"
  | PDict d =>
      lit "{"
      ++ str_join (lit ", ")
           (List.map (fun kv => str_repr (fst kv) ++ lit ": " ++ py_repr (snd kv)) d)
      ++ lit "}"
  end.

(** [str(v)], also the text of [v] inside an f-string. *)
Definition py_str (v : PyVal) : pystr :=
  match v with
  | PStr s => s
  | _ => py_repr v
  end.

(** [int(s)] for a [str] (not used by the writer, which converts strings
    through [float]). *)
Definition int_of_str (s : pystr) : Result Z :=
  let t := strip (List.map to_ascii_char s) in
  let u := if has_char 95 t then remove_underscores 0 t else Some t in
  match u with
  | Some body =>
      let '(neg, ds) := take_sign body in
      match span_digits ds with
      | (d :: ds', []) =>
          let x := Z.of_N (number_of_digits 0 (d :: ds')) in
          Ok (if neg then - x else x)
      | _ => raise ValueError (lit "invalid literal for int() with base 10: " ++ str_repr s)
      end
  | None => raise ValueError (lit "invalid literal for int() with base 10: " ++ str_repr s)
  end.

(** [int(v)] *)
Definition py_int (v : PyVal) : Result Z :=
  match v with
  | PBool b => Ok (if b then 1 else 0)
  | PInt z => Ok z
  | PFloat f => int_of_float f
  | PStr s => int_of_str s
  | _ => raise TypeError
           (lit "int() argument must be a string, a bytes-like object or a real number, not '"
            ++ type_name v ++ lit "'")
  end.

(** [float(v)] *)
Definition py_float (v : PyVal) : Result pyfloat :=
  match v with
  | PBool b => Ok (if b then FNum false (2 ^ 52)%positive (-52) else FZero false)
  | PInt z => float_of_int z
  | PFloat f => Ok f
  | PStr s => float_of_str s
  | _ => raise TypeError
           (lit "float() argument must be a string or a real number, not '"
            ++ type_name v ++ lit "'")
  end.

(** [d.get(key, default)] on the entries of a dictionary. *)
Fixpoint dict_get (d : list (pystr * PyVal)) (key : pystr) (default : PyVal) : PyVal :=
  match d with
  | [] => default
  | (k, v) :: d' => if decide (k = key) then v else dict_get d' key default
  end.

(** [d[key] = v]: an existing key keeps its position. *)
Fixpoint dict_set (d : list (pystr * PyVal)) (key : pystr) (v : PyVal)
  : list (pystr * PyVal) :=
  match d with
  | [] => [(key, v)]
  | (k, w) :: d' =>
      if decide (k = key) then (k, v) :: d' else (k, w) :: dict_set d' key v
  end.

(** [v.get(key, default)]: only dictionaries have the method. *)
Definition py_get (v : PyVal) (key : pystr) (default : PyVal) : Result PyVal :=
  match v with
  | PDict d => Ok (dict_get d key default)
  | _ => raise AttributeError
           (lit "'" ++ type_name v ++ lit "' object has no attribute 'get'")
  end.

(** ** The [json] module *)

(** *** [json.dumps] (default options: ASCII only, separators [", "] and
    [": "]) *)

Definition json_escape_char (c : N) : pystr :=
  if (c =? 34)%N then [92; 34]%N
  else if (c =? 92)%N then lit "\\"
  else if (c =? 10)%N then lit "\n"
  else if (c =? 13)%N then lit "\r"
  else if (c =? 9)%N then lit "\t"
  else if (c =? 12)%N then lit "\f"
  else if (c =? 8)%N then lit "\b"
  else if ((32 <=? c) && (c <=? 126))%N then [c]
  else if (c <? 65536)%N then lit "\u" ++ hex_fixed 4 c
  else
    let v := (c - 65536)%N in
    lit "\u" ++ hex_fixed 4 (55296 + (v / 1024) mod 1024)%N
    ++ lit "\u" ++ hex_fixed 4 (56320 + v mod 1024)%N.

Definition json_string (s : pystr) : pystr :=
  [34%N] ++ concat (List.map json_escape_char s) ++ [34%N].

Definition json_float (f : pyfloat) : pystr :=
  match f with
  | FNaN => lit "NaN"
  | FInf neg => if neg then lit "-Infinity" else lit "Infinity"
  | _ => float_repr f
  end.

(** [json.dumps(v)] *)
Fixpoint json_dumps (v : PyVal) : pystr :=
  match v with
  | PNone => lit "null"
  | PBool b => if b then lit "true" else lit "false"
  | PInt z => str_of_Z z
  | PFloat f => json_float f
  | PStr s => json_string s
  | PList l => lit "[" ++ str_join (lit ", ") (List.map json_dumps l) ++ lit "]"
  | PDict d =>
      lit "{"
      ++ str_join (lit ", ")
           (List.map (fun kv => json_string (fst kv) ++ lit ": " ++ json_dumps (snd kv)) d)
      ++ lit "}"
  end.

(** *** [json.loads] (the scanner of CPython, strict mode) *)

Definition json_space (c : N) : bool :=
  ((c =? 32) || (c =? 9) || (c =? 10) || (c =? 13))%N.

Fixpoint skip_ws (s : pystr) : pystr :=
  match s with
  | c :: s' => if json_space c then skip_ws s' else s
  | [] => []
  end.

Definition hex_value (c : N) : option N :=
  if is_digit c then Some (c - 48)%N
  else if ((97 <=? c) && (c <=? 102))%N then Some (c - 87)%N
  else if ((65 <=? c) && (c <=? 70))%N then Some (c - 55)%N
  else None.

Definition high_surrogate (c : N) : bool := ((55296 <=? c) && (c <=? 56319))%N.
Definition low_surrogate (c : N) : bool := ((56320 <=? c) && (c <=? 57343))%N.
Definition join_surrogates (h l : N) : N :=
  (65536 + (h - 55296) * 1024 + (l - 56320))%N.

(** The character denoted by a one-letter escape. *)
Definition simple_escape (c : N) : option N :=
  if (c =? 34)%N then Some 34%N
  else if (c =? 92)%N then Some 92%N
  else if (c =? 47)%N then Some 47%N
  else if (c =? 98)%N then Some 8%N
  else if (c =? 102)%N then Some 12%N
  else if (c =? 110)%N then Some 10%N
  else if (c =? 114)%N then Some 13%N
  else if (c =? 116)%N then Some 9%N
  else None.

(** Where the string scanner stands: in plain text, after a backslash,
    inside the hexadecimal digits of [\u] ([k] digits to go), and the same
    three while a high surrogate [h] waits for its low half. *)
Inductive scan_state : Type :=
| InText
| InEscape
| InHex (k : nat) (acc : N)
| HighText (h : N)
| HighEscape (h : N)
| HighHex (h : N) (k : nat) (acc : N).

(** The body of a string literal, after its opening quote: the decoded
    string (built in reverse in [out]) and the text after the closing
    quote. *)
Fixpoint scan_string (st : scan_state) (out : pystr) (s : pystr)
  : option (pystr * pystr) :=
  match s with
  | [] => None
  | c :: s' =>
      let text out :=
        if (c =? 34)%N then Some (rev out, s')
        else if (c =? 92)%N then scan_string InEscape out s'
        else if (c <? 32)%N then None
        else scan_string InText (c :: out) s' in
      let escape out :=
        if (c =? 117)%N then None
        else match simple_escape c with
             | Some d => scan_string InText (d :: out) s'
             | None => None
             end in
      match st with
      | InText => text out
      | InEscape =>
          if (c =? 117)%N then scan_string (InHex 4 0) out s' else escape out
      | InHex k acc =>
          match hex_value c with
          | None => None
          | Some d =>
              let u := (16 * acc + d)%N in
              match k with
              | S (S k') => scan_string (InHex (S k') u) out s'
              | _ =>
                  if high_surrogate u then scan_string (HighText u) out s'
                  else scan_string InText (u :: out) s'
              end
          end
      | HighText h =>
          if (c =? 92)%N then scan_string (HighEscape h) out s'
          else text (h :: out)
      | HighEscape h =>
          if (c =? 117)%N then scan_string (HighHex h 4 0) out s'
          else escape (h :: out)
      | HighHex h k acc =>
          match hex_value c with
          | None => None
          | Some d =>
              let u := (16 * acc + d)%N in
              match k with
              | S (S k') => scan_string (HighHex h (S k') u) out s'
              | _ =>
                  if low_surrogate u
                  then scan_string InText (join_surrogates h u :: out) s'
                  else if high_surrogate u
                  then scan_string (HighText u) (h :: out) s'
                  else scan_string InText (u :: h :: out) s'
              end
          end
      end
  end.

(** The end of a number literal at the head of [s]: whether it has a
    fraction or an exponent, and the text after it. *)
Definition scan_number (s : pystr) : option (bool * pystr) :=
  let s0 := match after_char 45 s with Some s' => s' | None => s end in
  match s0 with
  | [] => None
  | c :: s1 =>
      let after_int :=
        if (c =? 48)%N then Some s1
        else if is_digit c then Some (snd (span_digits s1))
        else None in
      match after_int with
      | None => None
      | Some r0 =>
          let '(frac, r1) :=
            match after_char 46 r0 with
            | Some (d :: r) =>
                if is_digit d then (true, snd (span_digits r)) else (false, r0)
            | _ => (false, r0)
            end in
          let '(expo, r2) :=
            match r1 with
            | e :: r =>
                if ((e =? 101) || (e =? 69))%N then
                  match span_digits (snd (take_sign r)) with
                  | ([], _) => (false, r1)
                  | (_, r') => (true, r')
                  end
                else (false, r1)
            | [] => (false, r1)
            end in
          Some (frac || expo, r2)
      end
  end.

(** [int(lexeme)] for the text of an integer literal. *)
Definition int_of_lexeme (lexeme : pystr) : Z :=
  match after_char 45 lexeme with
  | Some ds => - Z.of_N (number_of_digits 0 (fst (span_digits ds)))
  | None => Z.of_N (number_of_digits 0 (fst (span_digits lexeme)))
  end.

Definition parse_number (s : pystr) : option (PyVal * pystr) :=
  match scan_number s with
  | None => None
  | Some (is_float, rest) =>
      let lexeme := firstn (List.length s - List.length rest)%nat s in
      if is_float then
        match float_of_str lexeme with
        | Ok f => Some (PFloat f, rest)
        | Raise _ => None
        end
      else Some (PInt (int_of_lexeme lexeme), rest)
  end.

(** [s] without the prefix [word], when it starts with it. *)
Definition strip_prefix (word s : pystr) : option pystr :=
  if startswith s word then Some (skipn (List.length word) s) else None.

(** [dict(pairs)]: a repeated key keeps its first position and takes the
    last value. *)
Definition dict_of_pairs (pairs : list (pystr * PyVal)) : list (pystr * PyVal) :=
  fold_left (fun d kv => dict_set d (fst kv) (snd kv)) pairs [].

(** One JSON value at the head of [s], and the text after it.  [fuel]
    bounds the nesting of the calls; [parse_items] reads the elements of an
    array after the first bracket (in reverse in [acc]) and [parse_members]
    the members of an object. *)
Fixpoint parse_value (fuel : nat) (s : pystr) : option (PyVal * pystr) :=
  match fuel with
  | O => None
  | S fuel' =>
      match after_char 34 s, after_char 123 s, after_char 91 s with
      | Some s', _, _ =>
          match scan_string InText [] s' with
          | Some (str, rest) => Some (PStr str, rest)
          | None => None
          end
      | None, Some s', _ =>
          match after_char 125 (skip_ws s') with
          | Some rest => Some (PDict [], rest)
          | None =>
              match parse_members fuel' [] (skip_ws s') with
              | Some (pairs, rest) => Some (PDict (dict_of_pairs pairs), rest)
              | None => None
              end
          end
      | None, None, Some s' =>
          match after_char 93 (skip_ws s') with
          | Some rest => Some (PList [], rest)
          | None =>
              match parse_items fuel' [] (skip_ws s') with
              | Some (items, rest) => Some (PList items, rest)
              | None => None
              end
          end
      | None, None, None =>
          match strip_prefix (lit "null") s with
          | Some rest => Some (PNone, rest)
          | None =>
          match strip_prefix (lit "true") s with
          | Some rest => Some (PBool true, rest)
          | None =>
          match strip_prefix (lit "false") s with
          | Some rest => Some (PBool false, rest)
          | None =>
          match strip_prefix (lit "NaN") s with
          | Some rest => Some (PFloat FNaN, rest)
          | None =>
          match strip_prefix (lit "Infinity") s with
          | Some rest => Some (PFloat (FInf false), rest)
          | None =>
          match strip_prefix (lit "-Infinity") s with
          | Some rest => Some (PFloat (FInf true), rest)
          | None => parse_number s
          end end end end end end
      end
  end
with parse_items (fuel : nat) (acc : list PyVal) (s : pystr)
  : option (list PyVal * pystr) :=
  match fuel with
  | O => None
  | S fuel' =>
      match parse_value fuel' s with
      | None => None
      | Some (v, rest) =>
          match after_char 93 (skip_ws rest), after_char 44 (skip_ws rest) with
          | Some rest', _ => Some (rev (v :: acc), rest')
          | None, Some rest' => parse_items fuel' (v :: acc) (skip_ws rest')
          | None, None => None
          end
      end
  end
with parse_members (fuel : nat) (acc : list (pystr * PyVal)) (s : pystr)
  : option (list (pystr * PyVal) * pystr) :=
  match fuel with
  | O => None
  | S fuel' =>
      match after_char 34 s with
      | None => None
      | Some s' =>
          match scan_string InText [] s' with
          | None => None
          | Some (key, rest) =>
              match after_char 58 (skip_ws rest) with
              | None => None
              | Some rest1 =>
                  match parse_value fuel' (skip_ws rest1) with
                  | None => None
                  | Some (v, rest2) =>
                      match after_char 125 (skip_ws rest2), after_char 44 (skip_ws rest2) with
                      | Some rest', _ => Some (rev ((key, v) :: acc), rest')
                      | None, Some rest' =>
                          parse_members fuel' ((key, v) :: acc) (skip_ws rest')
                      | None, None => None
                      end
                  end
              end
          end
      end
  end.

(** [json.loads(s)]; every failure is a [JSONDecodeError]. *)
Definition json_loads (s : pystr) : Result PyVal :=
  match after_char 65279 s with
  | Some _ => raise JSONDecodeError (lit "Unexpected UTF-8 BOM (decode using utf-8-sig)")
  | None =>
      match parse_value (S (List.length s)) (skip_ws s) with
      | Some (v, rest) =>
          match skip_ws rest with
          | [] => Ok v
          | _ => raise JSONDecodeError (lit "Extra data")
          end
      | None => raise JSONDecodeError (lit "Expecting value")
      end
  end.

(** ** Iteration and subscripts *)

(** The items of [for item in v]. *)
Definition py_iter (v : PyVal) : Result (list PyVal) :=
  match v with
  | PList l => Ok l
  | PStr s => Ok (List.map (fun c => PStr [c]) s)
  | PDict d => Ok (List.map (fun kv => PStr (fst kv)) d)
  | _ => raise TypeError (lit "'" ++ type_name v ++ lit "' object is not iterable")
  end.

(** [v[key]] for a [str] key. *)
Definition py_getitem (v : PyVal) (key : pystr) : Result PyVal :=
  match v with
  | PDict d =>
      match list_find (fun kv => fst kv = key) d with
      | Some (_, kv) => Ok (snd kv)
      | None => raise KeyError (str_repr key)
      end
  | PList _ => raise TypeError (lit "list indices must be integers or slices, not str")
  | PStr _ => raise TypeError (lit "string indices must be integers, not 'str'")
  | _ => raise TypeError (lit "'" ++ type_name v ++ lit "' object is not subscriptable")
  end.

(** [v[0]] *)
Definition py_first (v : PyVal) : Result PyVal :=
  match v with
  | PList (x :: _) => Ok x
  | PList [] => raise IndexError (lit "list index out of range")
  | PStr (c :: _) => Ok (PStr [c])
  | PStr [] => raise IndexError (lit "string index out of range")
  | PDict _ => raise KeyError (lit "0")
  | _ => raise TypeError (lit "'" ++ type_name v ++ lit "' object is not subscriptable")
  end.

(* ===================================================================== *)
(** * Part II: the repository *)
(* ===================================================================== *)

(** ** [MetafieldTypeTransformer] (metafield_writer.py) *)

(** [_transform_list_value], with the recursive call to [transform_value]
    passed as [transform_value]. *)
Definition _transform_list_value
    (transform_value : PyVal -> pystr -> Result pystr)
    (value : PyVal) (list_type : pystr) : Result pystr :=
  (* Ensure value is a list *)
  value ←
    match value with
    | PList _ => Ok value
    | PStr s =>
        (* If it's a string, try to parse as JSON array *)
        try_except (json_loads s) [JSONDecodeError]
          (fun _ => Ok (PList [value]))
    | _ => Ok (PList [value])
    end;
  let base_type := str_replace list_type (lit "list.") [] in
  (* Transform each item *)
  items ← py_iter value;
  transformed_items ← map_result (fun item => transform_value item base_type) items;
  (* Return as JSON array string *)
  Ok (json_dumps (PList (List.map PStr transformed_items))).

(** [transform_value]; each recursive call has a strictly shorter type
    name, and [fuel] counts the calls that remain. *)
Fixpoint transform_value_fuel (fuel : nat) (value : PyVal) (metafield_type : pystr)
  : Result pystr :=
  match fuel with
  | O => raise RecursionError (lit "maximum recursion depth exceeded")
  | S fuel' =>
      (* Handle list types *)
      if startswith metafield_type (lit "list.") then
        _transform_list_value (transform_value_fuel fuel') value metafield_type
      (* Handle JSON types *)
      else if decide (metafield_type = lit "json") then
        match value with
        | PDict _ | PList _ => Ok (json_dumps value)
        | PStr s =>
            try_except
              (parsed ← json_loads s; Ok (json_dumps parsed))
              [JSONDecodeError]
              (fun _ => raise ValueError (lit "Invalid JSON string: " ++ s))
        | _ => Ok (json_dumps value)
        end
      (* Handle number types *)
      else if decide (metafield_type = lit "number_integer") then
        match value with
        | PStr s =>
            try_except
              (float_value ← py_float value;
               int_value ← py_int (PFloat float_value);
               Ok (py_str (PInt int_value)))
              [ValueError; TypeError]
              (fun _ => raise ValueError (lit "Cannot convert '" ++ s ++ lit "' to integer"))
        | _ => int_value ← py_int value; Ok (py_str (PInt int_value))
        end
      else if decide (metafield_type = lit "number_decimal") then
        match value with
        | PStr s =>
            try_except
              (float_value ← py_float value; Ok (py_str (PFloat float_value)))
              [ValueError; TypeError]
              (fun _ => raise ValueError (lit "Cannot convert '" ++ s ++ lit "' to decimal"))
        | _ => float_value ← py_float value; Ok (py_str (PFloat float_value))
        end
      (* Handle boolean *)
      else if decide (metafield_type = lit "boolean") then
        match value with
        | PBool _ => Ok (str_lower (py_str value))
        | PStr s =>
            if bool_decide (str_lower s ∈ [lit "true"; lit "false"])
            then Ok (str_lower s)
            else Ok (py_str (PBool (truthy value)))
        | _ => Ok (str_lower (py_str (PBool (truthy value))))
        end
      (* Handle dimension/volume/weight types *)
      else if bool_decide (metafield_type ∈ [lit "dimension"; lit "volume"; lit "weight"]) then
        match value with
        | PDict _ => Ok (json_dumps value)
        | PStr s =>
            try_except
              (parsed ← json_loads s; Ok (json_dumps parsed))
              [JSONDecodeError]
              (fun _ => raise ValueError
                          (lit "Invalid JSON for " ++ metafield_type ++ lit ": " ++ s))
        | _ => raise ValueError (metafield_type ++ lit " must be a dict or JSON string")
        end
      (* Handle text types (default) - convert to string *)
      else Ok (py_str value)
  end.

(** [MetafieldTypeTransformer.transform_value(value, metafield_type)] *)
Definition transform_value (value : PyVal) (metafield_type : pystr) : Result pystr :=
  transform_value_fuel (S (List.length metafield_type)) value metafield_type.

(** The call [transform_value(value, t)] when [t] is any Python value:
    only a [str] has [startswith]. *)
Definition transform_value_dyn (value : PyVal) (metafield_type : PyVal) : Result pystr :=
  match metafield_type with
  | PStr t => transform_value value t
  | _ => raise AttributeError
           (lit "'" ++ type_name metafield_type ++ lit "' object has no attribute 'startswith'")
  end.

(** ** [ShopifyClient] (shopify_client.py) *)

(** The four GraphQL documents of the repository (fixed texts). *)
Inductive document : Type :=
| getMetafieldDefinition
| getProductMetafield
| productUpdateMetafield
| productUpdateMetafields.

(** One call of the transport: the document and its variables. *)
Record Call : Type := mk_call { call_document : document; call_variables : PyVal }.

(** The remote end seen through [graphql_request]: given the calls made so
    far and the present call, the [data] payload or the exception raised
    (HTTP failure, protocol errors, malformed response). *)
Record ShopifyClient : Type := mk_client {
  transport : list Call -> Call -> Result PyVal
}.

(** What the writer can change: its definition cache, the log of the
    transport calls and the lines printed. *)
Record Store : Type := mk_store {
  _definition_cache : gmap pystr PyVal;
  calls : list Call;
  printed : list pystr
}.

Definition empty_store : Store := mk_store ∅ [] [].

(** A computation over the store that may raise. *)
Definition M (A : Type) : Type := Store -> Result A * Store.

Definition ret {A} (a : A) : M A := fun st => (Ok a, st).
Definition bind {A B} (m : M A) (k : A -> M B) : M B :=
  fun st => match m st with
            | (Ok a, st') => k a st'
            | (Raise e, st') => (Raise e, st')
            end.
Definition lift {A} (r : Result A) : M A := fun st => (r, st).
Definition throw {A} (c : exn_class) (msg : pystr) : M A := lift (raise c msg).

Notation "'do' x <- m ; k" := (bind m (fun x => k))
  (at level 10, x name, m at level 100, k at level 200).

(** [try: body  except classes as e: handler(e)], keeping the effects of
    the body. *)
Definition try_catch {A} (body : M A) (classes : list exn_class)
    (handler : exn -> M A) : M A :=
  fun st => match body st with
            | (Ok a, st') => (Ok a, st')
            | (Raise e, st') =>
                if isinstance e classes then handler e st' else (Raise e, st')
            end.

(** [self._definition_cache.get(key)] as an option, and
    [self._definition_cache[key] = v]. *)
Definition cache_get (key : pystr) : M (option PyVal) :=
  fun st => (Ok (_definition_cache st !! key), st).

Definition cache_set (key : pystr) (v : PyVal) : M unit :=
  fun st => (Ok tt, mk_store (<[key := v]> (_definition_cache st)) (calls st) (printed st)).

(** [print(line)] *)
Definition print (line : pystr) : M unit :=
  fun st => (Ok tt, mk_store (_definition_cache st) (calls st) (printed st ++ [line])).

(** The [variables] of the two lookup queries. *)
Definition definition_variables (namespace key : PyVal) : PyVal :=
  PDict [(lit "namespace", namespace); (lit "key", key)].

Definition metafield_variables (product_id namespace key : PyVal) : PyVal :=
  PDict [(lit "productId", product_id); (lit "namespace", namespace); (lit "key", key)].

Section Client.
Variable self : ShopifyClient.

(** [graphql_request(query, variables)] *)
Definition graphql_request (query : document) (variables : PyVal) : M PyVal :=
  fun st =>
    let call := mk_call query variables in
    (transport self (calls st) call,
     mk_store (_definition_cache st) (calls st ++ [call]) (printed st)).

(** [get_product_metafield_definition(namespace, key)] *)
Definition get_product_metafield_definition (namespace key : PyVal) : M PyVal :=
  let variables := definition_variables namespace key in
  do found <-
    try_catch
      (do data <- graphql_request getMetafieldDefinition variables;
       do defs <- lift (py_get data (lit "metafieldDefinitions") (PDict []));
       do edges <- lift (py_get defs (lit "edges") (PList []));
       if truthy edges then
         do edge <- lift (py_first edges);
         do node <- lift (py_getitem edge (lit "node"));
         do id <- lift (py_getitem node (lit "id"));
         do ns <- lift (py_getitem node (lit "namespace"));
         do k <- lift (py_getitem node (lit "key"));
         do ty <- lift (py_getitem node (lit "type"));
         do tyname <- lift (py_getitem ty (lit "name"));
         do name <- lift (py_get node (lit "name") PNone);
         ret (Some (PDict [(lit "id", id); (lit "namespace", ns); (lit "key", k);
                           (lit "type", tyname); (lit "name", name)]))
       else ret None)
      [Exception]
      (fun e =>
         do _ <- print (lit "Warning: Could not fetch metafield definition: " ++ message e);
         ret None);
  match found with
  | Some definition => ret definition
  | None => ret PNone
  end.

(** [get_product_metafield(product_id, namespace, key)] *)
Definition get_product_metafield (product_id namespace key : PyVal) : M PyVal :=
  let variables := metafield_variables product_id namespace key in
  do found <-
    try_catch
      (do data <- graphql_request getProductMetafield variables;
       do product <- lift (py_get data (lit "product") PNone);
       if truthy product then
         do metafield <- lift (py_get product (lit "metafield") PNone);
         if truthy metafield then
           do m <- lift (py_getitem product (lit "metafield"));
           ret (Some m)
         else ret None
       else ret None)
      [Exception]
      (fun e =>
         do _ <- print (lit "Warning: Could not fetch product metafield: " ++ message e);
         ret None);
  match found with
  | Some metafield => ret metafield
  | None => ret PNone
  end.
End Client.

(** ** [SafeMetafieldWriter] (metafield_writer.py) *)

(** The user errors of a mutation result as one message. *)
Definition error_messages (user_errors : PyVal) : Result pystr :=
  errors ← py_iter user_errors;
  messages ←
    map_result
      (fun e =>
         field ← py_get e (lit "field") (PStr []);
         msg ← py_get e (lit "message") (PStr []);
         Ok (py_str field ++ lit ": " ++ py_str msg))
      errors;
  Ok (str_join (lit "; ") messages).

(** The [variables] of the single-field mutation. *)
Definition update_variables (product_id namespace key determined_type : PyVal)
    (transformed_value : pystr) : PyVal :=
  PDict [(lit "input",
          PDict [(lit "id", product_id);
                 (lit "metafields",
                  PList [PDict [(lit "namespace", namespace); (lit "key", key);
                                (lit "type", determined_type);
                                (lit "value", PStr transformed_value)]])]);
         (lit "namespace", namespace);
         (lit "key", key)].

Section Writer.
Variable client : ShopifyClient.

(** [_get_cached_definition(namespace, key)] *)
Definition _get_cached_definition (namespace key : PyVal) : M PyVal :=
  let cache_key := py_str namespace ++ lit ":" ++ py_str key in
  do hit <- cache_get cache_key;
  do _ <-
    match hit with
    | None =>
        do definition <- get_product_metafield_definition client namespace key;
        if truthy definition then cache_set cache_key definition else ret tt
    | Some _ => ret tt
    end;
  do entry <- cache_get cache_key;
  ret (default PNone entry).

(** [write_product_metafield(product_id, namespace, key, value,
    metafield_type=None, force_type=False)] *)
Definition write_product_metafield (product_id namespace key : PyVal) (value : PyVal)
    (metafield_type : PyVal) (force_type : bool) : M PyVal :=
  (* Step 1: Get or determine metafield type *)
  let determined_type := metafield_type in
  do determined_type <-
    (if negb force_type then
       (* Try to get from existing definition *)
       do definition <- _get_cached_definition namespace key;
       (* If no definition, try to get from existing metafield on product *)
       if negb (truthy definition) then
         do existing_metafield <- get_product_metafield client product_id namespace key;
         if truthy existing_metafield then
           lift (py_get existing_metafield (lit "type") PNone)
         else ret determined_type
       else ret determined_type
     else ret determined_type);
  (* If still no type, use provided or raise error *)
  do determined_type <-
    (if negb (truthy determined_type) then
       if truthy metafield_type then ret metafield_type
       else throw ValueError
              (lit "Cannot determine metafield type for " ++ py_str namespace ++ lit "."
               ++ py_str key ++ lit ". "
               ++ lit "Please provide metafield_type or ensure definition exists.")
     else ret determined_type);
  (* Step 2: Transform value to match type *)
  do transformed_value <-
    lift (try_except (transform_value_dyn value determined_type) [ValueError]
            (fun e => raise ValueError
               (lit "Value transformation failed for " ++ py_str namespace ++ lit "."
                ++ py_str key ++ lit " (type: " ++ py_str determined_type ++ lit "): "
                ++ message e)));
  (* Step 3: Write metafield via GraphQL mutation *)
  let variables :=
    update_variables product_id namespace key determined_type transformed_value in
  try_catch
    (do result <- graphql_request client productUpdateMetafield variables;
     do update_result <- lift (py_get result (lit "productUpdate") (PDict []));
     (* Check for user errors *)
     do user_errors <- lift (py_get update_result (lit "userErrors") (PList []));
     if truthy user_errors then
       do messages <- lift (error_messages user_errors);
       throw Exception (lit "Metafield write failed: " ++ messages)
     else ret update_result)
    [Exception]
    (fun e =>
       (* Re-raise with context *)
       throw Exception
         (lit "Failed to write metafield " ++ py_str namespace ++ lit "." ++ py_str key
          ++ lit " to product " ++ py_str product_id ++ lit ": " ++ message e)).
End Writer.

(** ** [BatchMetafieldWriter] (batch_writer.py) *)

(** The [variables] of the batch mutation. *)
Definition batch_variables (product_id : PyVal) (processed_metafields identifiers : list PyVal)
  : PyVal :=
  PDict [(lit "input",
          PDict [(lit "id", product_id);
                 (lit "metafields", PList processed_metafields)]);
         (lit "identifiers", PList identifiers)].

Section Batch.
Variable client : ShopifyClient.

(** The body of the loop over [metafields]: the processed entry, or
    [None] when the entry is skipped. *)
Definition process_metafield (product_id : PyVal) (auto_detect_types : bool)
    (metafield : PyVal) : M (option PyVal) :=
  do namespace <- lift (py_get metafield (lit "namespace") PNone);
  do key <- lift (py_get metafield (lit "key") PNone);
  do value <- lift (py_get metafield (lit "value") PNone);
  do metafield_type <- lift (py_get metafield (lit "type") PNone);
  if negb (truthy namespace) || negb (truthy key) then ret None
  else
    (* Auto-detect type if needed *)
    do metafield_type <-
      (if auto_detect_types && negb (truthy metafield_type) then
         do definition <- _get_cached_definition client namespace key;
         if truthy definition then lift (py_get definition (lit "type") PNone)
         else
           do existing <- get_product_metafield client product_id namespace key;
           if truthy existing then lift (py_get existing (lit "type") PNone)
           else ret metafield_type
       else ret metafield_type);
    if negb (truthy metafield_type) then
      throw ValueError
        (lit "Cannot determine type for " ++ py_str namespace ++ lit "." ++ py_str key)
    else
      (* Transform value *)
      do transformed_value <- lift (transform_value_dyn value metafield_type);
      ret (Some (PDict [(lit "namespace", namespace); (lit "key", key);
                        (lit "type", metafield_type);
                        (lit "value", PStr transformed_value)])).

(** The loop: [processed] is [processed_metafields] so far. *)
Fixpoint process_metafields (product_id : PyVal) (auto_detect_types : bool)
    (metafields : list PyVal) (processed : list PyVal) : M (list PyVal) :=
  match metafields with
  | [] => ret processed
  | metafield :: rest =>
      do entry <- process_metafield product_id auto_detect_types metafield;
      match entry with
      | Some m => process_metafields product_id auto_detect_types rest (processed ++ [m])
      | None => process_metafields product_id auto_detect_types rest processed
      end
  end.

(** The [identifiers] of the processed entries. *)
Definition identifiers_of (processed : list PyVal) : Result (list PyVal) :=
  map_result
    (fun m =>
       ns ← py_getitem m (lit "namespace");
       k ← py_getitem m (lit "key");
       Ok (PDict [(lit "namespace", ns); (lit "key", k)]))
    processed.

(** [write_product_metafields_batch(product_id, metafields,
    auto_detect_types=True)] *)
Definition write_product_metafields_batch (product_id : PyVal)
    (metafields : list PyVal) (auto_detect_types : bool) : M PyVal :=
  (* Process each metafield *)
  do processed_metafields <-
    process_metafields product_id auto_detect_types metafields [];
  (* Batch mutation *)
  do identifiers <- lift (identifiers_of processed_metafields);
  let variables := batch_variables product_id processed_metafields identifiers in
  try_catch
    (do result <- graphql_request client productUpdateMetafields variables;
     do update_result <- lift (py_get result (lit "productUpdate") (PDict []));
     do user_errors <- lift (py_get update_result (lit "userErrors") (PList []));
     if truthy user_errors then
       do messages <- lift (error_messages user_errors);
       throw Exception (lit "Batch metafield write failed: " ++ messages)
     else ret update_result)
    [Exception]
    (fun e =>
       throw Exception
         (lit "Failed to write batch metafields to product " ++ py_str product_id
          ++ lit ": " ++ message e)).
End Batch.

(** ** Sample data for the concrete statements *)

Definition custom : PyVal := PStr (lit "custom").
Definition count : PyVal := PStr (lit "count").
Definition product_P1 : PyVal := PStr (lit "P1").

(** A cached definition of [custom.count] of type [number_integer]. *)
Definition count_definition : PyVal :=
  PDict [(lit "id", PStr (lit "gid://shopify/MetafieldDefinition/1"));
         (lit "namespace", custom); (lit "key", count);
         (lit "type", PStr (lit "number_integer")); (lit "name", PStr (lit "Count"))].

Definition store_with_definition : Store :=
  mk_store {[ lit "custom:count" := count_definition ]} [] [].

(** A remote end that knows no definition and no value and accepts every
    mutation. *)
Definition accepting_client : ShopifyClient :=
  mk_client (fun _ call =>
    match call_document call with
    | productUpdateMetafield | productUpdateMetafields =>
        Ok (PDict [(lit "productUpdate",
                    PDict [(lit "product", PDict [(lit "id", product_P1)]);
                           (lit "userErrors", PList [])])])
    | _ => Ok (PDict [])
    end).

(** A remote end whose every call fails. *)
Definition unreachable_client : ShopifyClient :=
  mk_client (fun _ _ => raise TransportError (lit "connection refused")).


(** A remote end that knows the definition of [custom.count]. *)
Definition defining_client : ShopifyClient :=
  mk_client (fun history call =>
    match call_document call with
    | getMetafieldDefinition =>
        Ok (PDict [(lit "metafieldDefinitions",
                    PDict [(lit "edges",
                            PList [PDict [(lit "node",
                              PDict [(lit "id", PStr (lit "gid://shopify/MetafieldDefinition/1"));
                                     (lit "name", PStr (lit "Count"));
                                     (lit "namespace", custom); (lit "key", count);
                                     (lit "type", PDict [(lit "name", PStr (lit "number_integer"))])])]])])])
    | _ => transport accepting_client history call
    end).

(** One user error, and a remote end that rejects every mutation with it. *)
Definition value_error : PyVal :=
  PDict [(lit "field", PStr (lit "value")); (lit "message", PStr (lit "is invalid"))].

Definition rejecting_client : ShopifyClient :=
  mk_client (fun _ call =>
    match call_document call with
    | productUpdateMetafield | productUpdateMetafields =>
        Ok (PDict [(lit "productUpdate",
                    PDict [(lit "product", PNone);
                           (lit "userErrors", PList [value_error])])])
    | _ => Ok (PDict [])
    end).

(** Two fields of a batch with explicit types. *)
Definition two_fields : list PyVal :=
  [PDict [(lit "namespace", custom); (lit "key", count); (lit "value", PInt 42);
          (lit "type", PStr (lit "number_integer"))];
   PDict [(lit "namespace", custom); (lit "key", PStr (lit "title"));
          (lit "value", PStr (lit "Hello")); (lit "type", PStr (lit "single_line_text_field"))]].

(** ** Auxiliary notions of the statements *)

(** The text of an integer branch result. *)
Definition integer_text (r : Result Z) : Result pystr := z ← r; Ok (str_of_Z z).

(** The transformer's own failure for an integer, and for a JSON value. *)
Definition invalid_integer (s : pystr) : exn :=
  mk_exn ValueError (lit "Cannot convert '" ++ s ++ lit "' to integer").

Definition invalid_json (s : pystr) : exn :=
  mk_exn ValueError (lit "Invalid JSON string: " ++ s).

(** The store after further transport calls and printed lines. *)
Definition logged (st : Store) (more_calls : list Call) (lines : list pystr) : Store :=
  mk_store (_definition_cache st) (calls st ++ more_calls) (printed st ++ lines).

(** The calls of the two lookups and of the two mutations. *)
Definition definition_call (namespace key : PyVal) : Call :=
  mk_call getMetafieldDefinition (definition_variables namespace key).

Definition metafield_call (product_id namespace key : PyVal) : Call :=
  mk_call getProductMetafield (metafield_variables product_id namespace key).

Definition update_call (product_id namespace key determined_type : PyVal)
    (transformed_value : pystr) : Call :=
  mk_call productUpdateMetafield
    (update_variables product_id namespace key determined_type transformed_value).

Definition batch_call (product_id : PyVal) (processed identifiers : list PyVal) : Call :=
  mk_call productUpdateMetafields (batch_variables product_id processed identifiers).

(** The cache key of a pair. *)
Definition cache_key_of (namespace key : PyVal) : pystr :=
  py_str namespace ++ lit ":" ++ py_str key.

(** The line of one user error in the message of a rejected write. *)
Definition error_line (e : list (pystr * PyVal)) : pystr :=
  py_str (dict_get e (lit "field") (PStr [])) ++ lit ": "
  ++ py_str (dict_get e (lit "message") (PStr [])).

(** The failure raised when no type can be determined. *)
Definition type_undeterminable (namespace key : PyVal) : exn :=
  mk_exn ValueError
    (lit "Cannot determine metafield type for " ++ py_str namespace ++ lit "."
     ++ py_str key ++ lit ". "
     ++ lit "Please provide metafield_type or ensure definition exists.").

(** What the definition lookup reads in the response of the transport. *)
Definition definition_of_response (data : PyVal) : Result (option PyVal) :=
  defs ← py_get data (lit "metafieldDefinitions") (PDict []);
  edges ← py_get defs (lit "edges") (PList []);
  if truthy edges then
    edge ← py_first edges;
    node ← py_getitem edge (lit "node");
    id ← py_getitem node (lit "id");
    ns ← py_getitem node (lit "namespace");
    k ← py_getitem node (lit "key");
    ty ← py_getitem node (lit "type");
    tyname ← py_getitem ty (lit "name");
    name ← py_get node (lit "name") PNone;
    Ok (Some (PDict [(lit "id", id); (lit "namespace", ns); (lit "key", k);
                     (lit "type", tyname); (lit "name", name)]))
  else Ok None.

(** What the existing-value lookup reads in the response. *)
Definition metafield_of_response (data : PyVal) : Result (option PyVal) :=
  product ← py_get data (lit "product") PNone;
  if truthy product then
    metafield ← py_get product (lit "metafield") PNone;
    if truthy metafield then
      m ← py_getitem product (lit "metafield");
      Ok (Some m)
    else Ok None
  else Ok None.

(** The outcome of a lookup whose reading of the response is [r]: a
    failure is printed and counts as absent. *)
Definition lookup_outcome (warning : pystr) (r : Result (option PyVal)) : PyVal * list pystr :=
  match r with
  | Ok (Some v) => (v, [])
  | Ok None => (PNone, [])
  | Raise e => (PNone, [warning ++ message e])
  end.

(** A processed entry of a batch. *)
Definition processed_entry (namespace key metafield_type : PyVal) (transformed_value : pystr)
  : PyVal :=
  PDict [(lit "namespace", namespace); (lit "key", key); (lit "type", metafield_type);
         (lit "value", PStr transformed_value)].

Definition is_processed_entry (m : PyVal) : Prop :=
  exists namespace key metafield_type transformed_value,
    m = processed_entry namespace key metafield_type transformed_value.

(** The failure of a batch rejected with the user errors [errors]. *)
Definition batch_rejected (product_id : PyVal) (errors : list (list (pystr * PyVal))) : exn :=
  mk_exn Exception
    (lit "Failed to write batch metafields to product " ++ py_str product_id ++ lit ": "
     ++ lit "Batch metafield write failed: "
     ++ str_join (lit "; ") (List.map error_line errors)).

(** ** What [json.loads] reads back from the text of [json.dumps] *)

(** The UTF-16 code units of a code point, and the escape of one unit. *)
Definition utf16_units (c : N) : list N :=
  if (c <? 65536)%N then [c]
  else
    let v := (c - 65536)%N in
    [(55296 + (v / 1024) mod 1024)%N; (56320 + v mod 1024)%N].

Definition escape_unit (u : N) : pystr :=
  if (u =? 34)%N then [92; 34]%N
  else if (u =? 92)%N then lit "\\"
  else if (u =? 10)%N then lit "\n"
  else if (u =? 13)%N then lit "\r"
  else if (u =? 9)%N then lit "\t"
  else if (u =? 12)%N then lit "\f"
  else if (u =? 8)%N then lit "\b"
  else if ((32 <=? u) && (u <=? 126))%N then [u]
  else lit "\u" ++ hex_fixed 4 u.

(** The string denoted by a sequence of code units: a high surrogate
    followed by a low one is one code point.  [pending] is a high surrogate
    that waits for its low half. *)
Fixpoint combine_units (pending : option N) (units : list N) : pystr :=
  match units with
  | [] => match pending with Some h => [h] | None => [] end
  | u :: units' =>
      match pending with
      | Some h =>
          if low_surrogate u then join_surrogates h u :: combine_units None units'
          else if high_surrogate u then h :: combine_units (Some u) units'
          else h :: u :: combine_units None units'
      | None =>
          if high_surrogate u then combine_units (Some u) units'
          else u :: combine_units None units'
      end
  end.

(** The string read back from the JSON text of [s]. *)
Definition reread_str (s : pystr) : pystr :=
  combine_units None (concat (List.map utf16_units s)).

(** The scanner state that matches a pending surrogate. *)
Definition state_of (pending : option N) : scan_state :=
  match pending with Some h => HighText h | None => InText end.

(** The text of a decimal numeral: sign, integer digits, fraction digits
    and exponent (sign and digits). *)
Definition numeral_text (neg : bool) (ip fp : list N) (ex : option (bool * list N))
  : pystr :=
  (if neg then [45%N] else [])
  ++ List.map digit_char ip
  ++ (match fp with [] => [] | _ => 46%N :: List.map digit_char fp end)
  ++ (match ex with
      | None => []
      | Some (eneg, eds) => 101%N :: (if eneg then 45%N else 43%N) :: List.map digit_char eds
      end).

Definition all_digits (ds : list N) : Prop := Forall (fun d => (d < 10)%N) ds.

(** A numeral of JSON: the integer part is [0] or starts with another
    digit; an exponent has digits. *)
Definition numeral_ok (ip fp : list N) (ex : option (bool * list N)) : Prop :=
  all_digits ip /\ all_digits fp
  /\ (ip = [0%N] \/ exists d ip', ip = d :: ip' /\ d <> 0%N)
  /\ match ex with
     | None => True
     | Some (_, eds) => all_digits eds /\ eds <> []
     end.

(** The value of the exponent of a numeral. *)
Definition exponent_value (ex : option (bool * list N)) : Z :=
  match ex with
  | None => 0
  | Some (eneg, eds) =>
      let x := Z.of_N (number_of_digits 0 eds) in if eneg then - x else x
  end.

(** Whether a numeral is read as a float. *)
Definition numeral_is_float (fp : list N) (ex : option (bool * list N)) : bool :=
  match fp, ex with
  | [], None => false
  | _, _ => true
  end.

(** The text after a value inside JSON text written by [json.dumps]:
    nothing, or a comma, a closing bracket or a closing brace. *)
Definition terminated (rest : pystr) : bool :=
  match rest with
  | [] => true
  | c :: _ => ((c =? 44) || (c =? 93) || (c =? 125))%N
  end.

(** A text that does not go on with a digit. *)
Definition no_digit_ahead (r : pystr) : Prop :=
  match r with
  | [] => True
  | c :: _ => is_digit c = false
  end.

(** The characters of a numeral. *)
Definition numeral_char (c : N) : Prop :=
  is_digit c = true \/ c = 45%N \/ c = 43%N \/ c = 46%N \/ c = 101%N.


(** The exponent part of a numeral. *)
Definition exponent_text (ex : option (bool * list N)) : pystr :=
  match ex with
  | None => []
  | Some (eneg, eds) => 101%N :: (if eneg then 45%N else 43%N) :: List.map digit_char eds
  end.

(** The fraction part of a numeral. *)
Definition fraction_text (fp : list N) : pystr :=
  match fp with [] => [] | _ => 46%N :: List.map digit_char fp end.


(** The value read from a numeral. *)
Definition numeral_value (neg : bool) (ip fp : list N) (ex : option (bool * list N)) : PyVal :=
  if numeral_is_float fp ex
  then PFloat (round_decimal neg (Z.of_N (number_of_digits 0 (ip ++ fp)))
                 (exponent_value ex - Z.of_nat (List.length fp)))
  else PInt (let x := Z.of_N (number_of_digits 0 ip) in if neg then - x else x).


(** [x >= 10^k] for the fraction [x = num/den], with integers only. *)
Definition at_least_pow10 (num den k : Z) : Prop :=
  if k <? 0 then den <= num * 10 ^ (- k) else den * 10 ^ k <= num.


(** The float read back from the JSON text of [f]. *)
Definition reread_float (f : pyfloat) : pyfloat :=
  match f with
  | FNaN | FInf _ => f
  | _ => match float_of_str (float_repr f) with
         | Ok f' => f'
         | Raise _ => f
         end
  end.

(** The value read back from the JSON text of [v]. *)
Fixpoint reread (v : PyVal) : PyVal :=
  match v with
  | PFloat f => PFloat (reread_float f)
  | PStr s => PStr (reread_str s)
  | PList l => PList (List.map reread l)
  | PDict d =>
      PDict (dict_of_pairs (List.map (fun kv => (reread_str (fst kv), reread (snd kv))) d))
  | _ => v
  end.

(** The text of the members of a dictionary, as [json.dumps] writes it. *)
Definition member_text (kv : pystr * PyVal) : pystr :=
  json_string (fst kv) ++ lit ": " ++ json_dumps (snd kv).

(** What the main statement says of one value. *)
Definition reads_back (v : PyVal) : Prop :=
  forall fuel rest,
    (List.length (json_dumps v) <= fuel)%nat -> terminated rest = true ->
    parse_value fuel (json_dumps v ++ rest) = Some (reread v, rest).


(** ** Auxiliary notions of the transformer's statements *)

(** The items that [_transform_list_value] iterates over. *)
Definition list_items (value : PyVal) : Result (list PyVal) :=
  value ←
    match value with
    | PList _ => Ok value
    | PStr s => try_except (json_loads s) [JSONDecodeError] (fun _ => Ok (PList [value]))
    | _ => Ok (PList [value])
    end;
  py_iter value.

(** The base type of a list type. *)
Definition base_type (list_type : pystr) : pystr := str_replace list_type (lit "list.") [].

(** A value that the list branch wraps as a single item: not a list, and
    not a string that [json.loads] accepts. *)
Definition single_item (value : PyVal) : bool :=
  match value with
  | PList _ => false
  | PStr s => match json_loads s with Ok _ => false | Raise _ => true end
  | _ => true
  end.

(** The JSON array of the transformed items. *)
Definition array_text (transformed_items : list pystr) : pystr :=
  json_dumps (PList (List.map PStr transformed_items)).

(** ** Values and texts that are stable under re-encoding *)

(** A float that [float] reads back from its [repr]. *)
Definition float_reads_back (f : pyfloat) : Prop := float_of_str (float_repr f) = Ok f.

(** A value that [json.loads] reads back from its JSON text without loss:
    its floats are read back as they are, and the keys of a dictionary stay
    distinct when they are read back. *)
Fixpoint plain (v : PyVal) : bool :=
  match v with
  | PFloat f => bool_decide (reread_float f = f)
  | PList l => forallb plain l
  | PDict d =>
      bool_decide (NoDup (List.map (fun kv => reread_str (fst kv)) d))
      && forallb (fun kv => plain (snd kv)) d
  | _ => true
  end.

(** The value that a JSON-valued type writes for [v]: [v] itself, or what
    [json.loads] reads when [v] is a string. *)
Definition json_plain (v : PyVal) : Prop :=
  match v with
  | PStr x =>
      match json_loads x with
      | Ok parsed => plain parsed = true
      | Raise _ => True
      end
  | _ => plain v = true
  end.

(** The inputs [v] of type [t], with the text [s] of their transformation,
    for which the re-encoding is stable.  [fuel] bounds the nesting of list
    types, as in [transform_value_fuel]. *)
Fixpoint reencodes (fuel : nat) (t : pystr) (v : PyVal) (s : pystr) : Prop :=
  match fuel with
  | O => False
  | S fuel' =>
      if startswith t (lit "list.") then
        exists items,
          list_items v = Ok items
          /\ Forall (fun item =>
                       exists si,
                         transform_value item (base_type t) = Ok si
                         /\ reread_str si = si
                         /\ reencodes fuel' (base_type t) item si) items
      else if decide (t = lit "json") then json_plain v
      else if decide (t = lit "number_integer") then
        exists n : Z, s = str_of_Z n /\ Z.abs n <= 2 ^ 53
      else if decide (t = lit "number_decimal") then
        exists f, py_float v = Ok f /\ float_reads_back f
      else if decide (t = lit "boolean") then s = lit "true" \/ s = lit "false"
      else if bool_decide (t ∈ [lit "dimension"; lit "volume"; lit "weight"]) then json_plain v
      else True
  end.

(** ** Further notions of the transformer's statements *)

(** The classes of the failures of [transform_value]. *)
Definition transformer_error (c : exn_class) : Prop :=
  c = ValueError \/ c = TypeError \/ c = OverflowError.

(** The transformer's own failure for a decimal, and for a value that the
    types [dimension], [volume] and [weight] refuse. *)
Definition invalid_decimal (s : pystr) : exn :=
  mk_exn ValueError (lit "Cannot convert '" ++ s ++ lit "' to decimal").

Definition not_a_dict (metafield_type : pystr) : exn :=
  mk_exn ValueError (metafield_type ++ lit " must be a dict or JSON string").

(** The failure of [for item in v] on a value that cannot be iterated. *)
Definition not_iterable (v : PyVal) : exn :=
  mk_exn TypeError (lit "'" ++ type_name v ++ lit "' object is not iterable").

(** The printable characters of ASCII. *)
Definition printable_ascii (c : N) : Prop := (32 <= c <= 126)%N.

(** The decimal [mant * 10^exp10] is the integer [n]. *)
Definition denotes_integer (mant exp10 n : Z) : Prop :=
  if exp10 <? 0 then mant = n * 10 ^ (- exp10) else n = mant * 10 ^ exp10.

(** The special type names of [transform_value], apart from the list
    types. *)
Definition special_type (t : pystr) : Prop :=
  t = lit "json" \/ t = lit "number_integer" \/ t = lit "number_decimal"
  \/ t = lit "boolean" \/ t ∈ [lit "dimension"; lit "volume"; lit "weight"].

(** The types whose values are written as JSON text. *)
Definition json_valued (t : pystr) : Prop :=
  startswith t (lit "list.") = true \/ t = lit "json"
  \/ t ∈ [lit "dimension"; lit "volume"; lit "weight"].

(** A value that is neither a string nor a list nor a dictionary. *)
Definition json_scalar (v : PyVal) : bool :=
  match v with
  | PNone | PBool _ | PInt _ | PFloat _ => true
  | _ => false
  end.

(** ** Further notions of the writers' statements *)

(** A call of one of the two lookups. *)
Definition is_lookup (c : Call) : Prop :=
  call_document c = getMetafieldDefinition \/ call_document c = getProductMetafield.

(** What a write reads in the response of its mutation: the value that it
    returns, or the failure raised inside the [try] block.  [failure] is the
    prefix of the message for user errors. *)
Definition update_of_response (failure : pystr) (data : PyVal) : Result PyVal :=
  update_result ← py_get data (lit "productUpdate") (PDict []);
  user_errors ← py_get update_result (lit "userErrors") (PList []);
  if truthy user_errors then
    messages ← error_messages user_errors;
    raise Exception (failure ++ messages)
  else Ok update_result.

(** The outcome of the mutation step for the answer [r] of the transport:
    every failure is raised again as an [Exception] with the context of the
    write in front of its message. *)
Definition mutation_outcome (context failure : pystr) (r : Result PyVal) : Result PyVal :=
  match r ≫= update_of_response failure with
  | Ok update_result => Ok update_result
  | Raise e => Raise (mk_exn Exception (context ++ message e))
  end.

Definition write_context (product_id namespace key : PyVal) : pystr :=
  lit "Failed to write metafield " ++ py_str namespace ++ lit "." ++ py_str key
  ++ lit " to product " ++ py_str product_id ++ lit ": ".

Definition batch_context (product_id : PyVal) : pystr :=
  lit "Failed to write batch metafields to product " ++ py_str product_id ++ lit ": ".

(** The failure of a write whose value cannot be transformed. *)
Definition transformation_failed (namespace key determined_type : PyVal) (msg : pystr) : exn :=
  mk_exn ValueError
    (lit "Value transformation failed for " ++ py_str namespace ++ lit "." ++ py_str key
     ++ lit " (type: " ++ py_str determined_type ++ lit "): " ++ msg).

(** The failure of a batch entry without a type. *)
Definition batch_type_undeterminable (namespace key : PyVal) : exn :=
  mk_exn ValueError
    (lit "Cannot determine type for " ++ py_str namespace ++ lit "." ++ py_str key).

(** An entry that the loop of the batch skips: a dictionary without a
    namespace or without a key (missing, [None] or empty). *)
Definition skipped_entry (metafield : PyVal) : Prop :=
  exists d,
    metafield = PDict d
    /\ (truthy (dict_get d (lit "namespace") PNone) = false
        \/ truthy (dict_get d (lit "key") PNone) = false).

(** An entry that carries its namespace, its key and its type. *)
Definition typed_entry (metafield : PyVal) : Prop :=
  exists d,
    metafield = PDict d
    /\ truthy (dict_get d (lit "type") PNone) = true.

(** A remote end that knows no definition, holds the value [5] of type
    [number_integer] for every product and key, and accepts every
    mutation. *)
Definition valued_client : ShopifyClient :=
  mk_client (fun history call =>
    match call_document call with
    | getProductMetafield =>
        Ok (PDict [(lit "product",
                    PDict [(lit "metafield",
                            PDict [(lit "id", PStr (lit "gid://shopify/Metafield/1"));
                                   (lit "namespace", custom); (lit "key", count);
                                   (lit "type", PStr (lit "number_integer"));
                                   (lit "value", PStr (lit "5"))])])])
    | _ => transport accepting_client history call
    end).

(** The first step of [write_product_metafield] without [force_type]: the
    type that the lookups leave in [determined_type]. *)
Definition type_resolution (client : ShopifyClient)
    (product_id namespace key metafield_type : PyVal) : M PyVal :=
  do definition <- _get_cached_definition client namespace key;
  if negb (truthy definition) then
    do existing_metafield <- get_product_metafield client product_id namespace key;
    if truthy existing_metafield then
      lift (py_get existing_metafield (lit "type") PNone)
    else ret metafield_type
  else ret metafield_type.

(** A remote end that answers every call with an empty [data]. *)
Definition silent_client : ShopifyClient := mk_client (fun _ _ => Ok (PDict [])).

(** The type detection of the batch for an entry without a type: the
    type of the definition, or else of the value on the product. *)
Definition batch_type_resolution (client : ShopifyClient)
    (product_id namespace key metafield_type : PyVal) : M PyVal :=
  do definition <- _get_cached_definition client namespace key;
  if truthy definition then lift (py_get definition (lit "type") PNone)
  else
    do existing <- get_product_metafield client product_id namespace key;
    if truthy existing then lift (py_get existing (lit "type") PNone)
    else ret metafield_type.

(** ** [ShopifyClient]: the address and the response of a request
    (shopify_client.py) *)

(** [s.lstrip(c)] and [s.rstrip(c)] for one character [c]. *)
Fixpoint lstrip_char (c : N) (s : pystr) : pystr :=
  match s with
  | x :: s' => if (x =? c)%N then lstrip_char c s' else s
  | [] => []
  end.

Definition rstrip_char (c : N) (s : pystr) : pystr := rev (lstrip_char c (rev s)).

(** The attributes that [__init__] sets from its arguments (the session
    with its retry policy and headers is part of the transport). *)
Record ClientConfig : Type := mk_config {
  shop_domain : pystr;
  access_token : pystr;
  api_version : pystr;
  base_url : pystr
}.

(** [ShopifyClient(shop_domain, access_token, api_version)] *)
Definition init_config (shop_domain access_token api_version : pystr) : ClientConfig :=
  let shop_domain := rstrip_char 47 shop_domain in
  mk_config shop_domain access_token api_version
    (lit "https://" ++ shop_domain ++ lit "/admin/api/" ++ api_version).

(** The [url] of [graphql_request]. *)
Definition graphql_url (self : ClientConfig) : pystr := base_url self ++ lit "/graphql.json".







(** ** Notions of the statements on the integer branch and on failing
    lookups *)

(** A float that is a number and not an infinity. *)
Definition is_finite (f : pyfloat) : bool :=
  match f with
  | FZero _ | FNum _ _ _ => true
  | FNaN | FInf _ => false
  end.

(** [z] is the finite float [f] truncated toward zero: [z] has the sign
    of [f] and [|z| <= |f| < |z| + 1], where [|f|] is the fraction
    [num/den]. *)
Definition truncates (f : pyfloat) (z : Z) : Prop :=
  match f with
  | FZero _ => z = 0
  | FNum neg m e =>
      let num := if e <? 0 then Z.pos m else Z.pos m * 2 ^ e in
      let den := if e <? 0 then 2 ^ (- e) else 1 in
      exists q : Z,
        0 <= q /\ q * den <= num < (q + 1) * den /\ z = (if neg then - q else q)
  | FNaN | FInf _ => False
  end.


(* ===================================================================== *)
(** * Part III: properties *)
(* ===================================================================== *)

(** ** The [Result] monad and the store monad *)

Lemma result_bind_Ok {A B} (f : A -> Result B) (a : A) : (Ok a ≫= f) = f a.
Proof. reflexivity. Qed.

Lemma result_bind_Raise {A B} (f : A -> Result B) (e : exn) : (Raise e ≫= f) = Raise e.
Proof. reflexivity. Qed.

Lemma isinstance_Exception (e : exn) : isinstance e [Exception] = true.
Proof. destruct e as [c m]; destruct c; reflexivity. Qed.

(** ** Type names and dispatch *)

(** The branch of a non-list type does not depend on the fuel. *)
Lemma transform_fuel_scalar fuel v t :
  startswith t (lit "list.") = false ->
  transform_value_fuel (S fuel) v t = transform_value_fuel 1 v t.
Proof. intros H. cbn [transform_value_fuel]. rewrite H. reflexivity. Qed.

Lemma transform_scalar v t :
  startswith t (lit "list.") = false ->
  transform_value v t = transform_value_fuel 1 v t.
Proof. apply transform_fuel_scalar. Qed.

(** ** Booleans *)

Lemma transform_boolean_bool (b : bool) :
  transform_value (PBool b) (lit "boolean")
  = Ok (if b then lit "true" else lit "false").
Proof. destruct b; reflexivity. Qed.

Lemma transform_boolean_word (s : pystr) :
  str_lower s ∈ [lit "true"; lit "false"] ->
  transform_value (PStr s) (lit "boolean") = Ok (str_lower s).
Proof.
  intros H. rewrite transform_scalar by reflexivity. cbn.
  rewrite bool_decide_eq_true_2 by exact H. reflexivity.
Qed.

(** A string that is neither word comes out capitalised. *)
Lemma transform_boolean_other (s : pystr) :
  str_lower s ∉ [lit "true"; lit "false"] ->
  transform_value (PStr s) (lit "boolean")
  = Ok (match s with [] => lit "False" | _ => lit "True" end).
Proof.
  intros H. rewrite transform_scalar by reflexivity. cbn.
  rewrite bool_decide_eq_false_2 by exact H. destruct s; reflexivity.
Qed.

(** C2 (the code departs from the claim): on the string [yes] the boolean
    branch returns the capitalised text [True], the [str] of the host
    boolean, where the claim has the lower-case [true]; the Boolean inputs
    and the word [FALSE] do come out in lower case. *)
Theorem boolean_fallback_is_capitalised :
  transform_value (PStr (lit "yes")) (lit "boolean") = Ok (lit "True")
  /\ transform_value (PStr []) (lit "boolean") = Ok (lit "False")
  /\ transform_value (PBool true) (lit "boolean") = Ok (lit "true")
  /\ transform_value (PBool false) (lit "boolean") = Ok (lit "false")
  /\ transform_value (PStr (lit "FALSE")) (lit "boolean") = Ok (lit "false").
Proof. repeat split; reflexivity. Qed.

(** ** Integers *)


(** A string goes through [float] and then [int]; a [ValueError] of either
    becomes the transformer's own failure. *)
Lemma transform_integer_str (s : pystr) :
  transform_value (PStr s) (lit "number_integer")
  = try_except (float_value ← float_of_str s; integer_text (int_of_float float_value))
      [ValueError; TypeError]
      (fun _ => raise ValueError (lit "Cannot convert '" ++ s ++ lit "' to integer")).
Proof.
  rewrite transform_scalar by reflexivity. cbn.
  destruct (float_of_str s) as [f|e]; cbn; [|reflexivity].
  destruct (int_of_float f); reflexivity.
Qed.

(** Every other value is handed to [int] as it is. *)
Lemma transform_integer_other (v : PyVal) :
  (forall s, v <> PStr s) ->
  transform_value v (lit "number_integer") = integer_text (py_int v).
Proof.
  intros H. rewrite transform_scalar by reflexivity. cbn.
  destruct v; try reflexivity. destruct (H s eq_refl).
Qed.

Lemma float_of_str_raises (s : pystr) (e : exn) :
  float_of_str s = Raise e -> cls e = ValueError.
Proof.
  unfold float_of_str.
  destruct (_ ≫= parse_float_literal); [discriminate|].
  intros H; injection H as <-; reflexivity.
Qed.

(** ** Decimal digits *)

Lemma number_of_digits_app acc ds1 ds2 :
  number_of_digits acc (ds1 ++ ds2) = number_of_digits (number_of_digits acc ds1) ds2.
Proof. revert acc; induction ds1 as [|d ds1 IH]; intros acc; simpl; [reflexivity|apply IH]. Qed.

Lemma digits_fuel_spec fuel n acc :
  (n < 2 ^ N.of_nat fuel)%N -> (0 < fuel)%nat ->
  forall a, number_of_digits a (digits_fuel fuel n acc)
            = number_of_digits (a * 10 ^ (N.of_nat (List.length (digits_fuel fuel n []))) + n)%N acc.
Proof.
  revert n acc; induction fuel as [|fuel IH]; intros n acc Hn Hf a; [lia|].
  cbn [digits_fuel].
  destruct (n / 10 =? 0)%N eqn:E.
  - apply N.eqb_eq in E. cbn [List.length number_of_digits].
    apply N.div_small_iff in E; [|lia]. rewrite N.mod_small by lia.
    f_equal. change (N.of_nat 1) with 1%N. lia.
  - apply N.eqb_neq in E.
    assert (Hf' : (0 < fuel)%nat).
    { destruct fuel; [|lia]. exfalso. apply E.
      change (2 ^ N.of_nat 1)%N with 2%N in Hn. apply N.div_small. lia. }
    assert (Hn' : (n / 10 < 2 ^ N.of_nat fuel)%N).
    { apply N.Div0.div_lt_upper_bound.
      rewrite Nat2N.inj_succ, N.pow_succ_r' in Hn. lia. }
    rewrite (IH (n / 10)%N ((n mod 10)%N :: acc) Hn' Hf' a).
    cbn [number_of_digits].
    assert (HL : forall m x, (0 < fuel)%nat ->
              List.length (digits_fuel fuel m [x]) = S (List.length (digits_fuel fuel m []))).
    { clear. induction fuel as [|fuel IH]; intros m x Hf; [lia|].
      cbn [digits_fuel]. destruct (m / 10 =? 0)%N; [reflexivity|].
      destruct fuel as [|fuel']; [reflexivity|].
      assert (G : forall k m l, List.length (digits_fuel k m l)
                  = (List.length (digits_fuel k m []) + List.length l)%nat).
      { clear. induction k as [|k IHk]; intros m l; [reflexivity|].
        cbn [digits_fuel]. destruct (m / 10 =? 0)%N; cbn [List.length]; [lia|].
        rewrite (IHk _ (_ :: l)), (IHk _ [_]). cbn [List.length]. lia. }
      rewrite (G _ _ [_; x]), (G _ _ [_]). cbn [List.length]. lia. }
    rewrite (HL _ _ Hf'). rewrite Nat2N.inj_succ, N.pow_succ_r'.
    f_equal. pose proof (N.div_mod n 10). lia.
Qed.

(** The digits of [n] denote [n]. *)
Lemma number_of_digits_of_N (n : N) : number_of_digits 0 (digits_of_N n) = n.
Proof.
  unfold digits_of_N.
  rewrite (digits_fuel_spec _ n [] ) with (a := 0%N).
  - reflexivity.
  - destruct n as [|p]; [reflexivity|].
    rewrite Nat2N.inj_succ, N2Nat.id. apply N.log2_spec. lia.
  - lia.
Qed.

Lemma str_of_N_digits (n : N) : span_digits (str_of_N n) = (digits_of_N n, []).
Proof.
  unfold str_of_N.
  assert (H : Forall (fun d => (d < 10)%N) (digits_of_N n)).
  { unfold digits_of_N. generalize (S (N.to_nat (N.log2 n))) as fuel.
    assert (G : forall fuel m acc, Forall (fun d => (d < 10)%N) acc ->
                 Forall (fun d => (d < 10)%N) (digits_fuel fuel m acc)).
    { induction fuel as [|fuel IH]; intros m acc Hacc; [exact Hacc|].
      cbn [digits_fuel].
      assert (Forall (fun d => (d < 10)%N) ((m mod 10)%N :: acc)).
      { constructor; [apply N.mod_lt; lia|exact Hacc]. }
      destruct (m / 10 =? 0)%N; [assumption|apply IH; assumption]. }
    intros fuel. apply G. constructor. }
  induction H as [|d ds Hd _ IH]; [reflexivity|].
  cbn [List.map span_digits].
  assert (E : is_digit (digit_char d) = true).
  { unfold is_digit, digit_char. apply andb_true_intro.
    split; apply N.leb_le; lia. }
  rewrite E, IH. f_equal. f_equal. unfold digit_char. lia.
Qed.

Lemma after_char_digits (c : N) (ds : list N) :
  (c < 48)%N -> after_char c (List.map digit_char ds) = None.
Proof.
  intros H. destruct ds as [|d ds]; [reflexivity|].
  cbn [List.map after_char]. unfold digit_char.
  rewrite (proj2 (N.eqb_neq (48 + d) c)) by lia. reflexivity.
Qed.

(** [str(z)] is the base-10 numeral of [z]. *)
Lemma int_of_lexeme_str_of_Z (z : Z) : int_of_lexeme (str_of_Z z) = z.
Proof.
  unfold str_of_Z, int_of_lexeme. destruct (z <? 0) eqn:E.
  - change (lit "-" ++ str_of_N (Z.abs_N z)) with (45%N :: str_of_N (Z.abs_N z)).
    cbn [after_char N.eqb Pos.eqb]. rewrite str_of_N_digits. cbn [fst].
    rewrite number_of_digits_of_N. apply Z.ltb_lt in E. lia.
  - apply Z.ltb_ge in E. unfold str_of_N at 1.
    rewrite after_char_digits by lia.
    rewrite str_of_N_digits. cbn [fst]. rewrite number_of_digits_of_N. lia.
Qed.

(** C10: in the integer branch every value that is not a string is handed
    to [int] unguarded: Booleans give [1] and [0], [None], lists and
    dictionaries raise the host's [TypeError]; the transformer's own failure
    arises from strings only. *)
Theorem number_integer_guard_only_for_strings :
  (forall v : PyVal,
     transform_value v (lit "number_integer")
     = match v with
       | PStr s =>
           try_except (float_value ← float_of_str s; integer_text (int_of_float float_value))
             [ValueError; TypeError] (fun _ => Raise (invalid_integer s))
       | _ => integer_text (py_int v)
       end)
  /\ transform_value (PBool true) (lit "number_integer") = Ok (lit "1")
  /\ transform_value (PBool false) (lit "number_integer") = Ok (lit "0")
  /\ (exists msg, transform_value PNone (lit "number_integer") = Raise (mk_exn TypeError msg))
  /\ (forall l, exists msg,
        transform_value (PList l) (lit "number_integer") = Raise (mk_exn TypeError msg))
  /\ (forall d, exists msg,
        transform_value (PDict d) (lit "number_integer") = Raise (mk_exn TypeError msg))
  /\ (forall (v : PyVal) (s : pystr),
        transform_value v (lit "number_integer") = Raise (invalid_integer s) -> v = PStr s).
Proof.
  split; [|split; [|split; [|split; [|split; [|split]]]]].
  - intros v. destruct v; reflexivity.
  - reflexivity.
  - reflexivity.
  - eexists. reflexivity.
  - intros l. eexists. reflexivity.
  - intros d. eexists. reflexivity.
  - intros v s H.
    destruct v as [|b|z|f|s'|l|d].
    + discriminate H.
    + destruct b; discriminate H.
    + discriminate H.
    + destruct f; discriminate H.
    + rewrite transform_integer_str in H.
      assert (G : forall r : Result pystr, try_except r [ValueError; TypeError]
                    (fun _ => raise ValueError (lit "Cannot convert '" ++ s' ++ lit "' to integer"))
                  = Raise (invalid_integer s) ->
                  (forall e, r = Raise e -> message e <> message (invalid_integer s)) ->
                  s' = s).
      { intros r Hr Hne. destruct r as [a|e]; [discriminate Hr|].
        unfold try_except in Hr. destruct (isinstance e [ValueError; TypeError]).
        - unfold raise, invalid_integer in Hr. injection Hr as Hr.
          try apply app_inv_head in Hr. apply app_inv_tail in Hr. exact Hr.
        - exfalso. apply (Hne e eq_refl). injection Hr as ->. reflexivity. }
      f_equal. eapply G; [exact H|].
      intros e He. destruct (float_of_str s') as [f|e'] eqn:Ef.
      * cbn in He. destruct f; cbn in He; try discriminate He;
          injection He as <-; cbn; discriminate.
      * cbn in He. injection He as <-. unfold float_of_str in Ef.
        destruct (_ ≫= parse_float_literal); [discriminate|].
        injection Ef as <-. cbn. discriminate.
    + discriminate H.
    + discriminate H.
Qed.

(** The last part of C10 at the string [abc]. *)
Lemma number_integer_guard_witness :
  transform_value (PStr (lit "abc")) (lit "number_integer") = Raise (invalid_integer (lit "abc"))
  /\ PStr (lit "abc") = PStr (lit "abc").
Proof.
  split; [vm_compute; reflexivity|].
  apply (proj2 (proj2 (proj2 (proj2 (proj2 (proj2 number_integer_guard_only_for_strings)))))).
  vm_compute; reflexivity.
Defined.

(** ** The store monad *)

Lemma bind_run {A B} (m : M A) (k : A -> M B) st a st' :
  m st = (Ok a, st') -> bind m k st = k a st'.
Proof. intros H. unfold bind. rewrite H. reflexivity. Qed.

Lemma bind_run_raise {A B} (m : M A) (k : A -> M B) st e st' :
  m st = (Raise e, st') -> bind m k st = (Raise e, st').
Proof. intros H. unfold bind. rewrite H. reflexivity. Qed.

Lemma bind_lift {A B} (r : Result A) (k : A -> M B) st :
  bind (lift r) k st = match r with Ok a => k a st | Raise e => (Raise e, st) end.
Proof. unfold bind, lift. destruct r; reflexivity. Qed.

Lemma logged_nil st : logged st [] [] = st.
Proof. destruct st. unfold logged. cbn. rewrite !app_nil_r. reflexivity. Qed.

Lemma logged_logged st c1 l1 c2 l2 :
  logged (logged st c1 l1) c2 l2 = logged st (c1 ++ c2) (l1 ++ l2).
Proof. unfold logged. cbn. rewrite !app_assoc. reflexivity. Qed.

(** Bring a store built from [st] into the form [logged st _ _]. *)
Ltac store_norm :=
  unfold logged; cbn [calls printed _definition_cache];
  rewrite ?app_nil_r, <- ?app_assoc; cbn [app].

Lemma graphql_request_run client query variables st :
  graphql_request client query variables st
  = (transport client (calls st) (mk_call query variables),
     logged st [mk_call query variables] []).
Proof. unfold graphql_request. store_norm. reflexivity. Qed.

(** ** The lookup collaborators *)

Ltac run_lookup r :=
  unfold bind, try_catch, lift, ret, print, graphql_request;
  cbn [calls printed _definition_cache];
  destruct r as [data|e]; cbn [mbind Result_bind lookup_outcome];
  [|rewrite isinstance_Exception; store_norm; reflexivity];
  repeat
    (match goal with
     | |- context [match ?x with Ok _ => _ | Raise _ => _ end] =>
         destruct x as [?|?]; cbn [mbind Result_bind lookup_outcome fst snd];
         [|rewrite isinstance_Exception; store_norm; reflexivity]
     | |- context [if truthy ?x then _ else _] =>
         destruct (truthy x); cbn [mbind Result_bind lookup_outcome fst snd];
         [|store_norm; reflexivity]
     end);
  store_norm; reflexivity.

(** The definition lookup never raises: it makes one call, leaves the
    cache alone, and a failure of the transport or of the reading of its
    response is printed and gives [None]. *)
Lemma get_definition_run client ns key st :
  get_product_metafield_definition client ns key st
  = let out := lookup_outcome (lit "Warning: Could not fetch metafield definition: ")
                 (transport client (calls st) (definition_call ns key)
                  ≫= definition_of_response) in
    (Ok (fst out), logged st [definition_call ns key] (snd out)).
Proof.
  unfold get_product_metafield_definition, definition_of_response, definition_call.
  cbv zeta.
  run_lookup (transport client (calls st)
                (mk_call getMetafieldDefinition (definition_variables ns key))).
Qed.

(** The same for the lookup of the existing value. *)
Lemma get_metafield_run client pid ns key st :
  get_product_metafield client pid ns key st
  = let out := lookup_outcome (lit "Warning: Could not fetch product metafield: ")
                 (transport client (calls st) (metafield_call pid ns key)
                  ≫= metafield_of_response) in
    (Ok (fst out), logged st [metafield_call pid ns key] (snd out)).
Proof.
  unfold get_product_metafield, metafield_of_response, metafield_call.
  cbv zeta.
  run_lookup (transport client (calls st)
                (mk_call getProductMetafield (metafield_variables pid ns key))).
Qed.

(** ** The definition cache *)

Lemma cached_definition_hit client ns key st d :
  _definition_cache st !! cache_key_of ns key = Some d ->
  _get_cached_definition client ns key st = (Ok d, st).
Proof.
  intros H. unfold _get_cached_definition, bind, cache_get, ret.
  fold (cache_key_of ns key). rewrite H. cbn. rewrite H. reflexivity.
Qed.

Lemma cached_definition_miss client ns key st :
  _definition_cache st !! cache_key_of ns key = None ->
  _get_cached_definition client ns key st
  = let out := lookup_outcome (lit "Warning: Could not fetch metafield definition: ")
                 (transport client (calls st) (definition_call ns key)
                  ≫= definition_of_response) in
    if truthy (fst out)
    then (Ok (fst out),
          mk_store (<[cache_key_of ns key := fst out]> (_definition_cache st))
                   (calls st ++ [definition_call ns key]) (printed st ++ snd out))
    else (Ok PNone, logged st [definition_call ns key] (snd out)).
Proof.
  intros H. unfold _get_cached_definition.
  fold (cache_key_of ns key).
  unfold bind at 1. unfold cache_get at 1. rewrite H.
  unfold bind at 1. unfold bind at 1. rewrite get_definition_run. cbv zeta.
  destruct (truthy (fst _)) eqn:E.
  - unfold cache_set, bind, cache_get, ret. rewrite E.
    cbn [_definition_cache logged calls printed].
    rewrite lookup_insert_eq. reflexivity.
  - unfold bind, cache_get, ret. rewrite E.
    cbn [_definition_cache logged calls printed].
    rewrite H. reflexivity.
Qed.

(** A definition read from a response is a non-empty dictionary. *)
Lemma definition_found_truthy data v :
  definition_of_response data = Ok (Some v) -> truthy v = true.
Proof.
  unfold definition_of_response.
  repeat (match goal with
          | |- context [mbind _ ?x] =>
              destruct x; cbn [mbind Result_bind]; try discriminate
          | |- context [if truthy ?x then _ else _] =>
              destruct (truthy x); cbn [mbind Result_bind]; try discriminate
          end).
  intros H; injection H as <-. reflexivity.
Qed.

(** C9: the definition cache is insert-once and never caches absence.  A
    stored definition is returned as it is, without any call and without any
    change of the store; on a miss the collaborator is called once, a found
    definition is stored under the key, and when the collaborator reports
    nothing the cache is left as it was, so that the pair is still missing
    and the next lookup calls the collaborator again. *)
Theorem definition_cache_insert_once
    (client : ShopifyClient) (ns key : PyVal) (st : Store) :
  (forall d, _definition_cache st !! cache_key_of ns key = Some d ->
     _get_cached_definition client ns key st = (Ok d, st))
  /\ (_definition_cache st !! cache_key_of ns key = None ->
      forall d st1, get_product_metafield_definition client ns key st = (Ok d, st1) ->
        calls st1 = calls st ++ [definition_call ns key]
        /\ (truthy d = true ->
            exists st2,
              _get_cached_definition client ns key st = (Ok d, st2)
              /\ _definition_cache st2 = <[cache_key_of ns key := d]> (_definition_cache st)
              /\ calls st2 = calls st1
              /\ _get_cached_definition client ns key st2 = (Ok d, st2))
        /\ (truthy d = false ->
            _get_cached_definition client ns key st = (Ok PNone, st1)
            /\ _definition_cache st1 = _definition_cache st
            /\ exists r st2,
                 _get_cached_definition client ns key st1 = (r, st2)
                 /\ calls st2 = calls st ++ [definition_call ns key; definition_call ns key])).
Proof.
  split.
  - intros d H. apply cached_definition_hit. exact H.
  - intros Hmiss d st1 Hget.
    pose proof (cached_definition_miss client ns key st Hmiss) as Hrun.
    rewrite get_definition_run in Hget. cbv zeta in Hget, Hrun.
    injection Hget as Hd Hst1. rewrite Hd in Hrun.
    split; [rewrite <- Hst1; reflexivity|]. split.
    + intros Ht. rewrite Ht in Hrun. eexists. split; [exact Hrun|].
      split; [reflexivity|]. split; [rewrite <- Hst1; reflexivity|].
      apply cached_definition_hit. cbn. apply lookup_insert_eq.
    + intros Ht. rewrite Ht in Hrun. rewrite Hst1 in Hrun.
      assert (Hd' : d = PNone).
      { revert Hd Ht. clear.
        destruct (_ ≫= definition_of_response) as [[v|]|e] eqn:E; cbn; intros <-;
          try reflexivity.
        intros Ht. exfalso.
        destruct (transport _ _ _) as [data|e]; [|discriminate].
        apply definition_found_truthy in E. congruence. }
      split; [exact Hrun|]. split; [rewrite <- Hst1; reflexivity|].
      assert (Hmiss1 : _definition_cache st1 !! cache_key_of ns key = None).
      { rewrite <- Hst1. exact Hmiss. }
      pose proof (cached_definition_miss client ns key st1 Hmiss1) as Hrun1.
      cbv zeta in Hrun1.
      destruct (truthy (fst _)) in Hrun1; eexists _, _; (split; [exact Hrun1|]);
        rewrite <- Hst1; store_norm; reflexivity.
Qed.

(** ** The single write *)

(** With [force_type] the type resolution is skipped. *)
Lemma write_resolved client pid ns key value mt st st' :
  (do definition <- _get_cached_definition client ns key;
   if negb (truthy definition) then
     do existing_metafield <- get_product_metafield client pid ns key;
     if truthy existing_metafield then
       lift (py_get existing_metafield (lit "type") PNone)
     else ret mt
   else ret mt) st = (Ok mt, st') ->
  write_product_metafield client pid ns key value mt false st
  = write_product_metafield client pid ns key value mt true st'.
Proof.
  intros H. unfold write_product_metafield. cbn [negb].
  rewrite (bind_run _ _ _ _ _ H). reflexivity.
Qed.

(** When a definition is cached, the single write does not look at it: it
    goes on with the explicit type exactly as under [force_type]. *)
Lemma write_with_cached_definition client pid ns key value mt st d :
  _definition_cache st !! cache_key_of ns key = Some d ->
  truthy d = true ->
  write_product_metafield client pid ns key value mt false st
  = write_product_metafield client pid ns key value mt true st.
Proof.
  intros Hd Ht. apply write_resolved.
  rewrite (bind_run _ _ _ _ _ (cached_definition_hit client ns key st d Hd)).
  rewrite Ht. reflexivity.
Qed.

(** C1 (the code departs from the claim): [custom.count] has a cached
    definition of type [number_integer]; the write of the text [abc] with the
    explicit type [single_line_text_field] and [force_type=False] sends the
    mutation with the explicit type, where the definition's type would have
    refused the value; and the same write without an explicit type fails
    although the definition is there. *)
Theorem single_write_ignores_definition_type :
  _definition_cache store_with_definition !! cache_key_of custom count = Some count_definition
  /\ py_get count_definition (lit "type") PNone = Ok (PStr (lit "number_integer"))
  /\ calls (snd (write_product_metafield accepting_client product_P1 custom count
                   (PStr (lit "abc")) (PStr (lit "single_line_text_field")) false
                   store_with_definition))
     = [update_call product_P1 custom count (PStr (lit "single_line_text_field")) (lit "abc")]
  /\ transform_value (PStr (lit "abc")) (lit "number_integer")
     = Raise (invalid_integer (lit "abc"))
  /\ fst (write_product_metafield accepting_client product_P1 custom count
            (PStr (lit "abc")) PNone false store_with_definition)
     = Raise (type_undeterminable custom count)
  /\ write_product_metafield accepting_client product_P1 custom count
       (PStr (lit "abc")) (PStr (lit "single_line_text_field")) false store_with_definition
     = write_product_metafield accepting_client product_P1 custom count
         (PStr (lit "abc")) (PStr (lit "single_line_text_field")) true store_with_definition.
Proof.
  split; [vm_compute; reflexivity|].
  split; [vm_compute; reflexivity|].
  split; [vm_compute; reflexivity|].
  split; [vm_compute; reflexivity|].
  split; [vm_compute; reflexivity|].
  apply (write_with_cached_definition _ _ _ _ _ _ _ count_definition);
    vm_compute; reflexivity.
Qed.



(** ** The batched write *)

Lemma map_result_app {A B} (f : A -> Result B) (xs ys : list A) (xs' ys' : list B) :
  map_result f xs = Ok xs' -> map_result f ys = Ok ys' ->
  map_result f (xs ++ ys) = Ok (xs' ++ ys').
Proof.
  revert xs'; induction xs as [|x xs IH]; intros xs' Hx Hy.
  - injection Hx as <-. exact Hy.
  - cbn [map_result app] in *. destruct (f x) as [y|e]; [|discriminate].
    destruct (map_result f xs) as [zs|e]; [|discriminate].
    injection Hx as <-. rewrite (IH zs eq_refl Hy). reflexivity.
Qed.

Lemma process_metafield_entry client pid auto metafield st m st' :
  process_metafield client pid auto metafield st = (Ok (Some m), st') ->
  is_processed_entry m.
Proof.
  unfold process_metafield.
  repeat (rewrite bind_lift;
          match goal with
          | |- context [match ?r with Ok _ => _ | Raise _ => _ end] =>
              destruct r as [?|?]; [|discriminate]
          end).
  destruct (negb (truthy a) || negb (truthy a0)); [discriminate|].
  unfold bind at 1.
  match goal with |- context [let (_, _) := ?m st in _] => destruct (m st) as [[mt|e] st1] end;
    [|discriminate].
  destruct (negb (truthy mt)); [discriminate|].
  rewrite bind_lift. destruct (transform_value_dyn a1 mt) as [s|e]; [|discriminate].
  intros H. injection H as <- _. eexists _, _, _, _. reflexivity.
Qed.

Lemma process_metafields_entries client pid auto metafields :
  forall processed st result st',
    Forall is_processed_entry processed ->
    process_metafields client pid auto metafields processed st = (Ok result, st') ->
    Forall is_processed_entry result.
Proof.
  induction metafields as [|metafield rest IH]; intros processed st result st' Hp H.
  - injection H as <- _. exact Hp.
  - cbn [process_metafields] in H. unfold bind at 1 in H.
    destruct (process_metafield client pid auto metafield st) as [[[m|]|e] st1] eqn:E;
      [| |discriminate].
    + eapply IH; [|exact H]. apply Forall_app. split; [exact Hp|].
      constructor; [|constructor]. eapply process_metafield_entry. exact E.
    + eapply IH; [exact Hp|exact H].
Qed.

(** The identifiers of processed entries are always found. *)
Lemma identifiers_of_entries processed :
  Forall is_processed_entry processed -> exists ids, identifiers_of processed = Ok ids.
Proof.
  induction 1 as [|m ms (ns & k & ty & s & ->) _ [ids IH]].
  - eexists. reflexivity.
  - unfold identifiers_of in *. cbn [map_result]. rewrite IH.
    eexists. reflexivity.
Qed.

Lemma error_messages_dicts (errors : list (list (pystr * PyVal))) :
  error_messages (PList (List.map PDict errors))
  = Ok (str_join (lit "; ") (List.map error_line errors)).
Proof.
  unfold error_messages, py_iter. rewrite result_bind_Ok.
  match goal with
  | |- context [map_result ?f ?l] =>
      assert (H : map_result f l = Ok (List.map error_line errors))
  end.
  { induction errors as [|e es IH]; [reflexivity|].
    cbn [List.map map_result]. rewrite IH. reflexivity. }
  rewrite H. reflexivity.
Qed.

(** C5: when the response of the batch mutation carries user errors, the
    whole batch call fails, whatever the number of fields that were
    transformed: with the errors [errors] (dictionaries) the exception lists
    the field and message of each, in order; and whatever the shape of a
    non-empty user-errors value, the call raises and returns no result. *)
Theorem batch_user_errors_fail_whole_batch
    (client : ShopifyClient) (pid : PyVal) (metafields : list PyVal) (auto : bool)
    (st st1 : Store) (processed : list PyVal) :
  process_metafields client pid auto metafields [] st = (Ok processed, st1) ->
  exists ids,
    identifiers_of processed = Ok ids
    /\ (forall data upd user_errors,
          transport client (calls st1) (batch_call pid processed ids) = Ok data ->
          py_get data (lit "productUpdate") (PDict []) = Ok upd ->
          py_get upd (lit "userErrors") (PList []) = Ok user_errors ->
          truthy user_errors = true ->
          (exists msg,
             write_product_metafields_batch client pid metafields auto st
             = (Raise (mk_exn Exception msg), logged st1 [batch_call pid processed ids] []))
          /\ (forall errors,
                user_errors = PList (List.map PDict errors) ->
                write_product_metafields_batch client pid metafields auto st
                = (Raise (batch_rejected pid errors),
                   logged st1 [batch_call pid processed ids] []))).
Proof.
  intros Hp.
  destruct (identifiers_of_entries processed) as [ids Hids].
  { eapply process_metafields_entries; [constructor|exact Hp]. }
  exists ids. split; [exact Hids|].
  intros data upd ue Ht Hupd Hue Htruthy.
  assert (Hrun : write_product_metafields_batch client pid metafields auto st
                 = match error_messages ue with
                   | Ok messages =>
                       (Raise (mk_exn Exception
                          (lit "Failed to write batch metafields to product " ++ py_str pid
                           ++ lit ": " ++ lit "Batch metafield write failed: " ++ messages)),
                        logged st1 [batch_call pid processed ids] [])
                   | Raise e =>
                       (Raise (mk_exn Exception
                          (lit "Failed to write batch metafields to product " ++ py_str pid
                           ++ lit ": " ++ message e)),
                        logged st1 [batch_call pid processed ids] [])
                   end).
  { unfold write_product_metafields_batch.
    rewrite (bind_run _ _ _ _ _ Hp). rewrite bind_lift, Hids. cbv zeta.
    unfold try_catch. unfold bind at 1. rewrite graphql_request_run.
    unfold batch_call in Ht. rewrite Ht.
    rewrite bind_lift, Hupd. rewrite bind_lift, Hue. rewrite Htruthy.
    rewrite bind_lift. destruct (error_messages ue) as [messages|e].
    - unfold throw, lift, raise. rewrite isinstance_Exception. reflexivity.
    - rewrite isinstance_Exception. reflexivity. }
  split.
  - rewrite Hrun. destruct (error_messages ue); eexists; reflexivity.
  - intros errors ->. rewrite Hrun, error_messages_dicts. reflexivity.
Qed.

(** ** The statements at concrete inputs *)

(** C9 on a store that holds the definition, and on an empty store with a
    remote end that knows no definition. *)
Lemma definition_cache_witness :
  (_definition_cache store_with_definition !! cache_key_of custom count = Some count_definition
   /\ _get_cached_definition accepting_client custom count store_with_definition
      = (Ok count_definition, store_with_definition))
  /\ (_definition_cache empty_store !! cache_key_of custom count = None
      /\ get_product_metafield_definition accepting_client custom count empty_store
         = (Ok PNone, logged empty_store [definition_call custom count] [])
      /\ truthy PNone = false
      /\ _get_cached_definition accepting_client custom count empty_store
         = (Ok PNone, logged empty_store [definition_call custom count] [])).
Proof.
  split.
  - split; [vm_compute; reflexivity|].
    apply (proj1 (definition_cache_insert_once accepting_client custom count
                    store_with_definition)).
    vm_compute; reflexivity.
  - split; [vm_compute; reflexivity|].
    split; [vm_compute; reflexivity|].
    split; [reflexivity|].
    apply (proj2 (definition_cache_insert_once accepting_client custom count empty_store)
             ltac:(vm_compute; reflexivity) PNone _ ltac:(vm_compute; reflexivity)).
    reflexivity.
Defined.

(** C5 on the two fields, with a remote end that reports one user error. *)
Lemma batch_user_errors_witness :
  process_metafields rejecting_client product_P1 true two_fields [] empty_store
  = (Ok [processed_entry custom count (PStr (lit "number_integer")) (lit "42");
         processed_entry custom (PStr (lit "title")) (PStr (lit "single_line_text_field"))
           (lit "Hello")],
     empty_store)
  /\ fst (write_product_metafields_batch rejecting_client product_P1 two_fields true empty_store)
     = Raise (batch_rejected product_P1
                [[(lit "field", PStr (lit "value")); (lit "message", PStr (lit "is invalid"))]]).
Proof.
  assert (Hp : process_metafields rejecting_client product_P1 true two_fields [] empty_store
               = (Ok [processed_entry custom count (PStr (lit "number_integer")) (lit "42");
                      processed_entry custom (PStr (lit "title"))
                        (PStr (lit "single_line_text_field")) (lit "Hello")],
                  empty_store)).
  { vm_compute; reflexivity. }
  split; [exact Hp|].
  destruct (batch_user_errors_fail_whole_batch rejecting_client product_P1 two_fields true
              empty_store empty_store _ Hp) as [ids [_ H]].
  destruct (H _ _ (PList [value_error]) eq_refl eq_refl eq_refl eq_refl) as [_ H'].
  rewrite (H' [[(lit "field", PStr (lit "value")); (lit "message", PStr (lit "is invalid"))]]
              eq_refl).
  reflexivity.
Defined.

(** ** Strings written by [json.dumps] and read by [json.loads] *)

Lemma json_escape_char_units (c : N) :
  json_escape_char c = concat (List.map escape_unit (utf16_units c)).
Proof.
  unfold json_escape_char, utf16_units, escape_unit.
  destruct (c <? 65536)%N eqn:E.
  - cbn [List.map concat]. rewrite app_nil_r.
    repeat (match goal with |- context [if ?b then _ else _] => destruct b end; try reflexivity).
  - apply N.ltb_ge in E. cbv zeta. cbn [List.map concat]. rewrite app_nil_r.
    repeat match goal with
           | |- context [(?a =? ?b)%N] =>
               let H := fresh in destruct (N.eqb_spec a b) as [H|H]; [exfalso; lia|]
           end.
    assert (Hc1 : ((32 <=? c) && (c <=? 126))%N = false).
    { apply andb_false_intro2. apply N.leb_gt. lia. }
    rewrite Hc1.
    set (hi := (55296 + (c - 65536) / 1024 mod 1024)%N).
    set (lo := (56320 + (c - 65536) mod 1024)%N).
    assert (Hhi : (55296 <= hi < 56320)%N).
    { unfold hi. generalize ((c - 65536) / 1024)%N. intros x.
      assert (x mod 1024 < 1024)%N by (apply N.mod_lt; lia).
      generalize dependent (x mod 1024)%N. intros; lia. }
    assert (Hlo : (56320 <= lo < 57344)%N).
    { unfold lo. generalize (c - 65536)%N. intros x.
      assert (x mod 1024 < 1024)%N by (apply N.mod_lt; lia).
      generalize dependent (x mod 1024)%N. intros; lia. }
    repeat match goal with
           | |- context [(?a =? ?b)%N] =>
               let H := fresh in destruct (N.eqb_spec a b) as [H|H]; [exfalso; lia|]
           end.
    assert (Hc2 : ((32 <=? hi) && (hi <=? 126))%N = false).
    { apply andb_false_intro2. apply N.leb_gt. lia. }
    assert (Hc3 : ((32 <=? lo) && (lo <=? 126))%N = false).
    { apply andb_false_intro2. apply N.leb_gt. lia. }
    rewrite Hc2, Hc3. rewrite <- app_assoc. reflexivity.
Qed.

Lemma json_string_units (s : pystr) :
  json_string s
  = 34%N :: concat (List.map escape_unit (concat (List.map utf16_units s))) ++ [34%N].
Proof.
  unfold json_string. cbn [app]. f_equal. f_equal.
  induction s as [|c s IH]; [reflexivity|].
  cbn [List.map concat]. rewrite List.map_app, concat_app, IH, json_escape_char_units.
  reflexivity.
Qed.

Lemma utf16_units_bound (c : N) : Forall (fun u => (u < 65536)%N) (utf16_units c).
Proof.
  unfold utf16_units. destruct (c <? 65536)%N eqn:E.
  - constructor; [apply N.ltb_lt; exact E|constructor].
  - cbv zeta. constructor; [|constructor; [|constructor]].
    + generalize ((c - 65536) / 1024)%N. intros x.
      assert (x mod 1024 < 1024)%N by (apply N.mod_lt; lia).
      generalize dependent (x mod 1024)%N. intros; lia.
    + generalize (c - 65536)%N. intros x.
      assert (x mod 1024 < 1024)%N by (apply N.mod_lt; lia).
      generalize dependent (x mod 1024)%N. intros; lia.
Qed.

(** One step of the scanner in each state. *)
Lemma scan_text out c s :
  scan_string InText out (c :: s)
  = if (c =? 34)%N then Some (rev out, s)
    else if (c =? 92)%N then scan_string InEscape out s
    else if (c <? 32)%N then None
    else scan_string InText (c :: out) s.
Proof. reflexivity. Qed.

Lemma scan_high_text h out c s :
  scan_string (HighText h) out (c :: s)
  = if (c =? 92)%N then scan_string (HighEscape h) out s
    else if (c =? 34)%N then Some (rev (h :: out), s)
    else if (c <? 32)%N then None
    else scan_string InText (c :: h :: out) s.
Proof.
  cbn [scan_string]. destruct (c =? 92)%N eqn:E; reflexivity.
Qed.

Lemma scan_escape out c s :
  scan_string InEscape out (c :: s)
  = if (c =? 117)%N then scan_string (InHex 4 0) out s
    else match simple_escape c with
         | Some d => scan_string InText (d :: out) s
         | None => None
         end.
Proof.
  cbn [scan_string]. destruct (c =? 117)%N eqn:E; reflexivity.
Qed.

Lemma scan_high_escape h out c s :
  scan_string (HighEscape h) out (c :: s)
  = if (c =? 117)%N then scan_string (HighHex h 4 0) out s
    else match simple_escape c with
         | Some d => scan_string InText (d :: h :: out) s
         | None => None
         end.
Proof.
  cbn [scan_string]. destruct (c =? 117)%N eqn:E; reflexivity.
Qed.

Lemma hex_value_char (d : N) : (d < 16)%N -> hex_value (hex_char d) = Some d.
Proof.
  intros H. unfold hex_value, hex_char, is_digit.
  destruct (d <? 10)%N eqn:E.
  - apply N.ltb_lt in E.
    replace ((48 <=? 48 + d) && (48 + d <=? 57))%N with true.
    + f_equal. lia.
    + symmetry. apply andb_true_intro. split; apply N.leb_le; lia.
  - apply N.ltb_ge in E.
    replace ((48 <=? 87 + d) && (87 + d <=? 57))%N with false.
    + replace ((97 <=? 87 + d) && (87 + d <=? 102))%N with true.
      * f_equal. lia.
      * symmetry. apply andb_true_intro. split; apply N.leb_le; lia.
    + symmetry. apply andb_false_intro2. apply N.leb_gt. lia.
Qed.

(** The scanner reads [k] hexadecimal digits of [n] when more are due. *)
Lemma scan_hex_prefix (k : nat) :
  forall j acc n out s,
    (n < 16 ^ N.of_nat k)%N ->
    scan_string (InHex (k + S j) acc) out (hex_fixed k n ++ s)
    = scan_string (InHex (S j) (16 ^ N.of_nat k * acc + n)%N) out s.
Proof.
  induction k as [|k IH]; intros j acc n out s Hn.
  - cbn [hex_fixed app Nat.add]. f_equal. f_equal.
    change (16 ^ N.of_nat 0)%N with 1%N in *. lia.
  - cbn [hex_fixed]. rewrite <- app_assoc. cbn [app].
    replace (S k + S j)%nat with (k + S (S j))%nat by lia.
    assert (Hn' : (n / 16 < 16 ^ N.of_nat k)%N).
    { apply N.Div0.div_lt_upper_bound. rewrite Nat2N.inj_succ, N.pow_succ_r' in Hn. lia. }
    rewrite (IH (S j) acc (n / 16)%N out _ Hn').
    cbn [scan_string]. rewrite hex_value_char by (apply N.mod_lt; lia).
    f_equal. f_equal. rewrite Nat2N.inj_succ, N.pow_succ_r'.
    pose proof (N.div_mod n 16). lia.
Qed.

Lemma scan_high_hex_prefix (k : nat) :
  forall j h acc n out s,
    (n < 16 ^ N.of_nat k)%N ->
    scan_string (HighHex h (k + S j) acc) out (hex_fixed k n ++ s)
    = scan_string (HighHex h (S j) (16 ^ N.of_nat k * acc + n)%N) out s.
Proof.
  induction k as [|k IH]; intros j h acc n out s Hn.
  - cbn [hex_fixed app Nat.add]. f_equal. f_equal.
    change (16 ^ N.of_nat 0)%N with 1%N in *. lia.
  - cbn [hex_fixed]. rewrite <- app_assoc. cbn [app].
    replace (S k + S j)%nat with (k + S (S j))%nat by lia.
    assert (Hn' : (n / 16 < 16 ^ N.of_nat k)%N).
    { apply N.Div0.div_lt_upper_bound. rewrite Nat2N.inj_succ, N.pow_succ_r' in Hn. lia. }
    rewrite (IH (S j) h acc (n / 16)%N out _ Hn').
    cbn [scan_string]. rewrite hex_value_char by (apply N.mod_lt; lia).
    f_equal. f_equal. rewrite Nat2N.inj_succ, N.pow_succ_r'.
    pose proof (N.div_mod n 16). lia.
Qed.

(** Four hexadecimal digits give back the unit. *)
Lemma scan_hex4 u out s :
  (u < 65536)%N ->
  scan_string (InHex 4 0) out (hex_fixed 4 u ++ s)
  = if high_surrogate u then scan_string (HighText u) out s
    else scan_string InText (u :: out) s.
Proof.
  intros Hu. change (hex_fixed 4 u) with (hex_fixed 3 (u / 16) ++ [hex_char (u mod 16)]).
  rewrite <- app_assoc. cbn [app].
  assert (H3 : (u / 16 < 16 ^ N.of_nat 3)%N).
  { apply N.Div0.div_lt_upper_bound. change (16 ^ N.of_nat 3)%N with 4096%N. lia. }
  rewrite (scan_hex_prefix 3 0 0 (u / 16)%N out _ H3).
  cbn [scan_string]. rewrite hex_value_char by (apply N.mod_lt; lia).
  change (16 ^ N.of_nat 3)%N with 4096%N.
  replace (16 * (4096 * 0 + u / 16) + u mod 16)%N with u
    by (pose proof (N.div_mod u 16); lia).
  reflexivity.
Qed.

Lemma scan_high_hex4 h u out s :
  (u < 65536)%N ->
  scan_string (HighHex h 4 0) out (hex_fixed 4 u ++ s)
  = if low_surrogate u then scan_string InText (join_surrogates h u :: out) s
    else if high_surrogate u then scan_string (HighText u) (h :: out) s
    else scan_string InText (u :: h :: out) s.
Proof.
  intros Hu. change (hex_fixed 4 u) with (hex_fixed 3 (u / 16) ++ [hex_char (u mod 16)]).
  rewrite <- app_assoc. cbn [app].
  assert (H3 : (u / 16 < 16 ^ N.of_nat 3)%N).
  { apply N.Div0.div_lt_upper_bound. change (16 ^ N.of_nat 3)%N with 4096%N. lia. }
  rewrite (scan_high_hex_prefix 3 0 h 0 (u / 16)%N out _ H3).
  cbn [scan_string]. rewrite hex_value_char by (apply N.mod_lt; lia).
  change (16 ^ N.of_nat 3)%N with 4096%N.
  replace (16 * (4096 * 0 + u / 16) + u mod 16)%N with u
    by (pose proof (N.div_mod u 16); lia).
  reflexivity.
Qed.

Lemma not_surrogate_below (u : N) :
  (u < 55296)%N -> high_surrogate u = false /\ low_surrogate u = false.
Proof.
  intros H. unfold high_surrogate, low_surrogate.
  split; apply andb_false_intro1; apply N.leb_gt; lia.
Qed.

(** The scanner reads the escape of one unit. *)
Lemma scan_unit_text u out s :
  (u < 65536)%N ->
  scan_string InText out (escape_unit u ++ s)
  = if high_surrogate u then scan_string (HighText u) out s
    else scan_string InText (u :: out) s.
Proof.
  intros Hu. unfold escape_unit.
  repeat match goal with
         | |- context [if (u =? ?b)%N then _ else _] =>
             destruct (N.eqb_spec u b) as [->|?]; [reflexivity|]
         end.
  destruct ((32 <=? u) && (u <=? 126))%N eqn:E.
  - apply andb_prop in E as [E1 E2]. apply N.leb_le in E1, E2.
    cbn [app]. rewrite scan_text.
    rewrite (proj2 (N.eqb_neq u 34)), (proj2 (N.eqb_neq u 92)) by assumption.
    rewrite (proj2 (N.ltb_ge u 32)) by assumption.
    rewrite (proj1 (not_surrogate_below u ltac:(lia))). reflexivity.
  - change (lit "\u" ++ hex_fixed 4 u) with (92%N :: 117%N :: hex_fixed 4 u).
    cbn [app]. rewrite scan_text. cbn [N.eqb Pos.eqb].
    rewrite scan_escape. cbn [N.eqb Pos.eqb].
    apply scan_hex4. exact Hu.
Qed.

Lemma scan_unit_high h u out s :
  (u < 65536)%N ->
  scan_string (HighText h) out (escape_unit u ++ s)
  = if low_surrogate u then scan_string InText (join_surrogates h u :: out) s
    else if high_surrogate u then scan_string (HighText u) (h :: out) s
    else scan_string InText (u :: h :: out) s.
Proof.
  intros Hu. unfold escape_unit.
  repeat match goal with
         | |- context [if (u =? ?b)%N then _ else _] =>
             destruct (N.eqb_spec u b) as [->|?]; [reflexivity|]
         end.
  destruct ((32 <=? u) && (u <=? 126))%N eqn:E.
  - apply andb_prop in E as [E1 E2]. apply N.leb_le in E1, E2.
    cbn [app]. rewrite scan_high_text.
    rewrite (proj2 (N.eqb_neq u 34)), (proj2 (N.eqb_neq u 92)) by assumption.
    rewrite (proj2 (N.ltb_ge u 32)) by assumption.
    destruct (not_surrogate_below u ltac:(lia)) as [-> ->]. reflexivity.
  - change (lit "\u" ++ hex_fixed 4 u) with (92%N :: 117%N :: hex_fixed 4 u).
    cbn [app]. rewrite scan_high_text. cbn [N.eqb Pos.eqb].
    rewrite scan_high_escape. cbn [N.eqb Pos.eqb].
    apply scan_high_hex4. exact Hu.
Qed.

(** The scanner reads a sequence of escaped units up to the closing
    quote. *)
Lemma scan_units (units : list N) :
  forall pending out rest,
    Forall (fun u => (u < 65536)%N) units ->
    scan_string (state_of pending) out
      (concat (List.map escape_unit units) ++ 34%N :: rest)
    = Some (rev out ++ combine_units pending units, rest).
Proof.
  induction units as [|u units IH]; intros pending out rest Hb.
  - cbn [List.map concat app combine_units]. destruct pending as [h|]; cbn [state_of].
    + rewrite scan_high_text. reflexivity.
    + rewrite scan_text. cbn [N.eqb Pos.eqb]. rewrite app_nil_r. reflexivity.
  - inversion Hb as [|u' units' Hu Hb']; subst.
    cbn [List.map concat]. rewrite <- app_assoc.
    destruct pending as [h|]; cbn [state_of combine_units].
    + rewrite scan_unit_high by exact Hu.
      destruct (low_surrogate u).
      * rewrite (IH None _ _ Hb'). cbn [rev]. rewrite <- app_assoc. reflexivity.
      * destruct (high_surrogate u).
        -- rewrite (IH (Some u) _ _ Hb'). cbn [rev]. rewrite <- app_assoc. reflexivity.
        -- rewrite (IH None _ _ Hb'). cbn [rev]. rewrite <- !app_assoc. reflexivity.
    + rewrite scan_unit_text by exact Hu.
      destruct (high_surrogate u).
      * rewrite (IH (Some u) _ _ Hb'). reflexivity.
      * rewrite (IH None _ _ Hb'). cbn [rev]. rewrite <- app_assoc. reflexivity.
Qed.

(** The string literal written for [s] is read back as [reread_str s]. *)
Lemma scan_json_string (s rest : pystr) :
  scan_string InText [] (List.tl (json_string s) ++ rest) = Some (reread_str s, rest).
Proof.
  rewrite json_string_units. cbn [List.tl]. rewrite <- app_assoc. cbn [app].
  rewrite (scan_units _ None [] rest).
  - reflexivity.
  - induction s as [|c s IH]; [constructor|].
    cbn [List.map concat]. apply Forall_app. split; [apply utf16_units_bound|exact IH].
Qed.

(** ** Numerals *)

Lemma is_digit_digit_char (d : N) : (d < 10)%N -> is_digit (digit_char d) = true.
Proof.
  intros H. unfold is_digit, digit_char. apply andb_true_intro.
  split; apply N.leb_le; lia.
Qed.

Lemma span_digits_app (ds : list N) (r : pystr) :
  all_digits ds -> no_digit_ahead r ->
  span_digits (List.map digit_char ds ++ r) = (ds, r).
Proof.
  intros Hds Hr. induction Hds as [|d ds Hd _ IH].
  - cbn [List.map app]. destruct r as [|c r]; [reflexivity|].
    cbn [span_digits]. cbn in Hr. rewrite Hr. reflexivity.
  - cbn [List.map app span_digits]. rewrite is_digit_digit_char by exact Hd.
    rewrite IH. f_equal. f_equal. unfold digit_char. lia.
Qed.

Lemma terminated_no_digit (r : pystr) : terminated r = true -> no_digit_ahead r.
Proof.
  destruct r as [|c r]; [intros; exact I|]. cbn [terminated no_digit_ahead].
  intros H. unfold is_digit.
  destruct (N.eqb_spec c 44) as [->|?]; [reflexivity|].
  destruct (N.eqb_spec c 93) as [->|?]; [reflexivity|].
  destruct (N.eqb_spec c 125) as [->|?]; [reflexivity|discriminate].
Qed.

Lemma terminated_after_char (c : N) (r : pystr) :
  terminated r = true -> c <> 44%N -> c <> 93%N -> c <> 125%N -> after_char c r = None.
Proof.
  destruct r as [|x r]; [reflexivity|]. cbn [terminated after_char].
  intros H H1 H2 H3.
  destruct (N.eqb_spec x c) as [->|?]; [|reflexivity].
  rewrite (proj2 (N.eqb_neq c 44)), (proj2 (N.eqb_neq c 93)), (proj2 (N.eqb_neq c 125)) in H
    by assumption.
  discriminate.
Qed.

Lemma digits_numeral_chars (ds : list N) :
  all_digits ds -> Forall numeral_char (List.map digit_char ds).
Proof.
  intros H. induction H as [|d ds Hd _ IH]; [constructor|].
  constructor; [left; apply is_digit_digit_char; exact Hd|exact IH].
Qed.

Lemma numeral_chars neg ip fp ex :
  numeral_ok ip fp ex -> Forall numeral_char (numeral_text neg ip fp ex).
Proof.
  intros (Hip & Hfp & _ & Hex). unfold numeral_text.
  repeat apply Forall_app_2.
  - destruct neg; [constructor; [right; left; reflexivity|constructor]|constructor].
  - apply digits_numeral_chars. exact Hip.
  - destruct fp as [|d fp]; [constructor|].
    constructor; [right; right; right; left; reflexivity|].
    apply digits_numeral_chars. exact Hfp.
  - destruct ex as [[eneg eds]|]; [|constructor].
    destruct Hex as [Heds _].
    constructor; [right; right; right; right; reflexivity|].
    constructor; [destruct eneg; [right; left|right; right; left]; reflexivity|].
    apply digits_numeral_chars. exact Heds.
Qed.

Lemma numeral_char_facts (c : N) :
  numeral_char c ->
  to_ascii_char c = c /\ ascii_space c = false /\ (95 =? c)%N = false.
Proof.
  intros [H|[->|[->|[->| ->]]]]; try (repeat split; reflexivity).
  unfold is_digit in H. apply andb_prop in H as [H1 H2]. apply N.leb_le in H1, H2.
  unfold to_ascii_char, ascii_space.
  rewrite (proj2 (N.ltb_lt c 127)) by lia.
  rewrite (proj2 (N.eqb_neq c 32)) by lia.
  rewrite (proj2 (N.eqb_neq 95 c)) by lia.
  replace (c <=? 13)%N with false by (symmetry; apply N.leb_gt; lia).
  rewrite andb_false_r. repeat split; reflexivity.
Qed.

Lemma lstrip_no_space (s : pystr) :
  Forall (fun c => ascii_space c = false) s -> lstrip s = s.
Proof. intros H. destruct H as [|c s Hc _]; [reflexivity|]. cbn [lstrip]. rewrite Hc. reflexivity. Qed.

(** [float()] finds the numeral as it is: no white space, no underscore. *)
Lemma float_of_str_body (s : pystr) :
  Forall numeral_char s ->
  float_of_str s
  = match parse_float_literal s with
    | Some f => Ok f
    | None => raise ValueError (lit "could not convert string to float: " ++ str_repr s)
    end.
Proof.
  intros H. unfold float_of_str.
  assert (H1 : List.map to_ascii_char s = s).
  { induction H as [|c s Hc _ IH]; [reflexivity|].
    cbn [List.map]. rewrite IH, (proj1 (numeral_char_facts c Hc)). reflexivity. }
  assert (H2 : Forall (fun c => ascii_space c = false) s).
  { eapply Forall_impl; [exact H|]. intros c Hc. apply (numeral_char_facts c Hc). }
  assert (H3 : has_char 95 s = false).
  { clear H1 H2. unfold has_char. induction H as [|c s Hc _ IH]; [reflexivity|].
    cbn [existsb]. rewrite (proj2 (proj2 (numeral_char_facts c Hc))). exact IH. }
  rewrite H1. unfold strip. rewrite (lstrip_no_space s H2).
  rewrite lstrip_no_space by (apply Forall_rev; exact H2).
  rewrite rev_involutive, H3. reflexivity.
Qed.

Lemma lower_char_digit (d : N) : (d < 10)%N -> lower_char (digit_char d) = digit_char d.
Proof.
  intros H. unfold lower_char, digit_char.
  replace ((65 <=? 48 + d) && (48 + d <=? 90))%N with false
    by (symmetry; apply andb_false_intro1; apply N.leb_gt; lia).
  replace (192 <=? 48 + d)%N with false by (symmetry; apply N.leb_gt; lia).
  reflexivity.
Qed.

Lemma after_char_eq (c : N) (s : pystr) : after_char c (c :: s) = Some s.
Proof. cbn [after_char]. rewrite N.eqb_refl. reflexivity. Qed.

Lemma after_char_ne (c x : N) (s : pystr) : x <> c -> after_char c (x :: s) = None.
Proof. intros H. cbn [after_char]. rewrite (proj2 (N.eqb_neq x c) H). reflexivity. Qed.

Lemma numeral_text_parts neg ip fp ex :
  numeral_text neg ip fp ex
  = (if neg then [45%N] else []) ++ List.map digit_char ip ++ fraction_text fp ++ exponent_text ex.
Proof. reflexivity. Qed.

Lemma take_sign_digits (d : N) (s : pystr) :
  take_sign (digit_char d :: s) = (false, digit_char d :: s).
Proof.
  unfold take_sign, digit_char.
  rewrite !after_char_ne by lia. reflexivity.
Qed.

Lemma take_exponent_text (ex : option (bool * list N)) (rest : pystr) :
  match ex with None => True | Some (_, eds) => all_digits eds /\ eds <> [] end ->
  no_digit_ahead rest ->
  match rest with [] => True | c :: _ => c <> 101%N /\ c <> 69%N end ->
  take_exponent (exponent_text ex ++ rest) = (exponent_value ex, rest).
Proof.
  intros Hex Hr He. destruct ex as [[eneg eds]|].
  - destruct Hex as [Heds Hne]. cbn [exponent_text app take_exponent N.eqb Pos.eqb orb].
    assert (Hs : take_sign ((if eneg then 45%N else 43%N) :: List.map digit_char eds ++ rest)
                 = (eneg, List.map digit_char eds ++ rest)).
    { destruct eneg; reflexivity. }
    rewrite Hs, (span_digits_app eds rest Heds Hr).
    destruct eds as [|d eds]; [contradiction|]. reflexivity.
  - cbn [exponent_text app exponent_value]. destruct rest as [|c rest]; [reflexivity|].
    cbn [take_exponent]. destruct He as [H1 H2].
    rewrite (proj2 (N.eqb_neq c 101) H1), (proj2 (N.eqb_neq c 69) H2). reflexivity.
Qed.

(** [float()] reads a numeral as its decimal value. *)
Lemma parse_float_literal_numeral neg ip fp ex :
  numeral_ok ip fp ex ->
  parse_float_literal (numeral_text neg ip fp ex)
  = Some (round_decimal neg (Z.of_N (number_of_digits 0 (ip ++ fp)))
            (exponent_value ex - Z.of_nat (List.length fp))).
Proof.
  intros (Hip & Hfp & Hhead & Hex).
  assert (Hne : exists d ip', ip = d :: ip' /\ (d < 10)%N).
  { destruct Hhead as [->|(d & ip' & -> & _)].
    - exists 0%N, []. split; [reflexivity|lia].
    - exists d, ip'. split; [reflexivity|]. inversion Hip; assumption. }
  destruct Hne as (d & ip' & Eip & Hd).
  assert (Hbody : take_sign (numeral_text neg ip fp ex)
                  = (neg, numeral_text false ip fp ex)).
  { rewrite !numeral_text_parts. destruct neg.
    - cbn [app]. unfold take_sign. rewrite after_char_eq. reflexivity.
    - cbn [app]. rewrite Eip. cbn [List.map app]. apply take_sign_digits. }
  unfold parse_float_literal. rewrite Hbody.
  assert (Hlow : forall w, (exists c w', w = c :: w' /\ (c < 48 \/ 57 < c)%N) ->
                   str_lower (numeral_text false ip fp ex) <> w).
  { intros w (c & w' & -> & Hc). rewrite numeral_text_parts, Eip.
    cbn [app List.map str_lower]. rewrite lower_char_digit by exact Hd.
    intros E. injection E as E _. unfold digit_char in E. lia. }
  destruct (decide _) as [E|_];
    [exfalso; eapply Hlow; [|exact E]; eexists _, _; split; [reflexivity|right; reflexivity]|].
  destruct (decide _) as [E|_];
    [exfalso; eapply Hlow; [|exact E]; eexists _, _; split; [reflexivity|right; reflexivity]|].
  destruct (decide _) as [E|_];
    [exfalso; eapply Hlow; [|exact E]; eexists _, _; split; [reflexivity|right; reflexivity]|].
  assert (Hdec : parse_decimal (numeral_text false ip fp ex)
                 = Some (Z.of_N (number_of_digits 0 (ip ++ fp)),
                         exponent_value ex - Z.of_nat (List.length fp))).
  { unfold parse_decimal. rewrite numeral_text_parts. cbn [app].
    assert (Hx : no_digit_ahead (exponent_text ex)).
    { destruct ex as [[? ?]|]; [reflexivity|exact I]. }
    assert (Hf : no_digit_ahead (fraction_text fp ++ exponent_text ex)).
    { destruct fp; [exact Hx|reflexivity]. }
    rewrite (span_digits_app ip _ Hip Hf). cbv beta iota zeta.
    match goal with
    | |- context [match ?m with (_, _) => _ end] =>
        assert (Hfrac : m = (fp, exponent_text ex))
    end.
    { destruct fp as [|f fp].
      - cbn [fraction_text app]. destruct ex as [[? ?]|]; reflexivity.
      - cbn [fraction_text app]. rewrite after_char_eq.
        rewrite <- (app_nil_r (exponent_text ex)) at 1.
        rewrite app_nil_r. apply span_digits_app; assumption. }
    rewrite Hfrac. cbv beta iota zeta. rewrite Eip. cbn [app].
    pose proof (take_exponent_text ex [] Hex I I) as Hexp. rewrite app_nil_r in Hexp.
    rewrite Hexp. reflexivity. }
  rewrite Hdec. reflexivity.
Qed.

Lemma float_of_str_numeral neg ip fp ex :
  numeral_ok ip fp ex ->
  float_of_str (numeral_text neg ip fp ex)
  = Ok (round_decimal neg (Z.of_N (number_of_digits 0 (ip ++ fp)))
          (exponent_value ex - Z.of_nat (List.length fp))).
Proof.
  intros H. rewrite float_of_str_body by (apply numeral_chars; exact H).
  rewrite parse_float_literal_numeral by exact H. reflexivity.
Qed.

Lemma terminated_facts (rest : pystr) :
  terminated rest = true ->
  no_digit_ahead rest
  /\ after_char 46 rest = None
  /\ match rest with [] => True | c :: _ => c <> 101%N /\ c <> 69%N end.
Proof.
  intros H. split; [apply terminated_no_digit; exact H|].
  split; [apply terminated_after_char; first [exact H|lia|discriminate]|].
  destruct rest as [|c rest]; [exact I|]. cbn [terminated] in H.
  split; intros ->; discriminate H.
Qed.

(** The number scanner finds the end of a numeral. *)
Lemma scan_number_numeral neg ip fp ex rest :
  numeral_ok ip fp ex -> terminated rest = true ->
  scan_number (numeral_text neg ip fp ex ++ rest) = Some (numeral_is_float fp ex, rest).
Proof.
  intros (Hip & Hfp & Hhead & Hex) Hrest.
  destruct (terminated_facts rest Hrest) as (Hr1 & Hr2 & Hr3).
  assert (Hx : no_digit_ahead (exponent_text ex ++ rest)).
  { destruct ex as [[? ?]|]; [reflexivity|exact Hr1]. }
  assert (Hf : no_digit_ahead (fraction_text fp ++ exponent_text ex ++ rest)).
  { destruct fp; [exact Hx|reflexivity]. }
  assert (Hne : exists d ip', ip = d :: ip' /\ (d < 10)%N /\ all_digits ip'
                              /\ (d = 0%N -> ip' = [])).
  { destruct Hhead as [->|(d & ip' & -> & Hd0)].
    - exists 0%N, []. repeat split; first [lia|constructor].
    - exists d, ip'. inversion Hip; subst. repeat split; try assumption.
      intros ->. contradiction. }
  destruct Hne as (d & ip' & -> & Hd & Hip' & Hzero).
  unfold scan_number. rewrite numeral_text_parts, <- !app_assoc.
  assert (Hs0 : match after_char 45 ((if neg then [45%N] else [])
                      ++ List.map digit_char (d :: ip')
                      ++ fraction_text fp ++ exponent_text ex ++ rest) with
                | Some s' => s'
                | None => (if neg then [45%N] else []) ++ List.map digit_char (d :: ip')
                          ++ fraction_text fp ++ exponent_text ex ++ rest
                end
                = digit_char d :: List.map digit_char ip'
                  ++ fraction_text fp ++ exponent_text ex ++ rest).
  { destruct neg; cbn [app List.map].
    - rewrite after_char_eq. reflexivity.
    - unfold digit_char at 1. rewrite after_char_ne by lia. reflexivity. }
  rewrite Hs0. cbv beta iota zeta.
  assert (Hint : (if (digit_char d =? 48)%N
                  then Some (List.map digit_char ip' ++ fraction_text fp ++ exponent_text ex ++ rest)
                  else if is_digit (digit_char d)
                       then Some (snd (span_digits (List.map digit_char ip' ++ fraction_text fp
                                                    ++ exponent_text ex ++ rest)))
                       else None)
                 = Some (fraction_text fp ++ exponent_text ex ++ rest)).
  { destruct (N.eqb_spec (digit_char d) 48) as [E|E].
    - unfold digit_char in E. rewrite Hzero by lia. reflexivity.
    - rewrite is_digit_digit_char by exact Hd.
      rewrite (span_digits_app ip' _ Hip' Hf). reflexivity. }
  rewrite Hint.
  assert (Hfrac : match after_char 46 (fraction_text fp ++ exponent_text ex ++ rest) with
                  | Some (d0 :: r) =>
                      if is_digit d0 then (true, snd (span_digits r))
                      else (false, fraction_text fp ++ exponent_text ex ++ rest)
                  | _ => (false, fraction_text fp ++ exponent_text ex ++ rest)
                  end
                  = (match fp with [] => false | _ => true end, exponent_text ex ++ rest)).
  { destruct fp as [|f fp].
    - cbn [fraction_text app].
      replace (after_char 46 (exponent_text ex ++ rest)) with (@None pystr); [reflexivity|].
      destruct ex as [[? ?]|]; [reflexivity|]. symmetry. exact Hr2.
    - cbn [fraction_text app List.map]. rewrite after_char_eq.
      inversion Hfp; subst. rewrite is_digit_digit_char by assumption.
      rewrite span_digits_app by assumption. reflexivity. }
  rewrite Hfrac.
  assert (Hexp : match exponent_text ex ++ rest with
                 | [] => (false, exponent_text ex ++ rest)
                 | e :: r =>
                     if ((e =? 101) || (e =? 69))%N
                     then match span_digits (take_sign r).2 with
                          | ([], _) => (false, exponent_text ex ++ rest)
                          | (_ :: _, r') => (true, r')
                          end
                     else (false, exponent_text ex ++ rest)
                 end
                 = (match ex with None => false | Some _ => true end, rest)).
  { destruct ex as [[eneg eds]|].
    - destruct Hex as [Heds Hne]. cbn [exponent_text app N.eqb Pos.eqb orb].
      assert (Hs : take_sign ((if eneg then 45%N else 43%N) :: List.map digit_char eds ++ rest)
                   = (eneg, List.map digit_char eds ++ rest)).
      { destruct eneg; reflexivity. }
      rewrite Hs. cbn [snd]. rewrite (span_digits_app eds rest Heds Hr1).
      destruct eds; [contradiction|reflexivity].
    - cbn [exponent_text app]. destruct rest as [|c rest]; [reflexivity|].
      destruct Hr3 as [H1 H2].
      rewrite (proj2 (N.eqb_neq c 101) H1), (proj2 (N.eqb_neq c 69) H2). reflexivity. }
  rewrite Hexp. destruct fp, ex; reflexivity.
Qed.

Lemma firstn_app_exact {A} (l1 l2 : list A) :
  firstn (List.length (l1 ++ l2) - List.length l2) (l1 ++ l2) = l1.
Proof.
  rewrite length_app, Nat.add_sub, firstn_app, Nat.sub_diag, firstn_all.
  cbn [firstn]. apply app_nil_r.
Qed.

Lemma int_of_lexeme_numeral neg ip :
  all_digits ip ->
  int_of_lexeme (numeral_text neg ip [] None)
  = let x := Z.of_N (number_of_digits 0 ip) in if neg then - x else x.
Proof.
  intros Hip. unfold int_of_lexeme. rewrite numeral_text_parts.
  cbn [fraction_text exponent_text]. rewrite !app_nil_r.
  destruct neg; cbn [app].
  - rewrite after_char_eq.
    rewrite <- (app_nil_r (List.map digit_char ip)), (span_digits_app ip [] Hip I).
    reflexivity.
  - rewrite after_char_digits by lia.
    rewrite <- (app_nil_r (List.map digit_char ip)), (span_digits_app ip [] Hip I).
    reflexivity.
Qed.

Lemma parse_number_numeral neg ip fp ex rest :
  numeral_ok ip fp ex -> terminated rest = true ->
  parse_number (numeral_text neg ip fp ex ++ rest) = Some (numeral_value neg ip fp ex, rest).
Proof.
  intros Hok Hrest. unfold parse_number, numeral_value.
  rewrite (scan_number_numeral neg ip fp ex rest Hok Hrest).
  rewrite firstn_app_exact.
  destruct (numeral_is_float fp ex) eqn:E.
  - rewrite (float_of_str_numeral neg ip fp ex Hok). reflexivity.
  - destruct fp; [|discriminate]. destruct ex; [discriminate|].
    rewrite int_of_lexeme_numeral by apply Hok. reflexivity.
Qed.

Lemma strip_prefix_head (p c : N) (w s : pystr) :
  p <> c -> strip_prefix (p :: w) (c :: s) = None.
Proof.
  intros H. unfold strip_prefix. cbn [startswith].
  rewrite (proj2 (N.eqb_neq p c) H). reflexivity.
Qed.

(** A text that starts like a number is handed to the number scanner. *)
Lemma parse_value_number fuel (c : N) (s : pystr) :
  is_digit c = true
  \/ (c = 45%N /\ exists d s', s = d :: s' /\ is_digit d = true) ->
  parse_value (S fuel) (c :: s) = parse_number (c :: s).
Proof.
  intros H.
  assert (Hc : (48 <= c <= 57)%N \/ c = 45%N).
  { destruct H as [H|[-> _]]; [left|right; reflexivity].
    unfold is_digit in H. apply andb_prop in H as [H1 H2]. apply N.leb_le in H1, H2. lia. }
  cbn [parse_value].
  rewrite !after_char_ne by lia.
  change (lit "null") with (110%N :: lit "ull").
  change (lit "true") with (116%N :: lit "rue").
  change (lit "false") with (102%N :: lit "alse").
  change (lit "NaN") with (78%N :: lit "aN").
  change (lit "Infinity") with (73%N :: lit "nfinity").
  rewrite !strip_prefix_head by lia.
  assert (Hinf : strip_prefix (lit "-Infinity") (c :: s) = None).
  { change (lit "-Infinity") with (45%N :: 73%N :: lit "nfinity").
    destruct H as [H|[-> (d & s' & -> & Hd)]].
    - apply strip_prefix_head. unfold is_digit in H.
      apply andb_prop in H as [H1 H2]. apply N.leb_le in H1, H2. lia.
    - unfold strip_prefix. cbn [startswith]. rewrite N.eqb_refl. cbn [andb].
      unfold is_digit in Hd. apply andb_prop in Hd as [H1 H2]. apply N.leb_le in H1, H2.
      rewrite (proj2 (N.eqb_neq 73 d)) by lia. reflexivity. }
  rewrite Hinf. reflexivity.
Qed.

Lemma parse_value_numeral fuel neg ip fp ex rest :
  numeral_ok ip fp ex -> terminated rest = true ->
  parse_value (S fuel) (numeral_text neg ip fp ex ++ rest)
  = Some (numeral_value neg ip fp ex, rest).
Proof.
  intros Hok Hrest. rewrite <- (parse_number_numeral neg ip fp ex rest Hok Hrest).
  destruct Hok as (Hip & _ & Hhead & _).
  assert (Hne : exists d ip', ip = d :: ip' /\ (d < 10)%N).
  { destruct Hhead as [->|(d & ip' & -> & _)].
    - exists 0%N, []. split; [reflexivity|lia].
    - exists d, ip'. split; [reflexivity|]. inversion Hip; assumption. }
  destruct Hne as (d & ip' & -> & Hd).
  rewrite numeral_text_parts. destruct neg; cbn [app List.map].
  - apply parse_value_number. right. split; [reflexivity|].
    eexists _, _. split; [reflexivity|]. apply is_digit_digit_char. exact Hd.
  - apply parse_value_number. left. apply is_digit_digit_char. exact Hd.
Qed.

(** *** The numeral of an integer *)

Lemma digits_fuel_all fuel n acc :
  all_digits acc -> all_digits (digits_fuel fuel n acc).
Proof.
  revert n acc. induction fuel as [|fuel IH]; intros n acc Hacc; [exact Hacc|].
  cbn [digits_fuel].
  assert (all_digits ((n mod 10)%N :: acc)).
  { constructor; [apply N.mod_lt; lia|exact Hacc]. }
  destruct (n / 10 =? 0)%N; [assumption|apply IH; assumption].
Qed.

Lemma digits_of_N_all (n : N) : all_digits (digits_of_N n).
Proof. apply digits_fuel_all. constructor. Qed.

Lemma digits_fuel_head fuel n acc :
  (0 < n < 2 ^ N.of_nat fuel)%N ->
  exists d ds, digits_fuel fuel n acc = d :: ds /\ d <> 0%N.
Proof.
  revert n acc. induction fuel as [|fuel IH]; intros n acc Hn.
  - change (2 ^ N.of_nat 0)%N with 1%N in Hn. lia.
  - cbn [digits_fuel]. destruct (N.eqb_spec (n / 10) 0) as [E|E].
    + exists (n mod 10)%N, acc. split; [reflexivity|].
      apply N.div_small_iff in E; [|lia]. rewrite N.mod_small by lia. lia.
    + apply IH. split; [apply N.neq_0_lt_0; exact E|].
      apply N.Div0.div_lt_upper_bound.
      rewrite Nat2N.inj_succ, N.pow_succ_r' in Hn. lia.
Qed.

Lemma digits_of_N_head (n : N) :
  digits_of_N n = [0%N] \/ exists d ds, digits_of_N n = d :: ds /\ d <> 0%N.
Proof.
  destruct n as [|p]; [left; reflexivity|right].
  apply digits_fuel_head. split; [lia|].
  rewrite Nat2N.inj_succ, N2Nat.id. apply N.log2_spec. lia.
Qed.

Lemma str_of_Z_numeral (z : Z) :
  str_of_Z z = numeral_text (z <? 0) (digits_of_N (Z.abs_N z)) [] None
  /\ numeral_ok (digits_of_N (Z.abs_N z)) [] None.
Proof.
  split.
  - unfold str_of_Z, numeral_text, str_of_N. rewrite !app_nil_r.
    destruct (z <? 0); reflexivity.
  - repeat split; [apply digits_of_N_all|constructor|apply digits_of_N_head].
Qed.

(** The text of an integer is read back as the integer. *)
Lemma parse_value_int fuel (z : Z) (rest : pystr) :
  terminated rest = true ->
  parse_value (S fuel) (str_of_Z z ++ rest) = Some (PInt z, rest).
Proof.
  intros Hrest. destruct (str_of_Z_numeral z) as [-> Hok].
  rewrite (parse_value_numeral fuel _ _ _ _ rest Hok Hrest).
  unfold numeral_value. cbn [numeral_is_float]. rewrite number_of_digits_of_N.
  f_equal. f_equal. f_equal. cbv zeta. rewrite N2Z.inj_abs_N. destruct (z <? 0) eqn:E.
  - apply Z.ltb_lt in E. lia.
  - apply Z.ltb_ge in E. lia.
Qed.

(** ** The text of a float *)

Lemma number_of_digits_bounds (ds : list N) :
  all_digits ds ->
  forall acc,
    (acc * 10 ^ N.of_nat (List.length ds) <= number_of_digits acc ds
     < (acc + 1) * 10 ^ N.of_nat (List.length ds))%N.
Proof.
  induction 1 as [|d ds Hd _ IH]; intros acc.
  - cbn [List.length number_of_digits]. change (10 ^ N.of_nat 0)%N with 1%N. lia.
  - cbn [List.length number_of_digits]. rewrite Nat2N.inj_succ, N.pow_succ_r'.
    specialize (IH (10 * acc + d)%N).
    remember (10 ^ N.of_nat (List.length ds))%N as P eqn:HP. clear HP. nia.
Qed.

(** A positive number with [L] digits lies between [10^(L-1)] and [10^L]. *)
Lemma digits_of_N_bounds (n : N) :
  (0 < n)%N ->
  exists L : nat,
    List.length (digits_of_N n) = S L /\ (10 ^ N.of_nat L <= n < 10 ^ N.of_nat (S L))%N.
Proof.
  intros Hn.
  destruct (digits_of_N_head n) as [E|(d & ds & E & Hd)].
  - pose proof (number_of_digits_of_N n) as H. rewrite E in H. cbn in H. lia.
  - exists (List.length ds). split; [rewrite E; reflexivity|].
    pose proof (number_of_digits_of_N n) as H. rewrite E in H. cbn [number_of_digits] in H.
    pose proof (digits_of_N_all n) as Hall. rewrite E in Hall.
    inversion Hall as [|? ? Hd' Hds].
    pose proof (number_of_digits_bounds ds Hds (10 * 0 + d)%N) as B.
    rewrite H in B. rewrite Nat2N.inj_succ, N.pow_succ_r'.
    remember (10 ^ N.of_nat (List.length ds))%N as P eqn:HP. clear HP. nia.
Qed.

(** The same bounds over the integers. *)
Lemma digits_length_bounds (z : Z) :
  0 < z ->
  let L := Z.of_nat (List.length (digits_of_N (Z.to_N z))) in
  1 <= L /\ 10 ^ (L - 1) <= z < 10 ^ L.
Proof.
  intros Hz. destruct (digits_of_N_bounds (Z.to_N z) ltac:(lia)) as (L & -> & B).
  cbv zeta. rewrite Nat2Z.inj_succ.
  replace (Z.succ (Z.of_nat L) - 1) with (Z.of_nat L) by lia.
  split; [lia|].
  assert (H1 : Z.of_N (10 ^ N.of_nat L) = 10 ^ Z.of_nat L).
  { rewrite N2Z.inj_pow, nat_N_Z. reflexivity. }
  assert (H2 : Z.of_N (10 ^ N.of_nat (S L)) = 10 ^ Z.succ (Z.of_nat L)).
  { rewrite N2Z.inj_pow, nat_N_Z, Nat2Z.inj_succ. reflexivity. }
  rewrite <- H1, <- H2. lia.
Qed.

Lemma at_least_pow10_mono num den k k' :
  0 < num -> 0 < den -> k' <= k -> at_least_pow10 num den k -> at_least_pow10 num den k'.
Proof.
  unfold at_least_pow10. intros Hn Hd Hk H.
  destruct (k <? 0) eqn:E; destruct (k' <? 0) eqn:E'.
  - apply Z.ltb_lt in E, E'.
    assert (10 ^ (- k) <= 10 ^ (- k')) by (apply Z.pow_le_mono_r; lia).
    nia.
  - apply Z.ltb_lt in E. apply Z.ltb_ge in E'. lia.
  - apply Z.ltb_ge in E. apply Z.ltb_lt in E'.
    assert (1 <= 10 ^ k) by (apply (Z.pow_le_mono_r 10 0 k); lia).
    assert (1 <= 10 ^ (- k')) by (apply (Z.pow_le_mono_r 10 0 (- k')); lia).
    nia.
  - apply Z.ltb_ge in E, E'.
    assert (10 ^ k' <= 10 ^ k) by (apply Z.pow_le_mono_r; lia).
    assert (0 < 10 ^ k') by (apply Z.pow_pos_nonneg; lia).
    nia.
Qed.

Lemma decimal_point_lower (num den : Z) :
  0 < num -> 0 < den -> at_least_pow10 num den (decimal_point num den - 1).
Proof.
  intros Hn Hd. unfold decimal_point.
  destruct (digits_length_bounds num Hn) as [Ln1 Bn].
  destruct (digits_length_bounds den Hd) as [Ld1 Bd].
  set (Ln := Z.of_nat (List.length (digits_of_N (Z.to_N num)))) in *.
  set (Ld := Z.of_nat (List.length (digits_of_N (Z.to_N den)))) in *.
  cbv zeta. set (k := Ln - Ld).
  destruct (if k <? 0 then den <=? num * 10 ^ (- k) else den * 10 ^ k <=? num) eqn:G.
  - replace (k + 1 - 1) with k by lia. unfold at_least_pow10.
    destruct (k <? 0); apply Z.leb_le; exact G.
  - clear G. unfold at_least_pow10. destruct (k - 1 <? 0) eqn:E.
    + apply Z.ltb_lt in E.
      assert (H : 10 ^ Ld <= 10 ^ (Ln - 1) * 10 ^ (- (k - 1))).
      { rewrite <- Z.pow_add_r by lia. apply Z.pow_le_mono_r; lia. }
      assert (0 <= 10 ^ (- (k - 1))) by (apply Z.pow_nonneg; lia).
      nia.
    + apply Z.ltb_ge in E.
      assert (H : 10 ^ Ld * 10 ^ (k - 1) <= 10 ^ (Ln - 1)).
      { rewrite <- Z.pow_add_r by lia. apply Z.pow_le_mono_r; lia. }
      assert (0 <= 10 ^ (k - 1)) by (apply Z.pow_nonneg; lia).
      nia.
Qed.

(** The decimal just below, with at least one digit, is positive. *)
Lemma candidates_positive (num den n : Z) :
  0 < num -> 0 < den -> 1 <= n ->
  1 <= fst (fst (candidates num den n)).
Proof.
  intros Hn Hd Hn1. unfold candidates. cbv zeta. cbn [fst].
  set (p := decimal_point num den - n).
  assert (Hp : p <= decimal_point num den - 1) by (unfold p; lia).
  pose proof (at_least_pow10_mono num den _ p Hn Hd Hp
                (decimal_point_lower num den Hn Hd)) as H.
  unfold at_least_pow10 in H. destruct (p <? 0) eqn:E.
  - apply Z.div_le_lower_bound; lia.
  - apply Z.ltb_ge in E.
    assert (0 < 10 ^ p) by (apply Z.pow_pos_nonneg; lia).
    apply Z.div_le_lower_bound; nia.
Qed.

Lemma strip_trailing_zeros_rev_all (rds : list N) :
  all_digits rds -> all_digits (strip_trailing_zeros_rev rds).
Proof.
  induction 1 as [|d rds Hd H IH]; [constructor|].
  cbn [strip_trailing_zeros_rev]. destruct d; [exact IH|constructor; assumption].
Qed.

Lemma strip_trailing_zeros_rev_last (rds : list N) (d : N) :
  d <> 0%N -> strip_trailing_zeros_rev (rds ++ [d]) = strip_trailing_zeros_rev rds ++ [d].
Proof.
  intros Hd. induction rds as [|x rds IH].
  - cbn [app strip_trailing_zeros_rev]. destruct d; [contradiction|reflexivity].
  - cbn [app strip_trailing_zeros_rev]. destruct x; [exact IH|reflexivity].
Qed.

(** Digits with a leading digit other than zero keep it, and stay digits,
    when the trailing zeros are removed. *)
Lemma strip_trailing_zeros_head (d : N) (ds : list N) :
  d <> 0%N -> all_digits (d :: ds) ->
  exists ds', strip_trailing_zeros (d :: ds) = d :: ds' /\ all_digits (d :: ds').
Proof.
  intros Hd Hall. unfold strip_trailing_zeros. cbn [rev].
  rewrite strip_trailing_zeros_rev_last by exact Hd.
  rewrite rev_app_distr. cbn [rev app].
  eexists. split; [reflexivity|].
  inversion Hall as [|? ? H1 H2]. constructor; [exact H1|].
  apply Forall_rev. apply strip_trailing_zeros_rev_all. apply Forall_rev. exact H2.
Qed.

Lemma zeros_digits (n : nat) : zeros n = List.map digit_char (repeat 0%N n).
Proof. unfold zeros. induction n as [|n IH]; [reflexivity|]. cbn. f_equal. exact IH. Qed.

Lemma all_digits_repeat (n : nat) : all_digits (repeat 0%N n).
Proof. induction n; constructor; [lia|assumption]. Qed.

Lemma format_exponent_text (ex : Z) :
  exists eds,
    format_exponent ex = exponent_text (Some (ex <? 0, eds))
    /\ all_digits eds /\ eds <> [].
Proof.
  unfold format_exponent, str_of_N.
  exists ((if (List.length (List.map digit_char (digits_of_N (Z.abs_N ex))) <? 2)%nat
           then [0%N] else []) ++ digits_of_N (Z.abs_N ex)).
  split; [|split].
  - cbn [exponent_text]. rewrite List.map_app.
    destruct (ex <? 0); destruct (_ <? 2)%nat; reflexivity.
  - apply Forall_app. split; [|apply digits_of_N_all].
    destruct (_ <? 2)%nat; [constructor; [lia|constructor]|constructor].
  - intros E. apply app_eq_nil in E as [_ E].
    destruct (digits_of_N_head (Z.abs_N ex)) as [H|(d & ds & H & _)];
      rewrite H in E; discriminate.
Qed.

Lemma fraction_text_cons (fp : list N) :
  fp <> [] -> fraction_text fp = 46%N :: List.map digit_char fp.
Proof. destruct fp; [contradiction|reflexivity]. Qed.

Lemma numeral_is_float_fraction (fp : list N) ex :
  fp <> [] -> numeral_is_float fp ex = true.
Proof. destruct fp; [contradiction|reflexivity]. Qed.

(** The layout of [repr] is a numeral of JSON with a fraction or an
    exponent. *)
Lemma format_digits_numeral (d : N) (ds : list N) (decpt : Z) :
  d <> 0%N -> all_digits (d :: ds) ->
  exists ip fp ex,
    format_digits (d :: ds) decpt = numeral_text false ip fp ex
    /\ numeral_ok ip fp ex /\ numeral_is_float fp ex = true.
Proof.
  intros Hd Hall. inversion Hall as [|? ? Hd10 Hds]. subst.
  unfold format_digits. cbv zeta.
  destruct ((decpt <=? -4) || (16 <? decpt)) eqn:E1.
  - destruct (format_exponent_text (decpt - 1)) as (eds & -> & Heds & Hne).
    exists [d], ds, (Some (decpt - 1 <? 0, eds)).
    split; [|split].
    + rewrite numeral_text_parts. cbn [List.map firstn skipn app].
      destruct ds; reflexivity.
    + repeat split; try assumption.
      * constructor; [exact Hd10|constructor].
      * right. exists d, []. split; [reflexivity|exact Hd].
    + destruct ds; reflexivity.
  - destruct (decpt <=? 0) eqn:E2.
    + exists [0%N], (repeat 0%N (Z.to_nat (- decpt)) ++ d :: ds), None.
      split; [|split].
      * rewrite numeral_text_parts. cbn [exponent_text]. rewrite app_nil_r.
        rewrite fraction_text_cons
          by (intros G; apply app_eq_nil in G as [_ G]; discriminate).
        rewrite zeros_digits, List.map_app. reflexivity.
      * repeat split.
        -- constructor; [lia|constructor].
        -- apply Forall_app. split; [apply all_digits_repeat|exact Hall].
        -- left. reflexivity.
      * apply numeral_is_float_fraction.
        intros G; apply app_eq_nil in G as [_ G]; discriminate.
    + apply Z.leb_gt in E2.
      destruct (decpt <? Z.of_nat (List.length (d :: ds))) eqn:E3.
      * apply Z.ltb_lt in E3.
        exists (firstn (Z.to_nat decpt) (d :: ds)), (skipn (Z.to_nat decpt) (d :: ds)), None.
        assert (Hk : exists k, Z.to_nat decpt = S k /\ (k < List.length ds)%nat).
        { exists (Nat.pred (Z.to_nat decpt)). cbn [List.length] in E3. lia. }
        destruct Hk as (k & Hk & Hlt). rewrite Hk.
        assert (Hskip : skipn (S k) (d :: ds) <> []).
        { cbn [skipn]. intros G. apply (f_equal (@List.length N)) in G.
          rewrite length_skipn in G. cbn in G. lia. }
        split; [|split].
        -- rewrite numeral_text_parts. cbn [exponent_text]. rewrite app_nil_r.
           rewrite (fraction_text_cons _ Hskip).
           rewrite <- firstn_map, <- skipn_map. reflexivity.
        -- repeat split.
           ++ apply Forall_take. exact Hall.
           ++ apply Forall_drop. exact Hall.
           ++ right. exists d, (firstn k ds). split; [reflexivity|exact Hd].
        -- apply numeral_is_float_fraction. exact Hskip.
      * apply Z.ltb_ge in E3.
        exists ((d :: ds) ++ repeat 0%N (Z.to_nat (decpt - Z.of_nat (List.length (d :: ds))))),
               [0%N], None.
        split; [|split].
        -- rewrite numeral_text_parts. cbn [exponent_text fraction_text List.map].
           rewrite app_nil_r, zeros_digits, List.map_app, <- app_assoc. reflexivity.
        -- repeat split.
           ++ apply Forall_app. split; [exact Hall|apply all_digits_repeat].
           ++ constructor; [lia|constructor].
           ++ right. eexists d, _. split; [reflexivity|exact Hd].
        -- reflexivity.
Qed.

Lemma format_decimal_numeral (c p : Z) :
  1 <= c ->
  exists ip fp ex,
    format_decimal c p = numeral_text false ip fp ex
    /\ numeral_ok ip fp ex /\ numeral_is_float fp ex = true.
Proof.
  intros Hc. unfold format_decimal. cbv zeta.
  destruct (digits_of_N_head (Z.to_N c)) as [E|(d & ds & E & Hd)].
  - pose proof (number_of_digits_of_N (Z.to_N c)) as H. rewrite E in H. cbn in H. lia.
  - pose proof (digits_of_N_all (Z.to_N c)) as Hall. rewrite E in *.
    destruct (strip_trailing_zeros_head d ds Hd Hall) as (ds' & -> & Hall').
    apply format_digits_numeral; assumption.
Qed.

Lemma shortest_text_numeral (tries : nat) :
  forall n f num den,
    0 < num -> 0 < den -> 1 <= n ->
    exists ip fp ex,
      shortest_text tries n f num den = numeral_text false ip fp ex
      /\ numeral_ok ip fp ex /\ numeral_is_float fp ex = true.
Proof.
  induction tries as [|tries IH]; intros n f num den Hn Hd Hn1;
    pose proof (candidates_positive num den n Hn Hd Hn1) as Hlo;
    cbn [shortest_text]; destruct (candidates num den n) as [[lo p] up]; cbn [fst] in Hlo.
  - destruct up; apply format_decimal_numeral; lia.
  - repeat match goal with
           | |- context [if ?b then _ else _] => destruct b
           end;
      try (apply format_decimal_numeral; lia).
    apply IH; lia.
Qed.

(** The text of a finite float is a numeral of JSON with a fraction or an
    exponent. *)
Lemma float_repr_numeral (f : pyfloat) :
  match f with FNaN | FInf _ => False | _ => True end ->
  exists neg ip fp ex,
    float_repr f = numeral_text neg ip fp ex
    /\ numeral_ok ip fp ex /\ numeral_is_float fp ex = true.
Proof.
  destruct f as [|neg|neg|neg m e]; intros H; try contradiction.
  - exists neg, [0%N], [0%N], None. split; [destruct neg; reflexivity|].
    split; [|reflexivity].
    repeat split; try (constructor; [lia|constructor]). left. reflexivity.
  - cbn [float_repr].
    set (num := if e <? 0 then Z.pos m else Z.pos m * 2 ^ e).
    set (den := if e <? 0 then 2 ^ (- e) else 1).
    assert (Hn : 0 < num).
    { unfold num. destruct (e <? 0) eqn:E; [lia|]. apply Z.ltb_ge in E.
      assert (0 < 2 ^ e) by (apply Z.pow_pos_nonneg; lia). nia. }
    assert (Hd : 0 < den).
    { unfold den. destruct (e <? 0) eqn:E; [|lia]. apply Z.ltb_lt in E.
      apply Z.pow_pos_nonneg; lia. }
    destruct (shortest_text_numeral 16 1 (FNum false m e) num den Hn Hd ltac:(lia))
      as (ip & fp & ex & -> & Hok & Hfl).
    exists neg, ip, fp, ex. split; [destruct neg; reflexivity|]. split; assumption.
Qed.

(** ** Values written by [json.dumps] and read by [json.loads] *)

(** Induction on values, with the hypothesis for the elements of lists and
    dictionaries. *)
Lemma PyVal_induction (P : PyVal -> Prop) :
  P PNone ->
  (forall b, P (PBool b)) ->
  (forall z, P (PInt z)) ->
  (forall f, P (PFloat f)) ->
  (forall s, P (PStr s)) ->
  (forall l, Forall P l -> P (PList l)) ->
  (forall d, Forall (fun kv => P (snd kv)) d -> P (PDict d)) ->
  forall v, P v.
Proof.
  intros HN HB HZ HF HS HL HD. fix IH 1. intros [|b|z|f|s|l|d].
  - exact HN.
  - apply HB.
  - apply HZ.
  - apply HF.
  - apply HS.
  - apply HL. revert l. fix IHl 1. intros [|x l]; constructor; [apply IH|apply IHl].
  - apply HD. revert d. fix IHd 1. intros [|[k x] d]; constructor; [apply IH|apply IHd].
Qed.

Lemma json_string_cons (s : pystr) : json_string s = 34%N :: List.tl (json_string s).
Proof. reflexivity. Qed.

Lemma numeral_text_head neg ip fp ex :
  numeral_ok ip fp ex ->
  exists c s, numeral_text neg ip fp ex = c :: s /\ (c = 45%N \/ (48 <= c <= 57)%N).
Proof.
  intros (Hip & _ & Hhead & _).
  assert (Hne : exists d ip', ip = d :: ip' /\ (d < 10)%N).
  { destruct Hhead as [->|(d & ip' & -> & _)].
    - exists 0%N, []. split; [reflexivity|lia].
    - exists d, ip'. split; [reflexivity|]. inversion Hip; assumption. }
  destruct Hne as (d & ip' & -> & Hd). rewrite numeral_text_parts.
  destruct neg; cbn [app List.map]; eexists _, _; (split; [reflexivity|]).
  - left; reflexivity.
  - right. unfold digit_char. lia.
Qed.

(** The first character of a JSON text: an ASCII character that is not
    white space and not a closing bracket. *)
Lemma json_dumps_head (v : PyVal) :
  exists c s,
    json_dumps v = c :: s /\ json_space c = false /\ c <> 93%N /\ (c < 128)%N.
Proof.
  assert (Hnum : forall c, c = 45%N \/ (48 <= c <= 57)%N ->
                   json_space c = false /\ c <> 93%N /\ (c < 128)%N).
  { intros c Hc. split; [|lia]. unfold json_space.
    rewrite (proj2 (N.eqb_neq c 32)), (proj2 (N.eqb_neq c 9)), (proj2 (N.eqb_neq c 10)),
      (proj2 (N.eqb_neq c 13)) by lia. reflexivity. }
  destruct v as [|b|z|f|s|l|d].
  - eexists _, _. repeat split. discriminate.
  - destruct b; eexists _, _; repeat split; discriminate.
  - cbn [json_dumps]. destruct (str_of_Z_numeral z) as [-> Hok].
    destruct (numeral_text_head (z <? 0) _ _ _ Hok) as (c & s & -> & Hc).
    eexists _, _. split; [reflexivity|]. apply Hnum. exact Hc.
  - cbn [json_dumps]. destruct f as [|neg|neg|neg m e].
    + eexists _, _. repeat split. discriminate.
    + destruct neg; eexists _, _; repeat split; discriminate.
    + destruct neg; eexists _, _; repeat split; discriminate.
    + destruct (float_repr_numeral (FNum neg m e) I) as (n & ip & fp & ex & E & Hok & _).
      unfold json_float. rewrite E.
      destruct (numeral_text_head n _ _ _ Hok) as (c & s & -> & Hc).
      eexists _, _. split; [reflexivity|]. apply Hnum. exact Hc.
  - eexists _, _. repeat split. discriminate.
  - eexists _, _. repeat split. discriminate.
  - eexists _, _. repeat split. discriminate.
Qed.

Lemma skip_ws_json_dumps (v : PyVal) (rest : pystr) :
  skip_ws (json_dumps v ++ rest) = json_dumps v ++ rest.
Proof.
  destruct (json_dumps_head v) as (c & s & -> & Hc & _).
  cbn [app skip_ws]. rewrite Hc. reflexivity.
Qed.

(** A finite float is read back as [reread_float] says. *)
Lemma parse_value_float fuel (f : pyfloat) (rest : pystr) :
  terminated rest = true ->
  parse_value (S fuel) (json_float f ++ rest) = Some (PFloat (reread_float f), rest).
Proof.
  intros Hrest. destruct f as [|neg|neg|neg m e].
  - reflexivity.
  - destruct neg; reflexivity.
  - destruct (float_repr_numeral (FZero neg) I) as (n & ip & fp & ex & E & Hok & Hfl).
    unfold json_float, reread_float. rewrite E.
    rewrite (parse_value_numeral fuel n ip fp ex rest Hok Hrest).
    unfold numeral_value. rewrite Hfl, (float_of_str_numeral n ip fp ex Hok). reflexivity.
  - destruct (float_repr_numeral (FNum neg m e) I) as (n & ip & fp & ex & E & Hok & Hfl).
    unfold json_float, reread_float. rewrite E.
    rewrite (parse_value_numeral fuel n ip fp ex rest Hok Hrest).
    unfold numeral_value. rewrite Hfl, (float_of_str_numeral n ip fp ex Hok). reflexivity.
Qed.

Lemma str_join_cons (sep p : pystr) (q : pystr) (rest : list pystr) :
  str_join sep (p :: q :: rest) = p ++ sep ++ str_join sep (q :: rest).
Proof. reflexivity. Qed.

(** The elements of an array, after the first bracket. *)
Lemma parse_items_dumps (l : list PyVal) :
  Forall reads_back l -> l <> [] ->
  forall fuel acc rest,
    (List.length (str_join (lit ", ") (List.map json_dumps l)) < fuel)%nat ->
    parse_items fuel acc (str_join (lit ", ") (List.map json_dumps l) ++ 93%N :: rest)
    = Some (rev acc ++ List.map reread l, rest).
Proof.
  induction 1 as [|v l Hv Hl IH]; intros Hne fuel acc rest Hfuel; [contradiction|].
  destruct fuel as [|fuel]; [lia|]. cbn [parse_items].
  destruct l as [|w l].
  - cbn [List.map str_join] in *.
    rewrite (Hv fuel (93%N :: rest)) by (try reflexivity; lia).
    cbn [skip_ws json_space N.eqb Pos.eqb orb after_char].
    reflexivity.
  - cbn [List.map] in *. rewrite str_join_cons in *.
    rewrite <- !app_assoc.
    rewrite length_app in Hfuel.
    change (lit ", " ++ ?x) with (44%N :: 32%N :: x) in *.
    cbn [List.length] in Hfuel.
    rewrite (Hv fuel _) by (try reflexivity; lia).
    cbn [skip_ws json_space N.eqb Pos.eqb orb after_char].
    assert (Hskip : forall r,
              skip_ws (str_join (lit ", ") (json_dumps w :: List.map json_dumps l) ++ r)
              = str_join (lit ", ") (json_dumps w :: List.map json_dumps l) ++ r).
    { intros r. destruct l as [|x l].
      - cbn [List.map str_join]. apply skip_ws_json_dumps.
      - cbn [List.map]. rewrite str_join_cons, <- app_assoc. apply skip_ws_json_dumps. }
    rewrite Hskip.
    rewrite (IH ltac:(discriminate) fuel (reread v :: acc) rest) by lia.
    cbn [rev List.map]. rewrite <- app_assoc. reflexivity.
Qed.

Lemma skip_ws_member (kv : pystr * PyVal) (rest : pystr) :
  skip_ws (member_text kv ++ rest) = member_text kv ++ rest.
Proof. reflexivity. Qed.

Lemma member_text_length (kv : pystr * PyVal) :
  (List.length (json_dumps (snd kv)) + 4 <= List.length (member_text kv))%nat.
Proof.
  unfold member_text, json_string. rewrite !length_app.
  change (List.length (lit ": ")) with 2%nat. cbn [List.length]. lia.
Qed.

(** The members of an object, after the first brace. *)
Lemma parse_members_dumps (d : list (pystr * PyVal)) :
  Forall (fun kv => reads_back (snd kv)) d -> d <> [] ->
  forall fuel acc rest,
    (List.length (str_join (lit ", ") (List.map member_text d)) < fuel)%nat ->
    parse_members fuel acc (str_join (lit ", ") (List.map member_text d) ++ 125%N :: rest)
    = Some (rev acc ++ List.map (fun kv => (reread_str (fst kv), reread (snd kv))) d, rest).
Proof.
  induction 1 as [|[k v] d Hv Hd IH]; intros Hne fuel acc rest Hfuel; [contradiction|].
  destruct fuel as [|fuel]; [lia|]. cbn [parse_members]. cbn [snd] in Hv.
  pose proof (member_text_length (k, v)) as Hlen. cbn [snd] in Hlen.
  assert (Hstep : forall tail,
            (List.length (json_dumps v) <= fuel)%nat -> terminated tail = true ->
            after_char 34 (member_text (k, v) ++ tail)
            = Some (List.tl (json_string k) ++ lit ": " ++ json_dumps v ++ tail)
            /\ parse_value fuel (skip_ws (32%N :: json_dumps v ++ tail))
               = Some (reread v, tail)).
  { intros tail Hf Ht. split.
    - unfold member_text. cbn [fst snd]. rewrite (json_string_cons k), <- !app_assoc.
      reflexivity.
    - cbn [skip_ws json_space N.eqb Pos.eqb orb]. rewrite skip_ws_json_dumps.
      apply Hv; assumption. }
  destruct d as [|w d].
  - cbn [List.map str_join] in *.
    destruct (Hstep (125%N :: rest) ltac:(lia) eq_refl) as [H1 H2].
    rewrite H1, scan_json_string.
    change (lit ": " ++ ?x) with (58%N :: 32%N :: x).
    cbn [skip_ws json_space N.eqb Pos.eqb orb after_char].
    cbn [skip_ws json_space N.eqb Pos.eqb orb] in H2. rewrite H2.
    reflexivity.
  - cbn [List.map] in *. rewrite str_join_cons in *. rewrite <- !app_assoc.
    rewrite length_app in Hfuel.
    change (lit ", " ++ ?x) with (44%N :: 32%N :: x) in *.
    cbn [List.length] in Hfuel.
    destruct (Hstep (44%N :: 32%N :: str_join (lit ", ") (member_text w :: List.map member_text d)
                     ++ 125%N :: rest) ltac:(lia) eq_refl) as [H1 H2].
    cbn [app]. rewrite H1, scan_json_string.
    change (lit ": " ++ ?x) with (58%N :: 32%N :: x).
    cbn [skip_ws json_space N.eqb Pos.eqb orb after_char].
    cbn [skip_ws json_space N.eqb Pos.eqb orb] in H2. rewrite H2.
    cbn [skip_ws json_space N.eqb Pos.eqb orb after_char].
    assert (Hskip : forall r,
              skip_ws (str_join (lit ", ") (member_text w :: List.map member_text d) ++ r)
              = str_join (lit ", ") (member_text w :: List.map member_text d) ++ r).
    { intros r. destruct d as [|x d].
      - cbn [List.map str_join]. apply skip_ws_member.
      - cbn [List.map]. rewrite str_join_cons, <- app_assoc. apply skip_ws_member. }
    rewrite Hskip.
    rewrite (IH ltac:(discriminate) fuel ((reread_str k, reread v) :: acc) rest) by lia.
    cbn [rev List.map fst snd]. rewrite <- app_assoc. reflexivity.
Qed.

(** [json.loads] reads every text written by [json.dumps]: the value read
    is [reread v]. *)
Lemma parse_value_dumps (v : PyVal) : reads_back v.
Proof.
  induction v as [|b|z|f|s|l IH|d IH] using PyVal_induction;
    intros fuel rest Hfuel Hrest;
    (destruct fuel as [|fuel];
     [match type of Hfuel with
      | (List.length (json_dumps ?v) <= _)%nat =>
          destruct (json_dumps_head v) as (c & t & E & _);
          rewrite E in Hfuel; cbn in Hfuel; lia
      end|]).
  - reflexivity.
  - destruct b; reflexivity.
  - apply parse_value_int. exact Hrest.
  - apply parse_value_float. exact Hrest.
  - cbn [json_dumps reread]. rewrite json_string_cons. cbn [app parse_value].
    rewrite after_char_eq, scan_json_string. reflexivity.
  - cbn [json_dumps reread] in *.
    change (lit "[" ++ ?x) with (91%N :: x) in *. cbn [app parse_value after_char N.eqb Pos.eqb].
    rewrite <- app_assoc. change (lit "]" ++ rest) with (93%N :: rest).
    destruct l as [|v l].
    + reflexivity.
    + assert (Hskip : forall r,
                skip_ws (str_join (lit ", ") (List.map json_dumps (v :: l)) ++ r)
                = str_join (lit ", ") (List.map json_dumps (v :: l)) ++ r).
      { intros r. cbn [List.map]. destruct l as [|x l].
        - cbn [List.map str_join]. apply skip_ws_json_dumps.
        - cbn [List.map]. rewrite str_join_cons, <- app_assoc. apply skip_ws_json_dumps. }
      rewrite Hskip.
      assert (Hhead : after_char 93 (str_join (lit ", ") (List.map json_dumps (v :: l))
                                     ++ 93%N :: rest) = None).
      { cbn [List.map]. destruct (json_dumps_head v) as (c & t & E & _ & Hc & _).
        destruct l as [|x l].
        - cbn [List.map str_join]. rewrite E. apply after_char_ne. exact Hc.
        - cbn [List.map]. rewrite str_join_cons, E. apply after_char_ne. exact Hc. }
      rewrite Hhead.
      rewrite (parse_items_dumps (v :: l) IH ltac:(discriminate) fuel [] rest).
      * reflexivity.
      * cbn [List.length] in Hfuel. rewrite length_app in Hfuel.
        change (List.length (lit "]")) with 1%nat in Hfuel. lia.
  - cbn [json_dumps reread] in *.
    change (lit "{" ++ ?x) with (123%N :: x) in *. cbn [app parse_value after_char N.eqb Pos.eqb].
    rewrite <- app_assoc. change (lit "}" ++ rest) with (125%N :: rest).
    change (fun kv : pystr * PyVal => json_string (fst kv) ++ lit ": " ++ json_dumps (snd kv))
      with member_text in *.
    destruct d as [|kv d].
    + reflexivity.
    + assert (Hskip : forall r,
                skip_ws (str_join (lit ", ") (List.map member_text (kv :: d)) ++ r)
                = str_join (lit ", ") (List.map member_text (kv :: d)) ++ r).
      { intros r. cbn [List.map]. destruct d as [|x d].
        - cbn [List.map str_join]. apply skip_ws_member.
        - cbn [List.map]. rewrite str_join_cons, <- app_assoc. apply skip_ws_member. }
      rewrite Hskip.
      assert (Hhead : after_char 125 (str_join (lit ", ") (List.map member_text (kv :: d))
                                      ++ 125%N :: rest) = None).
      { cbn [List.map]. destruct d as [|x d]; reflexivity. }
      rewrite Hhead.
      rewrite (parse_members_dumps (kv :: d) IH ltac:(discriminate) fuel [] rest).
      * reflexivity.
      * cbn [List.length] in Hfuel. rewrite length_app in Hfuel.
        change (List.length (lit "}")) with 1%nat in Hfuel.
        match goal with
        | |- (?a < _)%nat =>
            match type of Hfuel with
            | (S (?b + 1) <= _)%nat => change b with a in Hfuel
            end
        end.
        lia.
Qed.

(** The text of [json.dumps] is accepted by [json.loads]. *)
Lemma json_loads_dumps (v : PyVal) : json_loads (json_dumps v) = Ok (reread v).
Proof.
  unfold json_loads.
  destruct (json_dumps_head v) as (c & t & E & _ & _ & Hc).
  assert (Hbom : after_char 65279 (json_dumps v) = None).
  { rewrite E. apply after_char_ne. lia. }
  rewrite Hbom.
  pose proof (skip_ws_json_dumps v []) as Hs. rewrite app_nil_r in Hs. rewrite Hs.
  pose proof (parse_value_dumps v (S (List.length (json_dumps v))) [] ltac:(lia) eq_refl) as H.
  rewrite app_nil_r in H. rewrite H. reflexivity.
Qed.
(** ** List types *)

Lemma startswith_length (s prefix : pystr) :
  startswith s prefix = true -> (List.length prefix <= List.length s)%nat.
Proof.
  revert s. induction prefix as [|p prefix IH]; intros s H.
  - cbn. lia.
  - destruct s as [|c s]; [discriminate H|].
    cbn in H. apply andb_true_iff in H as [_ H]. apply IH in H. cbn. lia.
Qed.

Lemma replace_from_length (old : pystr) (s : pystr) :
  forall skip, (List.length (replace_from skip s old []) <= List.length s - skip)%nat.
Proof.
  induction s as [|c s IH]; intros skip.
  - cbn. lia.
  - cbn [replace_from]. destruct skip as [|k].
    + destruct (startswith (c :: s) old).
      * cbn [app]. specialize (IH (Nat.pred (List.length old))). cbn [List.length]. lia.
      * cbn [List.length]. specialize (IH O). lia.
    + specialize (IH k). cbn [List.length]. lia.
Qed.

(** The base type of a list type is shorter by the five characters of
    [list.] at least. *)
Lemma base_type_shorter (t : pystr) :
  startswith t (lit "list.") = true ->
  (List.length (base_type t) + 5 <= List.length t)%nat.
Proof.
  intros H. pose proof (startswith_length _ _ H) as Hlen.
  change (List.length (lit "list.")) with 5%nat in Hlen.
  unfold base_type, str_replace.
  destruct t as [|c t]; [cbn in Hlen; lia|].
  cbn [replace_from]. rewrite H. cbn [app].
  change (Nat.pred (List.length (lit "list."))) with 4%nat.
  pose proof (replace_from_length (lit "list.") t 4). cbn [List.length] in *. lia.
Qed.

Lemma map_result_ext {A B} (f g : A -> Result B) (xs : list A) :
  (forall x, f x = g x) -> map_result f xs = map_result g xs.
Proof.
  intros H. induction xs as [|x xs IH]; [reflexivity|].
  cbn [map_result]. rewrite H, IH. reflexivity.
Qed.

(** The list branch: the items are transformed for the base type and
    written as a JSON array of strings. *)
Lemma transform_list_items (f : PyVal -> pystr -> Result pystr) (v : PyVal) (t : pystr) :
  _transform_list_value f v t
  = match list_items v with
    | Ok items =>
        match map_result (fun item => f item (base_type t)) items with
        | Ok transformed_items => Ok (array_text transformed_items)
        | Raise e => Raise e
        end
    | Raise e => Raise e
    end.
Proof.
  unfold _transform_list_value, list_items, base_type, array_text.
  destruct v as [|b|z|x|s|l|d]; try reflexivity.
  destruct (try_except _ _ _) as [p|e]; [|reflexivity].
  cbn [mbind Result_bind]. destruct (py_iter p) as [items|e]; reflexivity.
Qed.

(** The fuel of [transform_value] is enough: more fuel changes nothing. *)
Lemma transform_fuel_enough (fuel : nat) :
  forall (t : pystr) (v : PyVal),
    (List.length t < fuel)%nat ->
    transform_value_fuel fuel v t = transform_value v t.
Proof.
  induction fuel as [fuel IH] using lt_wf_ind. intros t v Hlen.
  unfold transform_value.
  destruct fuel as [|fuel]; [lia|].
  destruct (startswith t (lit "list.")) eqn:E.
  - cbn [transform_value_fuel]. rewrite E.
    rewrite !transform_list_items.
    pose proof (base_type_shorter t E) as Hb.
    destruct (list_items v) as [items|e]; [|reflexivity].
    rewrite (map_result_ext (fun item => transform_value_fuel fuel item (base_type t))
               (fun item => transform_value item (base_type t))).
    2:{ intros item. apply IH; lia. }
    rewrite (map_result_ext (fun item => transform_value_fuel (List.length t) item (base_type t))
               (fun item => transform_value item (base_type t))).
    2:{ intros item. apply IH; lia. }
    reflexivity.
  - rewrite (transform_fuel_scalar fuel v t E), (transform_fuel_scalar (List.length t) v t E).
    reflexivity.
Qed.

(** [transform_value] on a list type. *)
Lemma transform_list_type (v : PyVal) (t : pystr) :
  startswith t (lit "list.") = true ->
  transform_value v t
  = match list_items v with
    | Ok items =>
        match map_result (fun item => transform_value item (base_type t)) items with
        | Ok transformed_items => Ok (array_text transformed_items)
        | Raise e => Raise e
        end
    | Raise e => Raise e
    end.
Proof.
  intros E. pose proof (base_type_shorter t E) as Hb.
  unfold transform_value at 1. cbn [transform_value_fuel]. rewrite E.
  rewrite transform_list_items.
  destruct (list_items v) as [items|e]; [|reflexivity].
  rewrite (map_result_ext (fun item => transform_value_fuel (List.length t) item (base_type t))
             (fun item => transform_value item (base_type t))).
  2:{ intros item. apply transform_fuel_enough; lia. }
  reflexivity.
Qed.

(** Every failure of [json.loads] is a [JSONDecodeError]. *)
Lemma json_loads_raises (s : pystr) (e : exn) :
  json_loads s = Raise e -> isinstance e [JSONDecodeError] = true.
Proof.
  unfold json_loads. intros E.
  destruct (after_char 65279 s); [injection E as <-; reflexivity|].
  destruct (parse_value _ _) as [[p r]|]; [|injection E as <-; reflexivity].
  destruct (skip_ws r); [discriminate E|injection E as <-; reflexivity].
Qed.

Lemma list_items_single (x : PyVal) : single_item x = true -> list_items x = Ok [x].
Proof.
  intros H. destruct x as [|b|z|f|s|l|d]; try reflexivity; try discriminate H.
  unfold list_items. cbn [single_item] in H.
  destruct (json_loads s) as [p|e] eqn:E; [discriminate H|].
  unfold try_except. rewrite (json_loads_raises s e E). reflexivity.
Qed.

(** C3 (the claim fails as stated): the bare string [abc] is not JSON, so
    it is taken as the single item of the list, and the item is then
    transformed for the base type: under [list.number_integer] the call
    fails with the transformer's own failure of the integer branch instead
    of yielding a one-element array. *)
Lemma list_coercion_counterexample :
  single_item (PStr (lit "abc")) = true
  /\ transform_value (PStr (lit "abc")) (lit "list.number_integer")
     = Raise (invalid_integer (lit "abc")).
Proof. split; vm_compute; reflexivity. Qed.

(** C3 (amended): for every list type [t], the empty list yields exactly
    the text of the empty array; a value [x] that is not a list, and is not a
    string that [json.loads] accepts, is transformed for the base type of
    [t], and the call yields the one-element array of the resulting string
    when that transformation succeeds, and fails as it does otherwise; the
    text of such an array is read by [json.loads] as a one-element list. *)
Theorem list_coercion_of_single_values (t : pystr) (x : PyVal) :
  startswith t (lit "list.") = true ->
  transform_value (PList []) t = Ok (lit "[]")
  /\ (single_item x = true ->
      transform_value x t
      = match transform_value x (base_type t) with
        | Ok s => Ok (array_text [s])
        | Raise e => Raise e
        end)
  /\ (forall s : pystr,
        array_text [s] = lit "[" ++ json_string s ++ lit "]"
        /\ json_loads (array_text [s]) = Ok (PList [PStr (reread_str s)])).
Proof.
  intros E. split; [|split].
  - rewrite (transform_list_type _ _ E). reflexivity.
  - intros Hx. rewrite (transform_list_type _ _ E), (list_items_single x Hx).
    cbn [map_result]. destruct (transform_value x (base_type t)); reflexivity.
  - intros s. split; [reflexivity|].
    unfold array_text. rewrite json_loads_dumps. reflexivity.
Qed.

(** C3 at the type [list.single_line_text_field] and the string [hello]. *)
Lemma list_coercion_witness :
  startswith (lit "list.single_line_text_field") (lit "list.") = true
  /\ single_item (PStr (lit "hello")) = true
  /\ transform_value (PList []) (lit "list.single_line_text_field") = Ok (lit "[]")
  /\ transform_value (PStr (lit "hello")) (lit "list.single_line_text_field")
     = match transform_value (PStr (lit "hello"))
               (base_type (lit "list.single_line_text_field")) with
       | Ok s => Ok (array_text [s])
       | Raise e => Raise e
       end.
Proof.
  split; [reflexivity|]. split; [vm_compute; reflexivity|].
  destruct (list_coercion_of_single_values (lit "list.single_line_text_field")
              (PStr (lit "hello")) eq_refl) as (H1 & H2 & _).
  split; [exact H1|]. apply H2. vm_compute; reflexivity.
Defined.

(** ** The type [json] *)

Lemma transform_json_str (s : pystr) :
  transform_value (PStr s) (lit "json")
  = match json_loads s with
    | Ok parsed => Ok (json_dumps parsed)
    | Raise _ => Raise (invalid_json s)
    end.
Proof.
  rewrite transform_scalar by reflexivity. cbn [transform_value_fuel].
  change (startswith (lit "json") (lit "list.")) with false. cbv iota.
  destruct (decide (lit "json" = lit "json")) as [_|n]; [|destruct (n eq_refl)].
  destruct (json_loads s) as [p|e] eqn:E; [reflexivity|].
  cbn [mbind Result_bind]. unfold try_except. rewrite (json_loads_raises s e E). reflexivity.
Qed.

Lemma transform_json_other (v : PyVal) :
  (forall s, v <> PStr s) -> transform_value v (lit "json") = Ok (json_dumps v).
Proof.
  intros H. rewrite transform_scalar by reflexivity. cbn [transform_value_fuel].
  change (startswith (lit "json") (lit "list.")) with false. cbv iota.
  destruct (decide (lit "json" = lit "json")) as [_|n]; [|destruct (n eq_refl)].
  destruct v; try reflexivity. destruct (H s eq_refl).
Qed.

(** C6: under the type [json] a dictionary, a list and every other value
    that is not a string is written by [json.dumps], and the text is accepted
    by [json.loads]; a string that [json.loads] accepts is written again from
    the parsed value, and that text is accepted too; a string that
    [json.loads] rejects gives the transformer's own failure, and no other
    input fails. *)
Theorem json_type_validity (v : PyVal) :
  match v with
  | PStr s =>
      match json_loads s with
      | Ok parsed =>
          transform_value v (lit "json") = Ok (json_dumps parsed)
          /\ json_loads (json_dumps parsed) = Ok (reread parsed)
      | Raise _ => transform_value v (lit "json") = Raise (invalid_json s)
      end
  | _ =>
      transform_value v (lit "json") = Ok (json_dumps v)
      /\ json_loads (json_dumps v) = Ok (reread v)
  end.
Proof.
  destruct v as [|b|z|f|s|l|d];
    try (split; [apply transform_json_other; discriminate|apply json_loads_dumps]).
  rewrite transform_json_str. destruct (json_loads s) as [p|e]; [|reflexivity].
  split; [reflexivity|apply json_loads_dumps].
Qed.
(** ** Re-encoding *)

(** *** Integers up to [2^53] *)

Lemma round_half_even_exact (x : Z) : round_half_even x 1 = x.
Proof.
  unfold round_half_even. rewrite Z.div_1_r, Z.mod_1_r. reflexivity.
Qed.

(** An integer up to [2^53] is a float, and [int] gives it back. *)
Lemma int_of_round_ratio (neg : bool) (a : Z) :
  0 <= a <= 2 ^ 53 ->
  int_of_float (round_ratio neg a 1) = Ok (if neg then - a else a).
Proof.
  intros Ha. unfold round_ratio.
  destruct (Z.leb_spec a 0) as [H0|H0].
  - assert (a = 0) by lia. subst a. destruct neg; reflexivity.
  - destruct (Z.eq_dec a (2 ^ 53)) as [->|Hne]; [destruct neg; vm_compute; reflexivity|].
    pose proof (Z.log2_spec a H0) as [Hlo Hhi].
    pose proof (Z.log2_nonneg a) as HL0.
    remember (Z.log2 a) as L eqn:EL.
    assert (HL : L <= 52).
    { apply Z.lt_succ_r. apply (Z.pow_lt_mono_r_iff 2); lia. }
    set (k := 52 - L).
    assert (Hpow : 2 ^ L * 2 ^ k = 2 ^ 52).
    { rewrite <- Z.pow_add_r by lia. f_equal. lia. }
    assert (Hpk : 0 < 2 ^ k) by (apply Z.pow_pos_nonneg; lia).
    assert (Hx : 2 ^ 52 <= a * 2 ^ k < 2 ^ 53).
    { replace (Z.succ L) with (L + 1) in Hhi by lia.
      rewrite Z.pow_add_r in Hhi by lia. change (2 ^ 1) with 2 in Hhi.
      change (2 ^ 53) with (2 ^ 52 * 2). nia. }
    assert (Hnum : scale_num a (L - 52) = a * 2 ^ k).
    { unfold scale_num. destruct (Z.ltb_spec (L - 52) 0).
      - f_equal. f_equal. unfold k. lia.
      - assert (Hk0 : k = 0) by (unfold k; lia).
        replace (2 ^ k) with 1 by (rewrite Hk0; reflexivity). lia. }
    assert (Hden : scale_den 1 (L - 52) = 1).
    { unfold scale_den. destruct (Z.ltb_spec (L - 52) 0); [reflexivity|].
      replace (L - 52) with 0 by lia. reflexivity. }
    assert (Hexp : binary_exponent a 1 = L - 52).
    { unfold binary_exponent. rewrite <- EL. change (Z.log2 1) with 0.
      replace (L - 0 - 52) with (L - 52) by lia. cbv zeta.
      rewrite Hnum, Hden, Z.div_1_r.
      destruct (Z.ltb_spec (a * 2 ^ k) (2 ^ 52)); [lia|]. lia. }
    rewrite Hexp. cbv zeta. rewrite Hnum, Hden, round_half_even_exact.
    destruct (Z.eqb_spec (a * 2 ^ k) (2 ^ 53)) as [E|_]; [lia|].
    destruct (Z.eqb_spec (a * 2 ^ k) 0) as [E|_]; [lia|].
    destruct (Z.ltb_spec 971 (L - 52)) as [E|_]; [lia|].
    unfold int_of_float. rewrite Z2Pos.id by lia.
    destruct (Z.ltb_spec (L - 52) 0) as [E|E].
    + replace (- (L - 52)) with k by (unfold k; lia).
      rewrite Z.div_mul by lia. reflexivity.
    + replace (L - 52) with 0 by lia. assert (Hk0 : k = 0) by (unfold k; lia).
      replace (2 ^ k) with 1 by (rewrite Hk0; reflexivity).
      change (2 ^ 0) with 1. rewrite !Z.mul_1_r. reflexivity.
Qed.

Lemma float_of_str_int (n : Z) :
  float_of_str (str_of_Z n) = Ok (round_ratio (n <? 0) (Z.abs n) 1).
Proof.
  destruct (str_of_Z_numeral n) as [-> Hok].
  rewrite (float_of_str_numeral _ _ _ _ Hok).
  rewrite app_nil_r, number_of_digits_of_N.
  unfold round_decimal, exponent_value. cbn [List.length].
  change (0 - Z.of_nat 0 <? 0) with false. cbv iota.
  change (10 ^ (0 - Z.of_nat 0)) with 1. rewrite Z.mul_1_r, N2Z.inj_abs_N. reflexivity.
Qed.

(** The text of an integer up to [2^53] is its own transformation. *)
Lemma transform_integer_text (n : Z) :
  Z.abs n <= 2 ^ 53 ->
  transform_value (PStr (str_of_Z n)) (lit "number_integer") = Ok (str_of_Z n).
Proof.
  intros Hn. rewrite transform_integer_str, float_of_str_int.
  cbn [mbind Result_bind]. rewrite int_of_round_ratio by lia.
  unfold integer_text. cbn [mbind Result_bind try_except].
  f_equal. f_equal. destruct (Z.ltb_spec n 0); lia.
Qed.

(** *** Strings *)

Lemma utf16_units_join (h l : N) :
  high_surrogate h = true -> low_surrogate l = true ->
  utf16_units (join_surrogates h l) = [h; l].
Proof.
  unfold high_surrogate, low_surrogate, utf16_units, join_surrogates.
  intros Hh Hl. apply andb_prop in Hh as [Hh1 Hh2]. apply andb_prop in Hl as [Hl1 Hl2].
  apply N.leb_le in Hh1, Hh2, Hl1, Hl2.
  assert (Ea : exists a, h = (55296 + a)%N /\ (a < 1024)%N) by (exists (h - 55296)%N; lia).
  assert (Eb : exists b, l = (56320 + b)%N /\ (b < 1024)%N) by (exists (l - 56320)%N; lia).
  destruct Ea as (a & -> & Ha). destruct Eb as (b & -> & Hb).
  replace (65536 + (55296 + a - 55296) * 1024 + (56320 + b - 56320))%N
    with (65536 + (a * 1024 + b))%N by lia.
  destruct (N.ltb_spec (65536 + (a * 1024 + b)) 65536) as [E|_]; [lia|].
  cbv zeta. replace (65536 + (a * 1024 + b) - 65536)%N with (a * 1024 + b)%N by lia.
  assert (Hq : ((a * 1024 + b) / 1024 = a)%N).
  { symmetry. apply (N.div_unique _ 1024 a b); lia. }
  assert (Hr : ((a * 1024 + b) mod 1024 = b)%N).
  { symmetry. apply (N.mod_unique _ 1024 a b); lia. }
  rewrite Hq, Hr, N.mod_small by exact Ha. reflexivity.
Qed.

Lemma utf16_units_small (u : N) : (u < 65536)%N -> utf16_units u = [u].
Proof. intros H. unfold utf16_units. rewrite (proj2 (N.ltb_lt _ _) H). reflexivity. Qed.

Lemma high_surrogate_small (h : N) : high_surrogate h = true -> (h < 65536)%N.
Proof.
  unfold high_surrogate. intros H. apply andb_prop in H as [_ H]. apply N.leb_le in H. lia.
Qed.

(** Combining the surrogate pairs of a sequence of units keeps the
    units. *)
Lemma units_combine (units : list N) :
  Forall (fun u => (u < 65536)%N) units ->
  forall pending,
    match pending with Some h => high_surrogate h = true | None => True end ->
    concat (List.map utf16_units (combine_units pending units))
    = match pending with Some h => [h] | None => [] end ++ units.
Proof.
  induction 1 as [|u units Hu _ IH]; intros pending Hp.
  - destruct pending as [h|]; [|reflexivity].
    cbn [combine_units List.map concat]. rewrite utf16_units_small by
      (apply high_surrogate_small; exact Hp). reflexivity.
  - cbn [combine_units]. destruct pending as [h|].
    + destruct (low_surrogate u) eqn:El; [|destruct (high_surrogate u) eqn:Eh].
      * cbn [List.map concat]. rewrite utf16_units_join by assumption.
        rewrite (IH None I). reflexivity.
      * cbn [List.map concat]. rewrite utf16_units_small by
          (apply high_surrogate_small; exact Hp).
        rewrite (IH (Some u) Eh). reflexivity.
      * cbn [List.map concat]. rewrite utf16_units_small by
          (apply high_surrogate_small; exact Hp).
        rewrite (utf16_units_small u Hu), (IH None I). reflexivity.
    + destruct (high_surrogate u) eqn:Eh.
      * rewrite (IH (Some u) Eh). reflexivity.
      * cbn [List.map concat]. rewrite (utf16_units_small u Hu), (IH None I). reflexivity.
Qed.

Lemma units_reread_str (s : pystr) :
  concat (List.map utf16_units (reread_str s)) = concat (List.map utf16_units s).
Proof.
  assert (H : Forall (fun u => (u < 65536)%N) (concat (List.map utf16_units s))).
  { induction s as [|c s IH]; [constructor|].
    cbn [List.map concat]. apply Forall_app. split; [apply utf16_units_bound|exact IH]. }
  unfold reread_str. rewrite (units_combine _ H None I). reflexivity.
Qed.

(** A string and what is read back from its JSON text have the same
    JSON text. *)
Lemma json_string_reread (s : pystr) : json_string (reread_str s) = json_string s.
Proof. rewrite !json_string_units, units_reread_str. reflexivity. Qed.
(** *** Dictionaries *)

Lemma dict_set_fresh (d : list (pystr * PyVal)) (k : pystr) (v : PyVal) :
  k ∉ List.map fst d -> dict_set d k v = d ++ [(k, v)].
Proof.
  induction d as [|[k' w] d IH]; intros H; [reflexivity|].
  cbn [dict_set]. cbn [List.map fst] in H. apply not_elem_of_cons in H as [H1 H2].
  destruct (decide (k' = k)) as [Hk|_]; [destruct (H1 (eq_sym Hk))|].
  rewrite IH by exact H2. reflexivity.
Qed.

Lemma fold_dict_set_fresh (pairs : list (pystr * PyVal)) :
  forall acc,
    NoDup (List.map fst pairs) ->
    (forall k, k ∈ List.map fst pairs -> k ∉ List.map fst acc) ->
    fold_left (fun d kv => dict_set d (fst kv) (snd kv)) pairs acc = acc ++ pairs.
Proof.
  induction pairs as [|[k v] pairs IH]; intros acc Hnd Hdis.
  - cbn [fold_left]. rewrite app_nil_r. reflexivity.
  - cbn [List.map fst] in Hnd, Hdis. apply NoDup_cons in Hnd as [Hk Hnd].
    cbn [fold_left fst snd]. rewrite dict_set_fresh by (apply Hdis; left).
    rewrite IH.
    + rewrite <- app_assoc. reflexivity.
    + exact Hnd.
    + intros k' Hk'. rewrite List.map_app. apply not_elem_of_app. split.
      * apply Hdis. right. exact Hk'.
      * cbn [List.map fst]. intros Hin. apply list_elem_of_singleton in Hin. subst k'.
        exact (Hk Hk').
Qed.

(** Pairs with distinct keys make the dictionary of these pairs. *)
Lemma dict_of_pairs_distinct (pairs : list (pystr * PyVal)) :
  NoDup (List.map fst pairs) -> dict_of_pairs pairs = pairs.
Proof.
  intros H. unfold dict_of_pairs. rewrite fold_dict_set_fresh; [reflexivity|exact H|].
  intros k _ Hin. cbn in Hin. inversion Hin.
Qed.

(** *** Plain values *)

(** A plain value and what is read back from its JSON text have the same
    JSON text. *)
Lemma json_dumps_reread (v : PyVal) : plain v = true -> json_dumps (reread v) = json_dumps v.
Proof.
  induction v as [|b|z|f|s|l IH|d IH] using PyVal_induction; intros Hp;
    try reflexivity.
  - cbn [plain] in Hp. apply bool_decide_eq_true in Hp. cbn [reread]. rewrite Hp. reflexivity.
  - cbn [reread json_dumps]. apply json_string_reread.
  - cbn [plain] in Hp. cbn [reread json_dumps]. f_equal. f_equal. f_equal.
    induction IH as [|x l Hx _ IHl]; [reflexivity|].
    cbn [forallb] in Hp. apply andb_prop in Hp as [Hp1 Hp2].
    cbn [List.map]. rewrite (Hx Hp1), (IHl Hp2). reflexivity.
  - cbn [plain] in Hp. apply andb_prop in Hp as [Hk Hp]. apply bool_decide_eq_true in Hk.
    cbn [reread]. rewrite dict_of_pairs_distinct.
    2:{ rewrite List.map_map. cbn [fst]. exact Hk. }
    cbn [json_dumps]. f_equal. f_equal. f_equal. clear Hk.
    induction IH as [|kv d Hx _ IHd]; [reflexivity|].
    cbn [forallb] in Hp. apply andb_prop in Hp as [Hp1 Hp2].
    cbn [List.map fst snd]. rewrite (Hx Hp1), (IHd Hp2), json_string_reread. reflexivity.
Qed.

(** The JSON text of a plain value is its own transformation. *)
Lemma transform_json_text (p : PyVal) :
  plain p = true ->
  transform_value (PStr (json_dumps p)) (lit "json") = Ok (json_dumps p).
Proof.
  intros Hp. rewrite transform_json_str, json_loads_dumps, (json_dumps_reread p Hp).
  reflexivity.
Qed.

(** *** The types [dimension], [volume] and [weight] *)

Lemma transform_dimension (t : pystr) (v : PyVal) :
  t ∈ [lit "dimension"; lit "volume"; lit "weight"] ->
  transform_value v t
  = match v with
    | PDict _ => Ok (json_dumps v)
    | PStr x =>
        match json_loads x with
        | Ok parsed => Ok (json_dumps parsed)
        | Raise _ => raise ValueError (lit "Invalid JSON for " ++ t ++ lit ": " ++ x)
        end
    | _ => raise ValueError (t ++ lit " must be a dict or JSON string")
    end.
Proof.
  intros H.
  assert (Ht : t = lit "dimension" \/ t = lit "volume" \/ t = lit "weight").
  { apply elem_of_cons in H as [H|H]; [left; exact H|].
    apply elem_of_cons in H as [H|H]; [right; left; exact H|].
    apply list_elem_of_singleton in H. right; right; exact H. }
  destruct Ht as [->|[->| ->]]; rewrite transform_scalar by reflexivity;
    (destruct v as [|b|z|f|x|l|d]; try reflexivity);
    cbn [transform_value_fuel];
    match goal with
    | |- context [startswith ?a ?b] => change (startswith a b) with false
    end; cbv iota;
    repeat match goal with
           | |- context [decide (?a = ?b)] =>
               destruct (decide (a = b)) as [Hc|_]; [vm_compute in Hc; discriminate Hc|]
           end;
    match goal with
    | |- context [bool_decide ?P] => change (bool_decide P) with true
    end; cbv iota;
    (destruct (json_loads x) as [p|e] eqn:E; [reflexivity|]);
    cbn [mbind Result_bind]; unfold try_except; rewrite (json_loads_raises x e E); reflexivity.
Qed.

(** *** Decimals, Booleans and text *)

Lemma transform_decimal_ok (v : PyVal) (f : pyfloat) :
  py_float v = Ok f -> transform_value v (lit "number_decimal") = Ok (float_repr f).
Proof.
  intros H. rewrite transform_scalar by reflexivity.
  cbn [transform_value_fuel].
  change (startswith (lit "number_decimal") (lit "list.")) with false. cbv iota.
  repeat match goal with
         | |- context [decide (?a = ?b)] =>
             destruct (decide (a = b)) as [Hc|Hc];
               [try (vm_compute in Hc; discriminate Hc)|try (destruct (Hc eq_refl))]
         end.
  destruct v as [|b|z|x|s|l|d]; rewrite H; reflexivity.
Qed.

Lemma transform_text (v : PyVal) (t : pystr) :
  startswith t (lit "list.") = false ->
  t <> lit "json" -> t <> lit "number_integer" -> t <> lit "number_decimal" ->
  t <> lit "boolean" -> t ∉ [lit "dimension"; lit "volume"; lit "weight"] ->
  transform_value v t = Ok (py_str v).
Proof.
  intros E H1 H2 H3 H4 H5. rewrite transform_scalar by exact E.
  cbn [transform_value_fuel]. rewrite E.
  repeat match goal with
         | |- context [decide (?a = ?b)] =>
             destruct (decide (a = b)) as [Hc|_]; [contradiction|]
         end.
  rewrite bool_decide_eq_false_2 by exact H5. reflexivity.
Qed.
(** *** Lists *)

(** The array of the texts of the items is read back item by item. *)
Lemma map_result_reread (f : PyVal -> Result pystr) (items : list PyVal) :
  forall transformed_items,
    map_result f items = Ok transformed_items ->
    Forall (fun item =>
              exists si, f item = Ok si /\ reread_str si = si /\ f (PStr si) = Ok si) items ->
    map_result f (List.map reread (List.map PStr transformed_items)) = Ok transformed_items.
Proof.
  induction items as [|item items IH]; intros ss Hm HF.
  - cbn in Hm. injection Hm as <-. reflexivity.
  - cbn [map_result] in Hm. inversion HF as [|? ? (si & H1 & H2 & H3) HF']; subst.
    rewrite H1 in Hm. destruct (map_result f items) as [ss'|] eqn:Em; [|discriminate Hm].
    injection Hm as <-. cbn [List.map reread map_result].
    rewrite H2, H3, (IH ss' eq_refl HF'). reflexivity.
Qed.

Lemma list_items_array_text (transformed_items : list pystr) :
  list_items (PStr (array_text transformed_items))
  = Ok (List.map reread (List.map PStr transformed_items)).
Proof.
  unfold list_items, array_text. rewrite json_loads_dumps. reflexivity.
Qed.

(** *** Every type *)

Lemma reencodes_stable (fuel : nat) :
  forall (t : pystr) (v : PyVal) (s : pystr),
    transform_value v t = Ok s -> reencodes fuel t v s ->
    transform_value (PStr s) t = Ok s.
Proof.
  induction fuel as [|fuel IH]; intros t v s Ht Hs; [destruct Hs|].
  cbn [reencodes] in Hs.
  destruct (startswith t (lit "list.")) eqn:E.
  - destruct Hs as (items & Hitems & HF).
    rewrite (transform_list_type _ _ E), Hitems in Ht.
    destruct (map_result _ items) as [ss|e] eqn:Em; [|discriminate Ht].
    injection Ht as <-.
    rewrite (transform_list_type _ _ E), list_items_array_text.
    rewrite (map_result_reread _ items ss Em); [reflexivity|].
    eapply Forall_impl; [exact HF|].
    intros item (si & H1 & H2 & H3). exists si. split; [exact H1|]. split; [exact H2|].
    exact (IH _ _ _ H1 H3).
  - destruct (decide (t = lit "json")) as [->|Hjson].
    { assert (Hother : (forall x, v <> PStr x) -> plain v = true ->
                       transform_value (PStr s) (lit "json") = Ok s).
      { intros Hv Hp. rewrite (transform_json_other v Hv) in Ht. injection Ht as <-.
        apply (transform_json_text v Hp). }
      destruct v as [|b|z|f|x|l|d]; try (apply Hother; [discriminate|exact Hs]).
      rewrite transform_json_str in Ht. cbn [json_plain] in Hs.
      destruct (json_loads x) as [p|e]; [|discriminate Ht].
      injection Ht as <-. apply (transform_json_text p Hs). }
    destruct (decide (t = lit "number_integer")) as [->|Hint].
    { destruct Hs as (n & -> & Hn). apply transform_integer_text. exact Hn. }
    destruct (decide (t = lit "number_decimal")) as [->|Hdec].
    { destruct Hs as (f & Hf & Hback).
      rewrite (transform_decimal_ok v f Hf) in Ht. injection Ht as <-.
      apply transform_decimal_ok. exact Hback. }
    destruct (decide (t = lit "boolean")) as [->|Hbool].
    { destruct Hs as [-> | ->]; reflexivity. }
    destruct (bool_decide (t ∈ [lit "dimension"; lit "volume"; lit "weight"])) eqn:Hdim.
    { apply bool_decide_eq_true in Hdim.
      assert (Hre : forall p, plain p = true -> transform_value (PStr (json_dumps p)) t
                                                = Ok (json_dumps p)).
      { intros p Hp. rewrite (transform_dimension t _ Hdim), json_loads_dumps.
        rewrite (json_dumps_reread p Hp). reflexivity. }
      rewrite (transform_dimension t v Hdim) in Ht.
      destruct v as [|b|z|f|x|l|d]; try discriminate Ht.
      - cbn [json_plain] in Hs. destruct (json_loads x) as [p|e]; [|discriminate Ht].
        injection Ht as <-. apply (Hre p Hs).
      - injection Ht as <-. apply (Hre (PDict d) Hs). }
    apply bool_decide_eq_false in Hdim.
    apply transform_text; assumption.
Qed.

(** C4 (the claim fails as stated): the integer [2^53 + 1] is written as
    it is, and its text is then converted through [float], which has no such
    number: the second transformation gives the text of [2^53]. *)
Lemma reencoding_counterexample :
  transform_value (PInt 9007199254740993) (lit "number_integer")
  = Ok (lit "9007199254740993")
  /\ transform_value (PStr (lit "9007199254740993")) (lit "number_integer")
     = Ok (lit "9007199254740992").
Proof. split; vm_compute; reflexivity. Qed.

(** C4 (amended): when [transform_value] gives the text [s] for the value
    [v] and the type [t], it gives [s] again for the string [s] and the type
    [t], provided that: under [number_integer] the integer written is at most
    [2^53] in absolute value; under [number_decimal] the float is read back
    from its [repr]; under [boolean] the text is [true] or [false]; under
    [json], [dimension], [volume] and [weight] the value written (the
    input, or what is parsed from an input string) is plain: its floats are
    read back from their JSON text and the keys of each dictionary stay
    distinct; under a list type every item satisfies the condition of the
    base type and its text is read back from JSON as it is; under every
    other type without a condition. *)
Theorem reencoding_is_stable (fuel : nat) (t : pystr) (v : PyVal) (s : pystr) :
  transform_value v t = Ok s ->
  reencodes fuel t v s ->
  transform_value (PStr s) t = Ok s.
Proof. apply reencodes_stable. Qed.

(** C4 on a list of two integers under [list.number_integer]. *)
Lemma reencoding_witness :
  transform_value (PList [PInt 7; PBool true]) (lit "list.number_integer")
  = Ok (array_text [lit "7"; lit "1"])
  /\ reencodes 2 (lit "list.number_integer") (PList [PInt 7; PBool true])
       (array_text [lit "7"; lit "1"])
  /\ transform_value (PStr (array_text [lit "7"; lit "1"])) (lit "list.number_integer")
     = Ok (array_text [lit "7"; lit "1"]).
Proof.
  assert (H1 : transform_value (PList [PInt 7; PBool true]) (lit "list.number_integer")
               = Ok (array_text [lit "7"; lit "1"])) by (vm_compute; reflexivity).
  assert (H2 : reencodes 2 (lit "list.number_integer") (PList [PInt 7; PBool true])
                 (array_text [lit "7"; lit "1"])).
  { exists [PInt 7; PBool true]. split; [reflexivity|].
    constructor; [|constructor; [|constructor]].
    - exists (lit "7"). split; [vm_compute; reflexivity|]. split; [reflexivity|].
      exists 7. split; [reflexivity|]. vm_compute. discriminate.
    - exists (lit "1"). split; [vm_compute; reflexivity|]. split; [reflexivity|].
      exists 1. split; [reflexivity|]. vm_compute. discriminate. }
  split; [exact H1|]. split; [exact H2|].
  exact (reencoding_is_stable 2 _ _ _ H1 H2).
Defined.
(** * Part IV: further properties of the repository *)

(** ** [transform_value]: the failures *)

Lemma int_of_float_raises (f : pyfloat) (e : exn) :
  int_of_float f = Raise e -> cls e = ValueError \/ cls e = OverflowError.
Proof.
  destruct f; cbn; intros H; try discriminate H; injection H as <-; cbn; tauto.
Qed.

Lemma py_int_raises (v : PyVal) (e : exn) :
  (forall s, v <> PStr s) -> py_int v = Raise e -> transformer_error (cls e).
Proof.
  intros Hv H. unfold transformer_error. destruct v as [|b|z|f|s|l|d]; cbn in H;
    try discriminate H; try (injection H as <-; cbn; tauto).
  - apply int_of_float_raises in H. tauto.
  - destruct (Hv s eq_refl).
Qed.

Lemma py_float_raises (v : PyVal) (e : exn) :
  py_float v = Raise e -> transformer_error (cls e).
Proof.
  unfold transformer_error. destruct v as [|b|z|f|s|l|d]; cbn [py_float]; intros H;
    try discriminate H; try (injection H as <-; cbn; tauto).
  - unfold float_of_int in H. destruct (round_ratio _ _ _); try discriminate H.
    injection H as <-. cbn. tauto.
  - apply float_of_str_raises in H. tauto.
Qed.

Lemma py_iter_raises (v : PyVal) (e : exn) : py_iter v = Raise e -> e = not_iterable v.
Proof.
  destruct v; cbn; intros H; try discriminate H; injection H as <-; reflexivity.
Qed.

Lemma list_items_raises (v : PyVal) (e : exn) : list_items v = Raise e -> cls e = TypeError.
Proof.
  unfold list_items. destruct v as [|b|z|f|s|l|d]; try discriminate.
  unfold try_except. destruct (json_loads s) as [p|e0] eqn:E.
  - cbn [mbind Result_bind]. intros H. apply py_iter_raises in H. subst e. reflexivity.
  - rewrite (json_loads_raises s e0 E). discriminate.
Qed.

Lemma map_result_raises {A B} (f : A -> Result B) (xs : list A) (e : exn) :
  map_result f xs = Raise e -> exists x, In x xs /\ f x = Raise e.
Proof.
  induction xs as [|x xs IH]; [discriminate|].
  cbn [map_result]. destruct (f x) as [y|e'] eqn:E.
  - destruct (map_result f xs) as [ys|e'']; [discriminate|].
    intros H. injection H as ->. destruct (IH eq_refl) as (x' & Hin & Hx').
    exists x'. split; [right; exact Hin|exact Hx'].
  - intros H. injection H as ->. exists x. split; [left; reflexivity|exact E].
Qed.

(** The decimal branch. *)
Lemma transform_decimal (v : PyVal) :
  transform_value v (lit "number_decimal")
  = match v with
    | PStr s =>
        match float_of_str s with
        | Ok f => Ok (float_repr f)
        | Raise _ => Raise (invalid_decimal s)
        end
    | _ =>
        match py_float v with
        | Ok f => Ok (float_repr f)
        | Raise e => Raise e
        end
    end.
Proof.
  rewrite transform_scalar by reflexivity.
  cbn [transform_value_fuel].
  change (startswith (lit "number_decimal") (lit "list.")) with false. cbv iota.
  repeat match goal with
         | |- context [decide (?a = ?b)] =>
             destruct (decide (a = b)) as [Hc|Hc];
               [try (vm_compute in Hc; discriminate Hc)|try (destruct (Hc eq_refl))]
         end.
  destruct v as [|b|z|x|s|l|d]; try reflexivity.
  cbn [py_float]. destruct (float_of_str s) as [f|e] eqn:E; [reflexivity|].
  apply float_of_str_raises in E. cbn [mbind Result_bind]. unfold try_except, isinstance.
  cbn [existsb]. rewrite E. reflexivity.
Qed.

Lemma transformer_errors_scalar (v : PyVal) (t : pystr) (e : exn) :
  startswith t (lit "list.") = false ->
  transform_value v t = Raise e -> transformer_error (cls e).
Proof.
  intros E H. unfold transformer_error.
  destruct (decide (t = lit "json")) as [->|Hjson].
  { destruct v as [|b|z|f|x|l|d];
      try (rewrite transform_json_other in H by discriminate; discriminate H).
    rewrite transform_json_str in H. destruct (json_loads x); [discriminate H|].
    injection H as <-. left. reflexivity. }
  destruct (decide (t = lit "number_integer")) as [->|Hint].
  { destruct v as [|b|z|f|x|l|d];
      try (rewrite transform_integer_other in H by discriminate;
           unfold integer_text in H;
           match type of H with
           | context [py_int ?v] =>
               destruct (py_int v) as [n|e'] eqn:En; [discriminate H|];
               injection H as <-; apply (py_int_raises v); [discriminate|exact En]
           end).
    rewrite transform_integer_str in H.
    destruct (float_of_str x) as [f|e'] eqn:Ef.
    - cbn [mbind Result_bind] in H. unfold integer_text in H.
      destruct (int_of_float f) as [n|e''] eqn:En; [discriminate H|].
      cbn [mbind Result_bind] in H. unfold try_except in H.
      destruct (isinstance e'' [ValueError; TypeError]).
      + injection H as <-. left. reflexivity.
      + injection H as <-. apply int_of_float_raises in En. tauto.
    - cbn [mbind Result_bind] in H. unfold try_except in H.
      destruct (isinstance e' [ValueError; TypeError]).
      + injection H as <-. left. reflexivity.
      + injection H as <-. apply float_of_str_raises in Ef. tauto. }
  destruct (decide (t = lit "number_decimal")) as [->|Hdec].
  { rewrite transform_decimal in H. destruct v as [|b|z|f|x|l|d];
      try (match type of H with
           | context [py_float ?v] =>
               destruct (py_float v) as [n|e'] eqn:En; [discriminate H|];
               injection H as <-; apply (py_float_raises _ _ En)
           end).
    destruct (float_of_str x); [discriminate H|]. injection H as <-. left. reflexivity. }
  destruct (decide (t = lit "boolean")) as [->|Hbool].
  { rewrite transform_scalar in H by reflexivity. exfalso.
    destruct v as [|b|z|f|x|l|d]; cbn in H; try discriminate H.
    destruct (bool_decide _) in H; discriminate H. }
  destruct (bool_decide (t ∈ [lit "dimension"; lit "volume"; lit "weight"])) eqn:Hdim.
  { apply bool_decide_eq_true in Hdim. rewrite (transform_dimension t v Hdim) in H.
    destruct v as [|b|z|f|x|l|d]; try discriminate H;
      try (injection H as <-; left; reflexivity).
    destruct (json_loads x); [discriminate H|]. injection H as <-. left. reflexivity. }
  apply bool_decide_eq_false in Hdim.
  rewrite transform_text in H by assumption. discriminate H.
Qed.

Lemma transformer_errors_length (n : nat) :
  forall (t : pystr) (v : PyVal) (e : exn),
    (List.length t < n)%nat ->
    transform_value v t = Raise e -> transformer_error (cls e).
Proof.
  induction n as [|n IH]; intros t v e Hlen H; [lia|].
  destruct (startswith t (lit "list.")) eqn:E.
  - rewrite (transform_list_type v t E) in H.
    destruct (list_items v) as [items|e'] eqn:Ei.
    + destruct (map_result _ items) as [ss|e''] eqn:Em; [discriminate H|].
      injection H as <-. apply map_result_raises in Em as (x & _ & Hx).
      apply (IH (base_type t) x e''); [|exact Hx].
      pose proof (base_type_shorter t E). lia.
    + injection H as <-. apply list_items_raises in Ei. right. left. exact Ei.
  - apply (transformer_errors_scalar v t e E H).
Qed.

(** Whatever the value and the type name, [transform_value] fails with a
    [ValueError], a [TypeError] or an [OverflowError] only: the recursion on
    list types always ends, and a failure of [json.loads] never leaves it. *)
Theorem transform_value_failure_classes (v : PyVal) (t : pystr) (e : exn) :
  transform_value v t = Raise e ->
  cls e = ValueError \/ cls e = TypeError \/ cls e = OverflowError.
Proof. apply (transformer_errors_length (S (List.length t))). lia. Qed.

(** The three classes occur: a word under [number_integer], [None] under
    [number_integer], and an overflowing numeral under [number_integer]. *)
Lemma transform_value_failure_classes_witness :
  (transform_value (PStr (lit "abc")) (lit "number_integer")
   = Raise (invalid_integer (lit "abc"))
   /\ (cls (invalid_integer (lit "abc")) = ValueError
       \/ cls (invalid_integer (lit "abc")) = TypeError
       \/ cls (invalid_integer (lit "abc")) = OverflowError)).
Proof.
  assert (H : transform_value (PStr (lit "abc")) (lit "number_integer")
              = Raise (invalid_integer (lit "abc"))) by (vm_compute; reflexivity).
  split; [exact H|]. exact (transform_value_failure_classes _ _ _ H).
Defined.

(** ** [transform_value]: text types, Booleans and decimals *)

(** A type name that is not a list type and is none of the special names
    is not checked at all: the value is written by [str], so the call never
    fails, a string is kept as it is, and [None] and the Booleans are written
    in the spelling of Python. *)
Theorem unlisted_types_are_stringified (v : PyVal) (t : pystr) :
  startswith t (lit "list.") = false ->
  ~ special_type t ->
  transform_value v t = Ok (py_str v)
  /\ (forall s, transform_value (PStr s) t = Ok s)
  /\ transform_value PNone t = Ok (lit "None")
  /\ (forall b, transform_value (PBool b) t = Ok (if b then lit "True" else lit "False")).
Proof.
  intros E Hs. unfold special_type in Hs.
  assert (H : forall x, transform_value x t = Ok (py_str x)).
  { intros x. apply transform_text; [exact E|tauto..]. }
  split; [apply H|]. split; [intros s; apply H|]. split; [apply H|].
  intros b. rewrite H. destruct b; reflexivity.
Qed.

(** The text type of the repository's own test, and the integer [123]. *)
Lemma unlisted_types_witness :
  startswith (lit "single_line_text_field") (lit "list.") = false
  /\ ~ special_type (lit "single_line_text_field")
  /\ transform_value (PInt 123) (lit "single_line_text_field") = Ok (lit "123").
Proof.
  assert (Hs : ~ special_type (lit "single_line_text_field")).
  { unfold special_type. intros [H|[H|[H|[H|H]]]]; try (vm_compute in H; discriminate H).
    apply elem_of_cons in H as [H|H]; [vm_compute in H; discriminate H|].
    apply elem_of_cons in H as [H|H]; [vm_compute in H; discriminate H|].
    apply list_elem_of_singleton in H. vm_compute in H. discriminate H. }
  split; [reflexivity|]. split; [exact Hs|].
  exact (proj1 (unlisted_types_are_stringified (PInt 123) (lit "single_line_text_field")
                  eq_refl Hs)).
Defined.

(** Under [boolean] no value fails.  A value that is not a string gives
    [true] or [false] by its truth value; a string gives the lower-case word
    when it is [true] or [false] in any mix of cases, and otherwise the
    capitalised [True] (not empty) or [False] (empty). *)
Theorem boolean_never_fails (v : PyVal) :
  exists s,
    transform_value v (lit "boolean") = Ok s
    /\ match v with
       | PStr x =>
           (str_lower x = lit "true" -> s = lit "true")
           /\ (str_lower x = lit "false" -> s = lit "false")
           /\ (str_lower x <> lit "true" -> str_lower x <> lit "false" ->
               s = if truthy v then lit "True" else lit "False")
       | _ => s = if truthy v then lit "true" else lit "false"
       end.
Proof.
  destruct v as [|b|z|f|x|l|d].
  - eexists. split; reflexivity.
  - eexists. split; [apply transform_boolean_bool|]. destruct b; reflexivity.
  - eexists. split; [reflexivity|]. cbn [truthy]. destruct (z =? 0); reflexivity.
  - eexists. split; [reflexivity|]. destruct f; reflexivity.
  - destruct (decide (str_lower x ∈ [lit "true"; lit "false"])) as [Hw|Hw].
    + exists (str_lower x). split; [apply transform_boolean_word; exact Hw|].
      split; [tauto|]. split; [tauto|]. intros H1 H2. exfalso.
      apply elem_of_cons in Hw as [Hw|Hw]; [exact (H1 Hw)|].
      apply list_elem_of_singleton in Hw. exact (H2 Hw).
    + eexists. split; [apply transform_boolean_other; exact Hw|].
      split; [intros H; exfalso; apply Hw; rewrite H; left|].
      split; [intros H; exfalso; apply Hw; rewrite H; right; left|].
      intros _ _. destruct x; reflexivity.
  - eexists. split; [reflexivity|]. destruct l; reflexivity.
  - eexists. split; [reflexivity|]. destruct d; reflexivity.
Qed.

(** The word [TRUE] and the word [no]. *)
Lemma boolean_never_fails_witness :
  (str_lower (lit "TRUE") = lit "true"
   /\ transform_value (PStr (lit "TRUE")) (lit "boolean") = Ok (lit "true"))
  /\ (str_lower (lit "no") <> lit "true" /\ str_lower (lit "no") <> lit "false"
      /\ transform_value (PStr (lit "no")) (lit "boolean") = Ok (lit "True")).
Proof.
  split.
  - split; [reflexivity|].
    destruct (boolean_never_fails (PStr (lit "TRUE"))) as (s & Hs & H1 & _).
    rewrite Hs. f_equal. apply H1. reflexivity.
  - assert (N1 : str_lower (lit "no") <> lit "true") by (vm_compute; discriminate).
    assert (N2 : str_lower (lit "no") <> lit "false") by (vm_compute; discriminate).
    split; [exact N1|]. split; [exact N2|].
    destruct (boolean_never_fails (PStr (lit "no"))) as (s & Hs & _ & _ & H3).
    rewrite Hs. f_equal. apply (H3 N1 N2).
Defined.

(** A numeral that [float] reads as an infinity, such as [inf] or a
    numeral beyond the range of the floats, is refused under [number_integer]
    with the [OverflowError] of [int], which is not the transformer's own
    failure, and is accepted under [number_decimal], which writes [inf] or
    [-inf]. *)
Theorem infinite_numerals (s : pystr) (neg : bool) :
  float_of_str s = Ok (FInf neg) ->
  transform_value (PStr s) (lit "number_integer")
  = Raise (mk_exn OverflowError (lit "cannot convert float infinity to integer"))
  /\ transform_value (PStr s) (lit "number_decimal")
     = Ok (if neg then lit "-inf" else lit "inf").
Proof.
  intros H. split.
  - rewrite transform_integer_str, H. reflexivity.
  - rewrite transform_decimal, H. destruct neg; reflexivity.
Qed.

(** The numeral [-1e999]. *)
Lemma infinite_numerals_witness :
  float_of_str (lit "-1e999") = Ok (FInf true)
  /\ transform_value (PStr (lit "-1e999")) (lit "number_integer")
     = Raise (mk_exn OverflowError (lit "cannot convert float infinity to integer"))
  /\ transform_value (PStr (lit "-1e999")) (lit "number_decimal") = Ok (lit "-inf").
Proof.
  assert (H : float_of_str (lit "-1e999") = Ok (FInf true)) by (vm_compute; reflexivity).
  split; [exact H|]. exact (infinite_numerals _ _ H).
Defined.

(** The text of a float is accepted by [float]. *)
Lemma float_of_str_float_repr (f : pyfloat) : exists f', float_of_str (float_repr f) = Ok f'.
Proof.
  destruct f as [|neg|neg|neg m e].
  - eexists. vm_compute. reflexivity.
  - destruct neg; eexists; vm_compute; reflexivity.
  - destruct neg; eexists; vm_compute; reflexivity.
  - destruct (float_repr_numeral (FNum neg m e) I) as (n & ip & fp & ex & -> & Hok & _).
    rewrite (float_of_str_numeral _ _ _ _ Hok). eexists. reflexivity.
Qed.

Lemma py_float_not_value_error (v : PyVal) (e : exn) :
  (forall s, v <> PStr s) -> py_float v = Raise e -> cls e <> ValueError.
Proof.
  intros Hv. destruct v as [|b|z|f|s|l|d]; cbn [py_float]; intros H;
    try discriminate H; try (injection H as <-; discriminate).
  - unfold float_of_int in H. destruct (round_ratio _ _ _); try discriminate H.
    injection H as <-. discriminate.
  - destruct (Hv s eq_refl).
Qed.

(** Under [number_decimal] a string is read by [float] and written by
    [str]; a string that [float] refuses gives the transformer's own failure.
    Every other value is handed to [float] unguarded, whose failure is passed
    on.  Every text written is accepted by [float] again, and the
    transformer's own failure arises from strings only. *)
Theorem number_decimal_outcomes :
  (forall s : pystr,
     transform_value (PStr s) (lit "number_decimal")
     = match float_of_str s with
       | Ok f => Ok (float_repr f)
       | Raise _ => Raise (invalid_decimal s)
       end)
  /\ (forall v : PyVal,
        (forall s, v <> PStr s) ->
        transform_value v (lit "number_decimal")
        = match py_float v with
          | Ok f => Ok (float_repr f)
          | Raise e => Raise e
          end)
  /\ (forall (v : PyVal) (s : pystr),
        transform_value v (lit "number_decimal") = Ok s -> exists f, float_of_str s = Ok f)
  /\ (forall (v : PyVal) (s : pystr),
        transform_value v (lit "number_decimal") = Raise (invalid_decimal s) -> v = PStr s).
Proof.
  split; [intros s; apply (transform_decimal (PStr s))|].
  split.
  { intros v Hv. rewrite transform_decimal. destruct v; try reflexivity.
    destruct (Hv s eq_refl). }
  split.
  - intros v s H. rewrite transform_decimal in H.
    assert (G : forall r : Result pyfloat,
              match r with Ok f => Ok (float_repr f) | Raise e => Raise e end = Ok s ->
              exists f, float_of_str s = Ok f).
    { intros [f|e] Hr; [|discriminate Hr]. injection Hr as <-.
      apply float_of_str_float_repr. }
    destruct v as [|b|z|f|x|l|d];
      first [ match type of H with context [py_float ?v'] => apply (G (py_float v') H) end
            | destruct (float_of_str x) as [f|e]; [|discriminate H]; injection H as <-;
              apply float_of_str_float_repr ].
  - intros v s H. rewrite transform_decimal in H.
    assert (G : forall v', (forall x, v' <> PStr x) ->
              match py_float v' with Ok f => Ok (float_repr f) | Raise e => Raise e end
              = Raise (invalid_decimal s) -> False).
    { intros v' Hv' Hr. destruct (py_float v') as [f|e] eqn:E; [discriminate Hr|].
      injection Hr as ->. exact (py_float_not_value_error v' _ Hv' E eq_refl). }
    destruct v as [|b|z|f|x|l|d];
      try (exfalso;
           match type of H with
           | context [py_float ?v'] => apply (G v' ltac:(discriminate) H)
           end).
    destruct (float_of_str x) as [f|e]; [discriminate H|].
    unfold invalid_decimal in H. injection H as H.
    try apply app_inv_head in H. apply app_inv_tail in H. rewrite H. reflexivity.
Qed.

(** The string [42.5] and the string [abc]. *)
Lemma number_decimal_outcomes_witness :
  (transform_value (PStr (lit "42.50")) (lit "number_decimal") = Ok (lit "42.5")
   /\ exists f, float_of_str (lit "42.5") = Ok f)
  /\ (transform_value (PStr (lit "abc")) (lit "number_decimal")
      = Raise (invalid_decimal (lit "abc"))
      /\ PStr (lit "abc") = PStr (lit "abc")).
Proof.
  assert (H1 : transform_value (PStr (lit "42.50")) (lit "number_decimal")
               = Ok (lit "42.5")) by (vm_compute; reflexivity).
  assert (H2 : transform_value (PStr (lit "abc")) (lit "number_decimal")
               = Raise (invalid_decimal (lit "abc"))) by (vm_compute; reflexivity).
  split.
  - split; [exact H1|].
    exact (proj1 (proj2 (proj2 number_decimal_outcomes)) _ _ H1).
  - split; [exact H2|].
    exact (proj2 (proj2 (proj2 number_decimal_outcomes)) _ _ H2).
Defined.

(** ** [number_integer]: numerals that denote an integer *)

Lemma round_half_even_scale (x y c : Z) :
  0 < y -> 0 < c -> round_half_even (x * c) (y * c) = round_half_even x y.
Proof.
  intros Hy Hc. unfold round_half_even.
  rewrite Z.div_mul_cancel_r by lia. rewrite Z.mul_mod_distr_r by lia.
  assert (Hcmp : (2 * (x mod y * c) ?= y * c) = (2 * (x mod y) ?= y)).
  { destruct (Z.compare_spec (2 * (x mod y)) y) as [H|H|H].
    - apply Z.compare_eq_iff. nia.
    - apply Z.compare_lt_iff. nia.
    - apply Z.compare_gt_iff. nia. }
  rewrite Hcmp. reflexivity.
Qed.

Lemma scale_num_mul (a c e : Z) : scale_num (a * c) e = scale_num a e * c.
Proof. unfold scale_num. destruct (e <? 0); lia. Qed.

Lemma scale_den_mul (c e : Z) : scale_den c e = scale_den 1 e * c.
Proof. unfold scale_den. destruct (e <? 0); lia. Qed.

Lemma scale_den_pos (e : Z) : 0 < scale_den 1 e.
Proof.
  unfold scale_den. destruct (Z.ltb_spec e 0); [lia|].
  assert (0 < 2 ^ e) by (apply Z.pow_pos_nonneg; lia). lia.
Qed.

(** The significand at the exponent of the binary logarithm has 53 bits,
    and one exponent higher it has fewer. *)
Lemma significand_bounds (a : Z) :
  0 < a ->
  2 ^ 52 <= scale_num a (Z.log2 a - 52) / scale_den 1 (Z.log2 a - 52)
  /\ scale_num a (Z.log2 a - 51) / scale_den 1 (Z.log2 a - 51) < 2 ^ 52.
Proof.
  intros Ha. pose proof (Z.log2_spec a Ha) as [Hlo Hhi].
  pose proof (Z.log2_nonneg a) as HL. remember (Z.log2 a) as L eqn:EL. clear EL.
  replace (Z.succ L) with (L + 1) in Hhi by lia.
  unfold scale_num, scale_den. split.
  - destruct (Z.ltb_spec (L - 52) 0) as [E|E].
    + rewrite Z.div_1_r. replace (- (L - 52)) with (52 - L) by lia.
      assert (Hp : 2 ^ L * 2 ^ (52 - L) = 2 ^ 52).
      { rewrite <- Z.pow_add_r by lia. f_equal. lia. }
      assert (0 < 2 ^ (52 - L)) by (apply Z.pow_pos_nonneg; lia). nia.
    + assert (Hp : 2 ^ (L - 52) * 2 ^ 52 = 2 ^ L).
      { rewrite <- Z.pow_add_r by lia. f_equal. lia. }
      assert (0 < 2 ^ (L - 52)) by (apply Z.pow_pos_nonneg; lia).
      apply Z.div_le_lower_bound; lia.
  - destruct (Z.ltb_spec (L - 51) 0) as [E|E].
    + rewrite Z.div_1_r. replace (- (L - 51)) with (51 - L) by lia.
      assert (Hp : 2 ^ (L + 1) * 2 ^ (51 - L) = 2 ^ 52).
      { rewrite <- Z.pow_add_r by lia. f_equal. lia. }
      assert (0 < 2 ^ (51 - L)) by (apply Z.pow_pos_nonneg; lia). nia.
    + assert (Hp : 2 ^ (L - 51) * 2 ^ 52 = 2 ^ (L + 1)).
      { rewrite <- Z.pow_add_r by lia. f_equal. lia. }
      assert (0 < 2 ^ (L - 51)) by (apply Z.pow_pos_nonneg; lia).
      apply Z.div_lt_upper_bound; lia.
Qed.

Lemma binary_exponent_integer (a : Z) :
  0 < a -> binary_exponent a 1 = Z.max (Z.log2 a - 52) (-1074).
Proof.
  intros Ha. unfold binary_exponent. change (Z.log2 1) with 0.
  replace (Z.log2 a - 0 - 52) with (Z.log2 a - 52) by lia. cbv zeta.
  destruct (significand_bounds a Ha) as [Hlo _].
  destruct (Z.ltb_spec (scale_num a (Z.log2 a - 52) / scale_den 1 (Z.log2 a - 52)) (2 ^ 52));
    [lia|reflexivity].
Qed.

Lemma binary_exponent_scale (a c : Z) :
  0 < a -> 0 < c -> binary_exponent (a * c) c = binary_exponent a 1.
Proof.
  intros Ha Hc. rewrite (binary_exponent_integer a Ha). unfold binary_exponent. cbv zeta.
  pose proof (Z.log2_mul_below a c Ha Hc) as Hb.
  pose proof (Z.log2_mul_above a c ltac:(lia) ltac:(lia)) as Hu.
  destruct (significand_bounds a Ha) as [Hlo Hhi].
  assert (Hq : forall e,
             scale_num (a * c) e / scale_den c e = scale_num a e / scale_den 1 e).
  { intros e. rewrite scale_num_mul, (scale_den_mul c e).
    apply Z.div_mul_cancel_r; [pose proof (scale_den_pos e); lia|lia]. }
  rewrite Hq.
  destruct (Z.eq_dec (Z.log2 (a * c)) (Z.log2 a + Z.log2 c)) as [E|E].
  - replace (Z.log2 (a * c) - Z.log2 c - 52) with (Z.log2 a - 52) by lia.
    destruct (Z.ltb_spec (scale_num a (Z.log2 a - 52) / scale_den 1 (Z.log2 a - 52)) (2 ^ 52));
      [lia|reflexivity].
  - replace (Z.log2 (a * c) - Z.log2 c - 52) with (Z.log2 a - 51) by lia.
    destruct (Z.ltb_spec (scale_num a (Z.log2 a - 51) / scale_den 1 (Z.log2 a - 51)) (2 ^ 52));
      [|lia].
    f_equal. lia.
Qed.

(** Rounding a fraction does not depend on a common factor. *)
Lemma round_ratio_scale (neg : bool) (a c : Z) :
  0 < c -> round_ratio neg (a * c) c = round_ratio neg a 1.
Proof.
  intros Hc. unfold round_ratio.
  destruct (Z.leb_spec a 0) as [Ha|Ha]; destruct (Z.leb_spec (a * c) 0) as [Hac|Hac];
    try reflexivity; try nia.
  rewrite (binary_exponent_scale a c Ha Hc). cbv zeta.
  rewrite scale_num_mul, (scale_den_mul c (binary_exponent a 1)).
  rewrite round_half_even_scale by (try apply scale_den_pos; lia).
  reflexivity.
Qed.

(** A numeral whose decimal value is an integer up to [2^53], with or
    without a fraction of zeros or an exponent ([123.0], [1e3], [12.50e1]),
    is read by [float] without rounding, and the call gives the text of the
    integer. *)
Theorem integral_numerals_give_the_integer
    (neg : bool) (ip fp : list N) (ex : option (bool * list N)) (n : Z) :
  numeral_ok ip fp ex ->
  denotes_integer (Z.of_N (number_of_digits 0 (ip ++ fp)))
    (exponent_value ex - Z.of_nat (List.length fp)) n ->
  n <= 2 ^ 53 ->
  transform_value (PStr (numeral_text neg ip fp ex)) (lit "number_integer")
  = Ok (str_of_Z (if neg then - n else n)).
Proof.
  intros Hok Hd Hn.
  rewrite transform_integer_str, (float_of_str_numeral _ _ _ _ Hok).
  cbn [mbind Result_bind]. unfold round_decimal, denotes_integer in *.
  remember (Z.of_N (number_of_digits 0 (ip ++ fp))) as mant eqn:Em.
  remember (exponent_value ex - Z.of_nat (List.length fp)) as e10 eqn:Ee.
  assert (Hm : 0 <= mant) by (subst mant; lia).
  assert (Hr : (if e10 <? 0 then round_ratio neg mant (10 ^ (- e10))
                else round_ratio neg (mant * 10 ^ e10) 1) = round_ratio neg n 1
               /\ 0 <= n).
  { destruct (Z.ltb_spec e10 0) as [E|E].
    - assert (0 < 10 ^ (- e10)) by (apply Z.pow_pos_nonneg; lia).
      split; [|nia]. rewrite Hd. apply round_ratio_scale. assumption.
    - assert (0 < 10 ^ e10) by (apply Z.pow_pos_nonneg; lia).
      split; [|nia]. rewrite Hd. reflexivity. }
  destruct Hr as [-> Hn0].
  rewrite int_of_round_ratio by lia. reflexivity.
Qed.

(** The numeral [123.0] of the source's comment, and [-12.50e1]. *)
Lemma integral_numerals_witness :
  (numeral_text false [1; 2; 3]%N [0%N] None = lit "123.0"
   /\ transform_value (PStr (lit "123.0")) (lit "number_integer") = Ok (lit "123"))
  /\ (numeral_text true [1; 2]%N [5; 0]%N (Some (false, [1%N])) = lit "-12.50e+1"
      /\ transform_value (PStr (lit "-12.50e+1")) (lit "number_integer") = Ok (lit "-125")).
Proof.
  split.
  - split; [reflexivity|].
    apply (integral_numerals_give_the_integer false [1; 2; 3]%N [0%N] None 123).
    + split; [|split; [|split]].
      * repeat (constructor; [lia|]). constructor.
      * repeat (constructor; [lia|]). constructor.
      * right. exists 1%N, [2; 3]%N. split; [reflexivity|lia].
      * exact I.
    + vm_compute. reflexivity.
    + vm_compute. discriminate.
  - split; [reflexivity|].
    apply (integral_numerals_give_the_integer true [1; 2]%N [5; 0]%N (Some (false, [1%N])) 125).
    + split; [|split; [|split]].
      * repeat (constructor; [lia|]). constructor.
      * repeat (constructor; [lia|]). constructor.
      * right. exists 1%N, [2%N]. split; [reflexivity|lia].
      * split; [repeat (constructor; [lia|]); constructor|discriminate].
    + vm_compute. reflexivity.
    + vm_compute. discriminate.
Defined.

(** ** The JSON-valued types *)

Lemma map_result_length {A B} (f : A -> Result B) (xs : list A) (ys : list B) :
  map_result f xs = Ok ys -> List.length ys = List.length xs.
Proof.
  revert ys. induction xs as [|x xs IH]; intros ys H.
  - injection H as <-. reflexivity.
  - cbn [map_result] in H. destruct (f x); [|discriminate H].
    destruct (map_result f xs) as [zs|]; [|discriminate H].
    injection H as <-. cbn [List.length]. rewrite (IH zs eq_refl). reflexivity.
Qed.

Lemma list_items_json_text (p : PyVal) : list_items (PStr (json_dumps p)) = py_iter (reread p).
Proof. unfold list_items. rewrite json_loads_dumps. reflexivity. Qed.

(** The types [dimension], [volume] and [weight] write a dictionary as
    JSON and refuse every other value that is not a string; but the JSON text
    of any value at all, a list or a number as well, is accepted and written
    again: a string is not checked to denote a dictionary. *)
Theorem dimension_types_take_any_json_text (t : pystr) (p : PyVal) :
  t ∈ [lit "dimension"; lit "volume"; lit "weight"] ->
  transform_value (PStr (json_dumps p)) t = Ok (json_dumps (reread p))
  /\ ((forall d, p <> PDict d) -> (forall s, p <> PStr s) ->
      transform_value p t = Raise (not_a_dict t))
  /\ (forall d, transform_value (PDict d) t = Ok (json_dumps (PDict d))).
Proof.
  intros Ht. split; [|split].
  - rewrite (transform_dimension t _ Ht), json_loads_dumps. reflexivity.
  - intros Hd Hs. rewrite (transform_dimension t _ Ht).
    destruct p as [|b|z|f|s|l|d]; try reflexivity.
    + destruct (Hs s eq_refl).
    + destruct (Hd d eq_refl).
  - intros d. rewrite (transform_dimension t _ Ht). reflexivity.
Qed.

(** The list [[1]] under [weight]: refused as a value, accepted as text. *)
Lemma dimension_types_witness :
  lit "weight" ∈ [lit "dimension"; lit "volume"; lit "weight"]
  /\ transform_value (PStr (lit "[1]")) (lit "weight") = Ok (lit "[1]")
  /\ transform_value (PList [PInt 1]) (lit "weight") = Raise (not_a_dict (lit "weight")).
Proof.
  assert (Ht : lit "weight" ∈ [lit "dimension"; lit "volume"; lit "weight"]).
  { right. right. left. }
  destruct (dimension_types_take_any_json_text (lit "weight") (PList [PInt 1]) Ht)
    as (H1 & H2 & _).
  split; [exact Ht|]. split; [exact H1|]. apply H2; discriminate.
Defined.

(** Whatever the input of a list type, a result is the JSON array of the
    texts of the items, one string for each item, also for numbers: it is
    read by [json.loads] as a list of as many strings. *)
Theorem list_types_write_arrays_of_strings (t : pystr) (v : PyVal) (s : pystr) :
  startswith t (lit "list.") = true ->
  transform_value v t = Ok s ->
  exists items transformed_items,
    list_items v = Ok items
    /\ map_result (fun item => transform_value item (base_type t)) items = Ok transformed_items
    /\ List.length transformed_items = List.length items
    /\ s = array_text transformed_items
    /\ json_loads s
       = Ok (PList (List.map (fun si => PStr (reread_str si)) transformed_items)).
Proof.
  intros E H. rewrite (transform_list_type v t E) in H.
  destruct (list_items v) as [items|e]; [|discriminate H].
  destruct (map_result _ items) as [ss|e] eqn:Em; [|discriminate H].
  injection H as <-. exists items, ss.
  split; [reflexivity|]. split; [exact Em|].
  split; [apply (map_result_length _ _ _ Em)|]. split; [reflexivity|].
  unfold array_text. rewrite json_loads_dumps. cbn [reread]. rewrite List.map_map. reflexivity.
Qed.

(** The list of the integers 1, 2 and 3 of the repository's own test. *)
Lemma list_types_write_arrays_witness :
  startswith (lit "list.number_integer") (lit "list.") = true
  /\ transform_value (PList [PInt 1; PInt 2; PInt 3]) (lit "list.number_integer")
     = Ok (array_text [lit "1"; lit "2"; lit "3"])
  /\ exists items transformed_items,
       list_items (PList [PInt 1; PInt 2; PInt 3]) = Ok items
       /\ map_result (fun item => transform_value item (base_type (lit "list.number_integer")))
            items = Ok transformed_items
       /\ List.length transformed_items = List.length items
       /\ array_text [lit "1"; lit "2"; lit "3"] = array_text transformed_items
       /\ json_loads (array_text [lit "1"; lit "2"; lit "3"])
          = Ok (PList (List.map (fun si => PStr (reread_str si)) transformed_items)).
Proof.
  assert (H : transform_value (PList [PInt 1; PInt 2; PInt 3]) (lit "list.number_integer")
              = Ok (array_text [lit "1"; lit "2"; lit "3"])) by (vm_compute; reflexivity).
  split; [reflexivity|]. split; [exact H|].
  exact (list_types_write_arrays_of_strings (lit "list.number_integer") _ _ eq_refl H).
Defined.

(** Under a list type the JSON text of a list stands for the list that
    [json.loads] reads from it. *)
Theorem json_array_text_is_the_list (t : pystr) (l : list PyVal) :
  startswith t (lit "list.") = true ->
  transform_value (PStr (json_dumps (PList l))) t
  = transform_value (PList (List.map reread l)) t.
Proof.
  intros E. rewrite !(transform_list_type _ _ E), list_items_json_text. reflexivity.
Qed.

(** The text of the list of 1 and 2. *)
Lemma json_array_text_witness :
  startswith (lit "list.number_integer") (lit "list.") = true
  /\ transform_value (PStr (lit "[1, 2]")) (lit "list.number_integer")
     = transform_value (PList [PInt 1; PInt 2]) (lit "list.number_integer").
Proof.
  split; [reflexivity|].
  exact (json_array_text_is_the_list (lit "list.number_integer") [PInt 1; PInt 2] eq_refl).
Defined.

(** Under a list type the JSON text of [null], of a Boolean or of a
    number is parsed and then iterated, which fails with the [TypeError] of
    the host, although the value itself would be taken as a single item. *)
Theorem json_scalar_text_is_not_iterable (t : pystr) (p : PyVal) :
  startswith t (lit "list.") = true ->
  json_scalar p = true ->
  transform_value (PStr (json_dumps p)) t = Raise (not_iterable p)
  /\ list_items p = Ok [p].
Proof.
  intros E Hp. split.
  - rewrite (transform_list_type _ _ E), list_items_json_text.
    destruct p; try discriminate Hp; reflexivity.
  - destruct p; try discriminate Hp; reflexivity.
Qed.

(** The text [42] under [list.number_integer]. *)
Lemma json_scalar_text_witness :
  startswith (lit "list.number_integer") (lit "list.") = true
  /\ json_scalar (PInt 42) = true
  /\ transform_value (PStr (lit "42")) (lit "list.number_integer")
     = Raise (mk_exn TypeError (lit "'int' object is not iterable")).
Proof.
  split; [reflexivity|]. split; [reflexivity|].
  exact (proj1 (json_scalar_text_is_not_iterable (lit "list.number_integer") (PInt 42)
                  eq_refl eq_refl)).
Defined.

Lemma base_type_list_prefix (t : pystr) : base_type (lit "list." ++ t) = base_type t.
Proof.
  unfold base_type, str_replace.
  change (lit "list.") with [108; 105; 115; 116; 46]%N.
  cbn [app replace_from startswith N.eqb Pos.eqb andb List.length Nat.pred].
  destruct t; reflexivity.
Qed.

(** Every occurrence of [list.] is removed from the name of a list type:
    a second [list.] in front of a list type changes nothing, so that a list
    of lists is written as a flat list. *)
Theorem nested_list_prefix_is_ignored (t : pystr) (v : PyVal) :
  startswith t (lit "list.") = true ->
  base_type (lit "list." ++ t) = base_type t
  /\ transform_value v (lit "list." ++ t) = transform_value v t.
Proof.
  intros E. split; [apply base_type_list_prefix|].
  rewrite (transform_list_type v t E), (transform_list_type v (lit "list." ++ t)) by reflexivity.
  rewrite base_type_list_prefix. reflexivity.
Qed.

(** The type [list.list.number_integer]. *)
Lemma nested_list_prefix_witness :
  startswith (lit "list.number_integer") (lit "list.") = true
  /\ transform_value (PList [PInt 1]) (lit "list.list.number_integer")
     = transform_value (PList [PInt 1]) (lit "list.number_integer").
Proof.
  split; [reflexivity|].
  exact (proj2 (nested_list_prefix_is_ignored (lit "list.number_integer") (PList [PInt 1])
                  eq_refl)).
Defined.

(** ** The characters of JSON text *)

Lemma printable_check (s : pystr) :
  forallb (fun c => (32 <=? c) && (c <=? 126))%N s = true -> Forall printable_ascii s.
Proof.
  induction s as [|c s IH]; intros H; [constructor|].
  cbn [forallb] in H. apply andb_prop in H as [Hc Hs]. apply andb_prop in Hc as [H1 H2].
  apply N.leb_le in H1, H2. constructor; [split; assumption|apply IH; exact Hs].
Qed.

Lemma hex_fixed_printable (width : nat) : forall n, Forall printable_ascii (hex_fixed width n).
Proof.
  induction width as [|w IH]; intros n; [constructor|].
  cbn [hex_fixed]. apply Forall_app. split; [apply IH|].
  constructor; [|constructor].
  assert (H : (n mod 16 < 16)%N) by (apply N.mod_lt; lia).
  generalize dependent (n mod 16)%N. intros d Hd. unfold hex_char, printable_ascii.
  destruct (N.ltb_spec d 10); lia.
Qed.

Lemma json_escape_char_printable (c : N) : Forall printable_ascii (json_escape_char c).
Proof.
  unfold json_escape_char.
  repeat match goal with
         | |- context [if (c =? ?k)%N then _ else _] =>
             destruct (c =? k)%N; [apply printable_check; reflexivity|]
         end.
  destruct ((32 <=? c) && (c <=? 126))%N eqn:E.
  - apply printable_check. cbn [forallb]. rewrite E. reflexivity.
  - destruct (c <? 65536)%N; cbv zeta.
    + apply Forall_app. split; [apply printable_check; reflexivity|apply hex_fixed_printable].
    + apply Forall_app. split; [apply printable_check; reflexivity|].
      apply Forall_app. split; [apply hex_fixed_printable|].
      apply Forall_app. split; [apply printable_check; reflexivity|apply hex_fixed_printable].
Qed.

Lemma json_string_printable (s : pystr) : Forall printable_ascii (json_string s).
Proof.
  unfold json_string. apply Forall_app. split; [apply printable_check; reflexivity|].
  apply Forall_app. split; [|apply printable_check; reflexivity].
  induction s as [|c s IH]; [constructor|].
  cbn [List.map concat]. apply Forall_app. split; [apply json_escape_char_printable|exact IH].
Qed.

Lemma numeral_text_printable neg ip fp ex :
  numeral_ok ip fp ex -> Forall printable_ascii (numeral_text neg ip fp ex).
Proof.
  intros H. eapply Forall_impl; [apply numeral_chars; exact H|].
  intros c [Hc|[->|[->|[->| ->]]]]; unfold printable_ascii; try lia.
  unfold is_digit in Hc. apply andb_prop in Hc as [H1 H2]. apply N.leb_le in H1, H2. lia.
Qed.

Lemma json_float_printable (f : pyfloat) : Forall printable_ascii (json_float f).
Proof.
  destruct f as [|neg|neg|neg m e].
  - apply printable_check. reflexivity.
  - destruct neg; apply printable_check; reflexivity.
  - destruct neg; apply printable_check; reflexivity.
  - destruct (float_repr_numeral (FNum neg m e) I) as (n & ip & fp & ex & E & Hok & _).
    unfold json_float. rewrite E. apply numeral_text_printable. exact Hok.
Qed.

Lemma str_join_printable (sep : pystr) (parts : list pystr) :
  Forall printable_ascii sep -> Forall (Forall printable_ascii) parts ->
  Forall printable_ascii (str_join sep parts).
Proof.
  intros Hsep H. induction H as [|p parts Hp Hparts IH]; [constructor|].
  cbn [str_join]. destruct parts as [|q parts]; [exact Hp|].
  apply Forall_app. split; [exact Hp|]. apply Forall_app. split; [exact Hsep|exact IH].
Qed.

(** [json.dumps] writes printable ASCII only. *)
Lemma json_dumps_printable (v : PyVal) : Forall printable_ascii (json_dumps v).
Proof.
  induction v as [|b|z|f|s|l IH|d IH] using PyVal_induction.
  - apply printable_check. reflexivity.
  - destruct b; apply printable_check; reflexivity.
  - cbn [json_dumps]. destruct (str_of_Z_numeral z) as [-> Hok].
    apply numeral_text_printable. exact Hok.
  - apply json_float_printable.
  - apply json_string_printable.
  - cbn [json_dumps]. apply Forall_app. split; [apply printable_check; reflexivity|].
    apply Forall_app. split; [|apply printable_check; reflexivity].
    apply str_join_printable; [apply printable_check; reflexivity|].
    induction IH as [|x l Hx _ IHl]; [constructor|]. constructor; assumption.
  - cbn [json_dumps]. apply Forall_app. split; [apply printable_check; reflexivity|].
    apply Forall_app. split; [|apply printable_check; reflexivity].
    apply str_join_printable; [apply printable_check; reflexivity|].
    induction IH as [|kv d Hx _ IHd]; [constructor|]. constructor; [|exact IHd].
    apply Forall_app. split; [apply json_string_printable|].
    apply Forall_app. split; [apply printable_check; reflexivity|exact Hx].
Qed.

(** What the list types, [json], [dimension], [volume] and [weight] write
    consists of printable ASCII characters only, whatever the characters of
    the input: every other character is escaped. *)
Theorem json_valued_outputs_are_ascii (t : pystr) (v : PyVal) (s : pystr) :
  json_valued t ->
  transform_value v t = Ok s ->
  Forall printable_ascii s.
Proof.
  intros [E|[->|Hd]] H.
  - rewrite (transform_list_type v t E) in H.
    destruct (list_items v) as [items|e]; [|discriminate H].
    destruct (map_result _ items) as [ss|e]; [|discriminate H].
    injection H as <-. apply json_dumps_printable.
  - assert (Hother : (forall x, v <> PStr x) -> Forall printable_ascii s).
    { intros Hv. rewrite (transform_json_other v Hv) in H. injection H as <-.
      apply json_dumps_printable. }
    destruct v as [|b|z|f|x|l|d]; try (apply Hother; discriminate).
    rewrite transform_json_str in H. destruct (json_loads x) as [p|e]; [|discriminate H].
    injection H as <-. apply json_dumps_printable.
  - rewrite (transform_dimension t v Hd) in H.
    destruct v as [|b|z|f|x|l|d]; try discriminate H.
    + destruct (json_loads x) as [p|e]; [|discriminate H].
      injection H as <-. apply json_dumps_printable.
    + injection H as <-. apply (json_dumps_printable (PDict d)).
Qed.

(** A string with e acute and a line feed under [json]: the text is
    the array of the string with both characters escaped. *)
Lemma json_valued_outputs_witness :
  json_valued (lit "json")
  /\ transform_value (PList [PStr [233; 10]%N]) (lit "json")
     = Ok (lit "[" ++ [34%N] ++ lit "\u00e9\n" ++ [34%N] ++ lit "]")
  /\ Forall printable_ascii (lit "[" ++ [34%N] ++ lit "\u00e9\n" ++ [34%N] ++ lit "]").
Proof.
  assert (Ht : json_valued (lit "json")) by (right; left; reflexivity).
  assert (H : transform_value (PList [PStr [233; 10]%N]) (lit "json")
              = Ok (lit "[" ++ [34%N] ++ lit "\u00e9\n" ++ [34%N] ++ lit "]"))
    by (vm_compute; reflexivity).
  split; [exact Ht|]. split; [exact H|].
  exact (json_valued_outputs_are_ascii _ _ _ Ht H).
Defined.

(** ** The single write: its steps *)

(** The mutation step of the two writers. *)
Lemma mutation_step_run client (doc : document) (variables : PyVal)
    (context failure : pystr) (msg : exn -> pystr) (st : Store) :
  (forall e, msg e = context ++ message e) ->
  try_catch
    (do result <- graphql_request client doc variables;
     do update_result <- lift (py_get result (lit "productUpdate") (PDict []));
     do user_errors <- lift (py_get update_result (lit "userErrors") (PList []));
     if truthy user_errors then
       do messages <- lift (error_messages user_errors);
       throw Exception (failure ++ messages)
     else ret update_result)
    [Exception]
    (fun e => throw Exception (msg e)) st
  = (mutation_outcome context failure (transport client (calls st) (mk_call doc variables)),
     logged st [mk_call doc variables] []).
Proof.
  intros Hmsg.
  unfold try_catch, mutation_outcome, update_of_response.
  unfold bind at 1. rewrite graphql_request_run.
  destruct (transport client (calls st) (mk_call doc variables)) as [data|e];
    cbn [mbind Result_bind]; cbv beta iota;
    [|rewrite isinstance_Exception, Hmsg; reflexivity].
  rewrite bind_lift. destruct (py_get data _ _) as [upd|e];
    cbn [mbind Result_bind]; cbv beta iota;
    [|rewrite isinstance_Exception, Hmsg; reflexivity].
  rewrite bind_lift. destruct (py_get upd _ _) as [ue|e];
    cbn [mbind Result_bind]; cbv beta iota;
    [|rewrite isinstance_Exception, Hmsg; reflexivity].
  destruct (truthy ue); [|reflexivity].
  rewrite bind_lift. destruct (error_messages ue) as [msgs|e];
    cbn [mbind Result_bind]; cbv beta iota.
  - unfold throw, lift, raise. cbv beta iota.
    rewrite isinstance_Exception, Hmsg. reflexivity.
  - rewrite isinstance_Exception, Hmsg. reflexivity.
Qed.

(** A write with [force_type]: the type is checked, the value is
    transformed, and the mutation is sent. *)
Lemma write_forced_run client pid ns key value t st :
  write_product_metafield client pid ns key value t true st
  = if truthy t then
      match try_except (transform_value_dyn value t) [ValueError]
              (fun e => Raise (transformation_failed ns key t (message e))) with
      | Ok s =>
          (mutation_outcome (write_context pid ns key) (lit "Metafield write failed: ")
             (transport client (calls st) (update_call pid ns key t s)),
           logged st [update_call pid ns key t s] [])
      | Raise e => (Raise e, st)
      end
    else (Raise (type_undeterminable ns key), st).
Proof.
  unfold write_product_metafield. cbn [negb].
  unfold bind at 1. unfold ret at 1. unfold bind at 1.
  destruct (truthy t) eqn:Et; cbn [negb]; [|reflexivity].
  unfold ret at 1. rewrite bind_lift.
  change (fun e : exn => raise ValueError
            (lit "Value transformation failed for " ++ py_str ns ++ lit "." ++ py_str key
             ++ lit " (type: " ++ py_str t ++ lit "): " ++ message e))
    with (fun e : exn => @Raise pystr (transformation_failed ns key t (message e))).
  destruct (try_except _ _ _) as [s|e]; [|reflexivity].
  apply mutation_step_run.
  intros e. unfold write_context. rewrite <- !app_assoc. reflexivity.
Qed.

(** A write without [force_type] resolves the type and goes on as a
    forced write: with the resolved type when there is one, and with the
    explicit type otherwise. *)
Lemma write_unforced_run client pid ns key value mt st :
  write_product_metafield client pid ns key value mt false st
  = match type_resolution client pid ns key mt st with
    | (Ok t0, st1) =>
        write_product_metafield client pid ns key value (if truthy t0 then t0 else mt) true st1
    | (Raise e, st1) => (Raise e, st1)
    end.
Proof.
  unfold write_product_metafield at 1. cbn [negb]. unfold bind at 1.
  fold (type_resolution client pid ns key mt).
  destruct (type_resolution client pid ns key mt st) as [[t0|e] st1]; [|reflexivity].
  destruct (truthy t0) eqn:E0; [|destruct (truthy mt) eqn:Em];
    unfold write_product_metafield, bind, ret; cbv beta iota;
    rewrite ?E0, ?Em; cbn [negb]; cbv beta iota; rewrite ?E0, ?Em; reflexivity.
Qed.

(** ** The single write: what is sent, and when *)

Lemma cached_definition_outcome client ns key st :
  exists d st1,
    _get_cached_definition client ns key st = (Ok d, st1)
    /\ ((_definition_cache st !! cache_key_of ns key = Some d /\ st1 = st)
        \/ (_definition_cache st !! cache_key_of ns key = None
            /\ calls st1 = calls st ++ [definition_call ns key]
            /\ (truthy d = true -> _definition_cache st1 !! cache_key_of ns key = Some d))).
Proof.
  destruct (_definition_cache st !! cache_key_of ns key) as [d|] eqn:E.
  - exists d, st. split; [apply cached_definition_hit; exact E|]. left. split; reflexivity.
  - pose proof (cached_definition_miss client ns key st E) as Hrun. cbv zeta in Hrun.
    destruct (truthy (fst _)) eqn:Et in Hrun.
    + eexists _, _. split; [exact Hrun|]. right. split; [reflexivity|].
      split; [reflexivity|]. intros _. cbn [_definition_cache]. apply lookup_insert_eq.
    + eexists _, _. split; [exact Hrun|]. right. split; [reflexivity|].
      split; [reflexivity|]. intros H. discriminate H.
Qed.

Lemma transform_value_dyn_raises (value t : PyVal) (e : exn) :
  transform_value_dyn value t = Raise e -> cls e <> Exception.
Proof.
  destruct t as [|b|z|f|s|l|d]; cbn [transform_value_dyn]; intros H;
    try (injection H as <-; discriminate).
  destruct (transformer_errors_length (S (List.length s)) s value e ltac:(lia) H)
    as [-> |[-> | ->]]; discriminate.
Qed.

Lemma mutation_outcome_class (context failure : pystr) (r : Result PyVal) (e : exn) :
  mutation_outcome context failure r = Raise e -> cls e = Exception.
Proof.
  unfold mutation_outcome. destruct (r ≫= _); [discriminate|].
  intros H. injection H as <-. reflexivity.
Qed.

(** A forced write sends the mutation, and then succeeds or fails with
    an [Exception]; or it fails with another class and leaves the store as
    it was. *)
Lemma write_forced_trace client pid ns key value t st :
  match write_product_metafield client pid ns key value t true st with
  | (Ok _, st') => exists s, st' = logged st [update_call pid ns key t s] []
  | (Raise e, st') =>
      (cls e = Exception /\ exists s, st' = logged st [update_call pid ns key t s] [])
      \/ (cls e <> Exception /\ st' = st)
  end.
Proof.
  rewrite write_forced_run. destruct (truthy t).
  - destruct (transform_value_dyn value t) as [s|e] eqn:Ed; cbn [try_except].
    + destruct (mutation_outcome _ _ _) as [u|e] eqn:Em.
      * exists s. reflexivity.
      * left. split; [apply (mutation_outcome_class _ _ _ _ Em)|]. exists s. reflexivity.
    + destruct (isinstance e [ValueError]).
      * right. split; [discriminate|reflexivity].
      * right. split; [apply (transform_value_dyn_raises _ _ _ Ed)|reflexivity].
  - right. split; [discriminate|reflexivity].
Qed.

(** The lookups of the type resolution: at most the definition lookup
    (on a cache miss) and the existing-value lookup; the only failure is an
    existing value that is not a dictionary. *)
Lemma type_resolution_trace client pid ns key mt st :
  exists lookups,
    Forall is_lookup lookups
    /\ (List.length lookups <= 2)%nat
    /\ calls (snd (type_resolution client pid ns key mt st)) = calls st ++ lookups
    /\ match fst (type_resolution client pid ns key mt st) with
       | Ok _ => True
       | Raise e => cls e <> Exception
       end.
Proof.
  unfold type_resolution.
  destruct (cached_definition_outcome client ns key st) as (d & st1 & Hd & Hc).
  rewrite (bind_run _ _ _ _ _ Hd).
  assert (H1 : exists l1, Forall is_lookup l1 /\ (List.length l1 <= 1)%nat
                          /\ calls st1 = calls st ++ l1).
  { destruct Hc as [[_ ->]|(_ & Hcalls & _)].
    - exists []. split; [constructor|]. split; [cbn; lia|]. rewrite app_nil_r. reflexivity.
    - exists [definition_call ns key]. split; [|split; [cbn; lia|exact Hcalls]].
      constructor; [left; reflexivity|constructor]. }
  destruct H1 as (l1 & Hl1 & Hlen1 & Hcalls1).
  destruct (truthy d); cbn [negb].
  - exists l1. split; [exact Hl1|]. split; [lia|]. split; [exact Hcalls1|exact I].
  - pose proof (get_metafield_run client pid ns key st1) as Hget. cbv zeta in Hget.
    match type of Hget with
    | context [lookup_outcome ?w ?r] => destruct (lookup_outcome w r) as [m lines]
    end.
    cbn [fst snd] in Hget. rewrite (bind_run _ _ _ _ _ Hget).
    exists (l1 ++ [metafield_call pid ns key]).
    split; [apply Forall_app; split; [exact Hl1|constructor; [right; reflexivity|constructor]]|].
    split; [rewrite length_app; cbn [List.length]; lia|].
    assert (Hcalls2 : calls (logged st1 [metafield_call pid ns key] lines)
                      = calls st ++ l1 ++ [metafield_call pid ns key]).
    { cbn [logged calls]. rewrite Hcalls1, <- app_assoc. reflexivity. }
    destruct (truthy m).
    + unfold lift. cbn [fst snd]. split; [exact Hcalls2|].
      destruct (py_get m (lit "type") PNone) as [ty|e] eqn:Eg; [exact I|].
      unfold py_get in Eg. destruct m; try discriminate Eg;
        injection Eg as <-; discriminate.
    + unfold ret. cbn [fst snd]. split; [exact Hcalls2|exact I].
Qed.

(** The class of a failed write tells whether the mutation was sent.  A
    write makes at most two lookups (none with [force_type]) and then at
    most one mutation call, which is the last call.  When the write returns,
    or fails with the class [Exception], the mutation was sent; when it fails
    with any other class ([ValueError], [TypeError], ...), no mutation was
    sent. *)
Theorem write_failure_class_tells_whether_sent client pid ns key value mt (force : bool) st :
  exists lookups,
    Forall is_lookup lookups
    /\ (List.length lookups <= 2)%nat
    /\ (if force then lookups = [] else True)
    /\ match write_product_metafield client pid ns key value mt force st with
       | (Ok _, st') =>
           exists t s, calls st' = calls st ++ lookups ++ [update_call pid ns key t s]
       | (Raise e, st') =>
           (cls e = Exception
            /\ exists t s, calls st' = calls st ++ lookups ++ [update_call pid ns key t s])
           \/ (cls e <> Exception /\ calls st' = calls st ++ lookups)
       end.
Proof.
  destruct force.
  - exists []. split; [constructor|]. split; [cbn; lia|]. split; [reflexivity|].
    pose proof (write_forced_trace client pid ns key value mt st) as H.
    destruct (write_product_metafield client pid ns key value mt true st) as [[u|e] st'].
    + destruct H as (s & ->). exists mt, s. reflexivity.
    + destruct H as [(Hc & s & ->)|(Hc & ->)].
      * left. split; [exact Hc|]. exists mt, s. reflexivity.
      * right. split; [exact Hc|]. rewrite app_nil_r. reflexivity.
  - destruct (type_resolution_trace client pid ns key mt st) as (lookups & Hl & Hlen & Hcalls & Hr).
    exists lookups. split; [exact Hl|]. split; [exact Hlen|]. split; [exact I|].
    rewrite write_unforced_run.
    destruct (type_resolution client pid ns key mt st) as [[t0|e] st1];
      cbn [fst snd] in Hcalls, Hr.
    + pose proof (write_forced_trace client pid ns key value
                    (if truthy t0 then t0 else mt) st1) as H.
      destruct (write_product_metafield client pid ns key value _ true st1) as [[u|e] st'].
      * destruct H as (s & ->). eexists _, s. cbn [logged calls].
        rewrite Hcalls, <- app_assoc. reflexivity.
      * destruct H as [(Hc & s & ->)|(Hc & ->)].
        -- left. split; [exact Hc|]. eexists _, s. cbn [logged calls].
           rewrite Hcalls, <- app_assoc. reflexivity.
        -- right. split; [exact Hc|exact Hcalls].
    + right. split; [exact Hr|exact Hcalls].
Qed.

(** The key of the cache is the namespace and the key joined by a colon,
    so that two pairs with the same joined text share an entry: once the
    definition of the namespace [a:b] and key [c] is in the cache, it is
    returned for the namespace [a] and key [b:c] as well, without any call. *)
Theorem cache_key_is_ambiguous client (a b c : pystr) (st st1 : Store) (d : PyVal) :
  _get_cached_definition client (PStr (a ++ lit ":" ++ b)) (PStr c) st = (Ok d, st1) ->
  truthy d = true ->
  _get_cached_definition client (PStr a) (PStr (b ++ lit ":" ++ c)) st1 = (Ok d, st1).
Proof.
  intros H Ht.
  destruct (cached_definition_outcome client (PStr (a ++ lit ":" ++ b)) (PStr c) st)
    as (d' & st1' & Hd & Hc).
  rewrite H in Hd. injection Hd as <- <-.
  assert (Hkey : cache_key_of (PStr a) (PStr (b ++ lit ":" ++ c))
                 = cache_key_of (PStr (a ++ lit ":" ++ b)) (PStr c)).
  { unfold cache_key_of. cbn [py_str]. rewrite <- !app_assoc. reflexivity. }
  apply cached_definition_hit. rewrite Hkey.
  destruct Hc as [[Hc ->]|(_ & _ & Hc)]; [exact Hc|exact (Hc Ht)].
Qed.

(** The definition fetched for [a:b] and [c] is served for [a] and
    [b:c]. *)
Lemma cache_key_witness :
  let r := _get_cached_definition defining_client (PStr (lit "a" ++ lit ":" ++ lit "b"))
             (PStr (lit "c")) empty_store in
  fst r = Ok count_definition
  /\ truthy count_definition = true
  /\ _get_cached_definition defining_client (PStr (lit "a"))
       (PStr (lit "b" ++ lit ":" ++ lit "c")) (snd r)
     = (Ok count_definition, snd r).
Proof.
  cbv zeta.
  assert (H : fst (_get_cached_definition defining_client
                     (PStr (lit "a" ++ lit ":" ++ lit "b")) (PStr (lit "c")) empty_store)
              = Ok count_definition) by (vm_compute; reflexivity).
  split; [exact H|]. split; [reflexivity|].
  apply (cache_key_is_ambiguous defining_client (lit "a") (lit "b") (lit "c") empty_store).
  - rewrite <- H. apply surjective_pairing.
  - reflexivity.
Defined.

(** The end of a write whose mutation is answered.  Without user errors
    the write returns the [productUpdate] value of the response, an empty
    dictionary when the response has none; with user errors it fails with an
    [Exception] whose message has the context of the write, then [Metafield
    write failed:], then the field and message of each error. *)
Theorem single_write_outcomes client pid ns key value t (s : pystr) st (data upd ue : PyVal) :
  truthy t = true ->
  transform_value_dyn value t = Ok s ->
  transport client (calls st) (update_call pid ns key t s) = Ok data ->
  py_get data (lit "productUpdate") (PDict []) = Ok upd ->
  py_get upd (lit "userErrors") (PList []) = Ok ue ->
  (truthy ue = false ->
   write_product_metafield client pid ns key value t true st
   = (Ok upd, logged st [update_call pid ns key t s] []))
  /\ (forall errors : list (list (pystr * PyVal)),
        errors <> [] ->
        ue = PList (List.map PDict errors) ->
        write_product_metafield client pid ns key value t true st
        = (Raise (mk_exn Exception
                    (write_context pid ns key ++ lit "Metafield write failed: "
                     ++ str_join (lit "; ") (List.map error_line errors))),
           logged st [update_call pid ns key t s] [])).
Proof.
  intros Ht Hs Hdata Hupd Hue.
  assert (Hrun : write_product_metafield client pid ns key value t true st
                 = (match (if truthy ue
                           then messages ← error_messages ue;
                                raise Exception (lit "Metafield write failed: " ++ messages)
                           else Ok upd) with
                    | Ok u => Ok u
                    | Raise e => Raise (mk_exn Exception (write_context pid ns key ++ message e))
                    end,
                    logged st [update_call pid ns key t s] [])).
  { rewrite write_forced_run, Ht, Hs. cbn [try_except].
    unfold mutation_outcome, update_of_response. rewrite Hdata.
    cbn [mbind Result_bind]. rewrite Hupd. cbn [mbind Result_bind]. rewrite Hue.
    reflexivity. }
  split.
  - intros Hf. rewrite Hrun, Hf. reflexivity.
  - intros errors Hne ->. rewrite Hrun.
    assert (Htr : truthy (PList (List.map PDict errors)) = true).
    { destruct errors; [destruct (Hne eq_refl)|reflexivity]. }
    rewrite Htr, error_messages_dicts. reflexivity.
Qed.

(** A response without [productUpdate]: the write returns an empty
    dictionary. *)
Lemma single_write_outcomes_witness :
  truthy (PStr (lit "number_integer")) = true
  /\ transform_value_dyn (PInt 42) (PStr (lit "number_integer")) = Ok (lit "42")
  /\ write_product_metafield silent_client product_P1 custom count (PInt 42)
       (PStr (lit "number_integer")) true empty_store
     = (Ok (PDict []),
        logged empty_store
          [update_call product_P1 custom count (PStr (lit "number_integer")) (lit "42")] []).
Proof.
  split; [reflexivity|]. split; [vm_compute; reflexivity|].
  apply (proj1 (single_write_outcomes silent_client product_P1 custom count (PInt 42)
                  (PStr (lit "number_integer")) (lit "42") empty_store
                  (PDict []) (PDict []) (PList [])
                  eq_refl ltac:(vm_compute; reflexivity) eq_refl eq_refl eq_refl)).
  reflexivity.
Defined.

(** Without [force_type], when no definition is found and the product
    holds a value of the pair, the type of that value is the type of the
    write, whatever the explicit type: the explicit type is used only when
    the existing value has no type. *)
Theorem existing_type_overrides_explicit client pid ns key value mt
    (st st1 st2 : Store) (d m ty : PyVal) :
  _get_cached_definition client ns key st = (Ok d, st1) ->
  truthy d = false ->
  get_product_metafield client pid ns key st1 = (Ok m, st2) ->
  truthy m = true ->
  py_get m (lit "type") PNone = Ok ty ->
  write_product_metafield client pid ns key value mt false st
  = write_product_metafield client pid ns key value (if truthy ty then ty else mt) true st2.
Proof.
  intros Hd Hdf Hm Hmt Hty. rewrite write_unforced_run.
  unfold type_resolution. rewrite (bind_run _ _ _ _ _ Hd), Hdf. cbn [negb].
  rewrite (bind_run _ _ _ _ _ Hm), Hmt. unfold lift. rewrite Hty. reflexivity.
Qed.

(** The value on the product has the type [number_integer]: the write of
    the text [abc] with the explicit type [single_line_text_field] is a
    write with [number_integer], and fails. *)
Lemma existing_type_witness :
  let st1 := logged empty_store [definition_call custom count] [] in
  let st2 := logged empty_store
               [definition_call custom count; metafield_call product_P1 custom count] [] in
  _get_cached_definition valued_client custom count empty_store = (Ok PNone, st1)
  /\ fst (get_product_metafield valued_client product_P1 custom count st1)
     = Ok (PDict [(lit "id", PStr (lit "gid://shopify/Metafield/1"));
                  (lit "namespace", custom); (lit "key", count);
                  (lit "type", PStr (lit "number_integer"));
                  (lit "value", PStr (lit "5"))])
  /\ write_product_metafield valued_client product_P1 custom count (PStr (lit "abc"))
       (PStr (lit "single_line_text_field")) false empty_store
     = write_product_metafield valued_client product_P1 custom count (PStr (lit "abc"))
         (PStr (lit "number_integer")) true st2
  /\ fst (write_product_metafield valued_client product_P1 custom count (PStr (lit "abc"))
            (PStr (lit "single_line_text_field")) false empty_store)
     = Raise (transformation_failed custom count (PStr (lit "number_integer"))
                (message (invalid_integer (lit "abc")))).
Proof.
  cbv zeta.
  assert (H1 : _get_cached_definition valued_client custom count empty_store
               = (Ok PNone, logged empty_store [definition_call custom count] []))
    by (vm_compute; reflexivity).
  assert (H2 : get_product_metafield valued_client product_P1 custom count
                 (logged empty_store [definition_call custom count] [])
               = (Ok (PDict [(lit "id", PStr (lit "gid://shopify/Metafield/1"));
                             (lit "namespace", custom); (lit "key", count);
                             (lit "type", PStr (lit "number_integer"));
                             (lit "value", PStr (lit "5"))]),
                  logged empty_store
                    [definition_call custom count; metafield_call product_P1 custom count] []))
    by (vm_compute; reflexivity).
  split; [exact H1|]. split; [rewrite H2; reflexivity|].
  pose proof (existing_type_overrides_explicit valued_client product_P1 custom count
                (PStr (lit "abc")) (PStr (lit "single_line_text_field"))
                _ _ _ _ _ (PStr (lit "number_integer")) H1 eq_refl H2 eq_refl eq_refl) as H.
  split; [exact H|]. rewrite H. vm_compute. reflexivity.
Defined.

(** A write fails before anything is sent when no type is left, and when
    the value cannot be transformed: a [ValueError] of the transformer is
    raised again as a [ValueError] that names the pair and the type, and a
    failure of any other class ([TypeError], [OverflowError]) is passed on as
    it is; the store is left as it was. *)
Theorem single_write_fails_before_sending client pid ns key value t st :
  (truthy t = false ->
   write_product_metafield client pid ns key value t true st
   = (Raise (type_undeterminable ns key), st))
  /\ (forall e : exn,
        truthy t = true ->
        transform_value_dyn value t = Raise e ->
        write_product_metafield client pid ns key value t true st
        = (Raise (if isinstance e [ValueError]
                  then transformation_failed ns key t (message e) else e), st)).
Proof.
  split.
  - intros Ht. rewrite write_forced_run, Ht. reflexivity.
  - intros e Ht He. rewrite write_forced_run, Ht, He. cbn [try_except].
    destruct (isinstance e [ValueError]); reflexivity.
Qed.

(** [None] under [number_integer]: the [TypeError] of [int] leaves the
    write as it is. *)
Lemma single_write_fails_witness :
  truthy (PStr (lit "number_integer")) = true
  /\ transform_value_dyn PNone (PStr (lit "number_integer"))
     = Raise (mk_exn TypeError
                (lit "int() argument must be a string, a bytes-like object or a real number, not 'NoneType'"))
  /\ write_product_metafield accepting_client product_P1 custom count PNone
       (PStr (lit "number_integer")) true empty_store
     = (Raise (mk_exn TypeError
                 (lit "int() argument must be a string, a bytes-like object or a real number, not 'NoneType'")),
        empty_store).
Proof.
  assert (H : transform_value_dyn PNone (PStr (lit "number_integer"))
              = Raise (mk_exn TypeError
                         (lit "int() argument must be a string, a bytes-like object or a real number, not 'NoneType'")))
    by (vm_compute; reflexivity).
  split; [reflexivity|]. split; [exact H|].
  exact (proj2 (single_write_fails_before_sending accepting_client product_P1 custom count
                  PNone (PStr (lit "number_integer")) empty_store) _ eq_refl H).
Defined.

(** Without [force_type], a definition that is found, in the cache or by
    the lookup, ends the resolution without being read: the write goes on
    with the explicit type as a forced write does, and without an explicit
    type it fails although the definition is there. *)
Theorem found_definition_is_not_consulted client pid ns key value mt (st st1 : Store)
    (d : PyVal) :
  _get_cached_definition client ns key st = (Ok d, st1) ->
  truthy d = true ->
  write_product_metafield client pid ns key value mt false st
  = write_product_metafield client pid ns key value mt true st1
  /\ (truthy mt = false ->
      write_product_metafield client pid ns key value mt false st
      = (Raise (type_undeterminable ns key), st1)).
Proof.
  intros Hd Ht.
  assert (H : write_product_metafield client pid ns key value mt false st
              = write_product_metafield client pid ns key value mt true st1).
  { rewrite write_unforced_run. unfold type_resolution.
    rewrite (bind_run _ _ _ _ _ Hd), Ht. cbn [negb]. unfold ret.
    destruct (truthy mt); reflexivity. }
  split; [exact H|].
  intros Hmt. rewrite H, write_forced_run, Hmt. reflexivity.
Qed.

(** The remote end knows the definition of [custom.count], of type
    [number_integer]; the write without a type fails. *)
Lemma found_definition_witness :
  let r := _get_cached_definition defining_client custom count empty_store in
  fst r = Ok count_definition
  /\ truthy count_definition = true
  /\ write_product_metafield defining_client product_P1 custom count (PInt 42) PNone false
       empty_store
     = (Raise (type_undeterminable custom count), snd r).
Proof.
  cbv zeta.
  assert (H : fst (_get_cached_definition defining_client custom count empty_store)
              = Ok count_definition) by (vm_compute; reflexivity).
  split; [exact H|]. split; [reflexivity|].
  apply (proj2 (found_definition_is_not_consulted defining_client product_P1 custom count
                  (PInt 42) PNone empty_store _ count_definition
                  ltac:(rewrite <- H; apply surjective_pairing) eq_refl)).
  reflexivity.
Defined.

(** ** The batched write: its loop *)

Lemma process_metafields_app client pid auto (xs ys : list PyVal) :
  forall processed st,
    process_metafields client pid auto (xs ++ ys) processed st
    = match process_metafields client pid auto xs processed st with
      | (Ok processed', st') => process_metafields client pid auto ys processed' st'
      | (Raise e, st') => (Raise e, st')
      end.
Proof.
  induction xs as [|x xs IH]; intros processed st; [reflexivity|].
  cbn [app process_metafields]. unfold bind.
  destruct (process_metafield client pid auto x st) as [[[m|]|e] st1];
    [apply IH|apply IH|reflexivity].
Qed.

(** The four fields read from an entry that is a dictionary. *)
Lemma process_metafield_dict client pid auto (d : list (pystr * PyVal)) st :
  process_metafield client pid auto (PDict d) st
  = let namespace := dict_get d (lit "namespace") PNone in
    let key := dict_get d (lit "key") PNone in
    let value := dict_get d (lit "value") PNone in
    let metafield_type := dict_get d (lit "type") PNone in
    if negb (truthy namespace) || negb (truthy key) then (Ok None, st)
    else
      match
        (if auto && negb (truthy metafield_type)
         then batch_type_resolution client pid namespace key metafield_type
         else ret metafield_type) st
      with
      | (Ok ty, st1) =>
          if negb (truthy ty) then (Raise (batch_type_undeterminable namespace key), st1)
          else
            match transform_value_dyn value ty with
            | Ok s => (Ok (Some (processed_entry namespace key ty s)), st1)
            | Raise e => (Raise e, st1)
            end
      | (Raise e, st1) => (Raise e, st1)
      end.
Proof.
  unfold process_metafield, batch_type_resolution. cbn [py_get]. rewrite !bind_lift. cbv zeta.
  destruct (negb _ || negb _); [reflexivity|].
  unfold bind at 1.
  match goal with
  | |- context [let (_, _) := ?m st in _] => destruct (m st) as [[ty|e] st1]
  end; [|reflexivity].
  destruct (negb (truthy ty)); [reflexivity|].
  rewrite bind_lift. destruct (transform_value_dyn _ ty); reflexivity.
Qed.

Lemma process_metafield_skipped client pid auto (m : PyVal) st :
  skipped_entry m -> process_metafield client pid auto m st = (Ok None, st).
Proof.
  intros (d & -> & H). rewrite process_metafield_dict. cbv zeta.
  destruct H as [-> | ->]; [reflexivity|]. rewrite orb_true_r. reflexivity.
Qed.

Lemma process_metafields_skip client pid auto (m : PyVal) (after : list PyVal) :
  skipped_entry m ->
  forall processed st,
    process_metafields client pid auto (m :: after) processed st
    = process_metafields client pid auto after processed st.
Proof.
  intros Hm processed st. cbn [process_metafields]. unfold bind.
  rewrite (process_metafield_skipped client pid auto m st Hm). reflexivity.
Qed.

(** The end of a batch whose entries have been processed. *)
Lemma batch_run client pid (metafields : list PyVal) auto st :
  write_product_metafields_batch client pid metafields auto st
  = match process_metafields client pid auto metafields [] st with
    | (Ok processed, st1) =>
        match identifiers_of processed with
        | Ok ids =>
            (mutation_outcome (batch_context pid) (lit "Batch metafield write failed: ")
               (transport client (calls st1) (batch_call pid processed ids)),
             logged st1 [batch_call pid processed ids] [])
        | Raise e => (Raise e, st1)
        end
    | (Raise e, st1) => (Raise e, st1)
    end.
Proof.
  unfold write_product_metafields_batch. unfold bind at 1.
  destruct (process_metafields client pid auto metafields [] st) as [[processed|e] st1];
    [|reflexivity].
  rewrite bind_lift. destruct (identifiers_of processed) as [ids|e]; [|reflexivity].
  cbv zeta. apply mutation_step_run.
  intros e. unfold batch_context. rewrite <- !app_assoc. reflexivity.
Qed.

(** An entry of a batch without a namespace or without a key is dropped
    without a word: no lookup, no failure, whatever its value and type; the
    batch is the batch without the entry. *)
Theorem batch_skips_entries_without_namespace_or_key
    client pid auto (before : list PyVal) (m : PyVal) (after : list PyVal) st :
  skipped_entry m ->
  write_product_metafields_batch client pid (before ++ m :: after) auto st
  = write_product_metafields_batch client pid (before ++ after) auto st.
Proof.
  intros Hm. rewrite !batch_run, !process_metafields_app.
  destruct (process_metafields client pid auto before [] st) as [[processed|e] st1];
    [|reflexivity].
  rewrite (process_metafields_skip client pid auto m after Hm). reflexivity.
Qed.

(** An entry without a key between the two fields of the sample. *)
Lemma batch_skips_witness :
  skipped_entry (PDict [(lit "namespace", custom); (lit "value", PStr (lit "abc"));
                        (lit "type", PStr (lit "number_integer"))])
  /\ write_product_metafields_batch accepting_client product_P1
       ([PDict [(lit "namespace", custom); (lit "key", count); (lit "value", PInt 42);
                (lit "type", PStr (lit "number_integer"))]]
        ++ PDict [(lit "namespace", custom); (lit "value", PStr (lit "abc"));
                  (lit "type", PStr (lit "number_integer"))]
        :: [PDict [(lit "namespace", custom); (lit "key", PStr (lit "title"));
                   (lit "value", PStr (lit "Hello"));
                   (lit "type", PStr (lit "single_line_text_field"))]])
       true empty_store
     = write_product_metafields_batch accepting_client product_P1 two_fields true empty_store.
Proof.
  assert (H : skipped_entry (PDict [(lit "namespace", custom); (lit "value", PStr (lit "abc"));
                                    (lit "type", PStr (lit "number_integer"))])).
  { eexists. split; [reflexivity|]. right. reflexivity. }
  split; [exact H|].
  exact (batch_skips_entries_without_namespace_or_key accepting_client product_P1 true
           [PDict [(lit "namespace", custom); (lit "key", count); (lit "value", PInt 42);
                   (lit "type", PStr (lit "number_integer"))]]
           _
           [PDict [(lit "namespace", custom); (lit "key", PStr (lit "title"));
                   (lit "value", PStr (lit "Hello"));
                   (lit "type", PStr (lit "single_line_text_field"))]]
           empty_store H).
Defined.

(** A batch with nothing to write, empty or made of skipped entries
    only, still sends the mutation, with an empty list of metafields and an
    empty list of identifiers, and its outcome is the outcome of that
    call. *)
Theorem empty_batch_is_sent client pid auto (metafields : list PyVal) st :
  Forall skipped_entry metafields ->
  write_product_metafields_batch client pid metafields auto st
  = (mutation_outcome (batch_context pid) (lit "Batch metafield write failed: ")
       (transport client (calls st) (batch_call pid [] [])),
     logged st [batch_call pid [] []] []).
Proof.
  intros H. rewrite batch_run.
  assert (Hp : process_metafields client pid auto metafields [] st = (Ok [], st)).
  { induction H as [|m ms Hm _ IH]; [reflexivity|].
    rewrite (process_metafields_skip client pid auto m ms Hm). exact IH. }
  rewrite Hp. reflexivity.
Qed.

(** The empty batch with a remote end that accepts. *)
Lemma empty_batch_witness :
  Forall skipped_entry []
  /\ calls (snd (write_product_metafields_batch accepting_client product_P1 [] true
                   empty_store))
     = [batch_call product_P1 [] []].
Proof.
  assert (H : Forall skipped_entry []) by constructor.
  split; [exact H|].
  rewrite (empty_batch_is_sent accepting_client product_P1 true [] empty_store H).
  reflexivity.
Defined.

(** ** The batched write: what is sent, and when *)

Lemma py_get_raises (v : PyVal) (k : pystr) (default : PyVal) (e : exn) :
  py_get v k default = Raise e -> cls e <> Exception.
Proof.
  unfold py_get. destruct v; intros H; try discriminate H; injection H as <-; discriminate.
Qed.

Lemma batch_type_resolution_trace client pid ns key mt st :
  exists lookups,
    Forall is_lookup lookups
    /\ (List.length lookups <= 2)%nat
    /\ calls (snd (batch_type_resolution client pid ns key mt st)) = calls st ++ lookups
    /\ match fst (batch_type_resolution client pid ns key mt st) with
       | Ok _ => True
       | Raise e => cls e <> Exception
       end.
Proof.
  unfold batch_type_resolution.
  destruct (cached_definition_outcome client ns key st) as (d & st1 & Hd & Hc).
  rewrite (bind_run _ _ _ _ _ Hd).
  assert (H1 : exists l1, Forall is_lookup l1 /\ (List.length l1 <= 1)%nat
                          /\ calls st1 = calls st ++ l1).
  { destruct Hc as [[_ ->]|(_ & Hcalls & _)].
    - exists []. split; [constructor|]. split; [cbn; lia|]. rewrite app_nil_r. reflexivity.
    - exists [definition_call ns key]. split; [|split; [cbn; lia|exact Hcalls]].
      constructor; [left; reflexivity|constructor]. }
  destruct H1 as (l1 & Hl1 & Hlen1 & Hcalls1).
  destruct (truthy d).
  - exists l1. split; [exact Hl1|]. split; [lia|]. unfold lift. cbn [fst snd].
    split; [exact Hcalls1|].
    destruct (py_get d (lit "type") PNone) as [ty|e] eqn:Eg; [exact I|].
    apply (py_get_raises _ _ _ _ Eg).
  - pose proof (get_metafield_run client pid ns key st1) as Hget. cbv zeta in Hget.
    match type of Hget with
    | context [lookup_outcome ?w ?r] => destruct (lookup_outcome w r) as [m lines]
    end.
    cbn [fst snd] in Hget. rewrite (bind_run _ _ _ _ _ Hget).
    exists (l1 ++ [metafield_call pid ns key]).
    split; [apply Forall_app; split; [exact Hl1|constructor; [right; reflexivity|constructor]]|].
    split; [rewrite length_app; cbn [List.length]; lia|].
    assert (Hcalls2 : calls (logged st1 [metafield_call pid ns key] lines)
                      = calls st ++ l1 ++ [metafield_call pid ns key]).
    { cbn [logged calls]. rewrite Hcalls1, <- app_assoc. reflexivity. }
    destruct (truthy m).
    + unfold lift. cbn [fst snd]. split; [exact Hcalls2|].
      destruct (py_get m (lit "type") PNone) as [ty|e] eqn:Eg; [exact I|].
      apply (py_get_raises _ _ _ _ Eg).
    + unfold ret. cbn [fst snd]. split; [exact Hcalls2|exact I].
Qed.

Lemma process_metafield_not_dict client pid auto (m : PyVal) st :
  (forall d, m <> PDict d) ->
  exists e, process_metafield client pid auto m st = (Raise e, st) /\ cls e <> Exception.
Proof.
  intros Hm. unfold process_metafield. rewrite bind_lift.
  destruct (py_get m (lit "namespace") PNone) as [ns|e] eqn:E.
  - destruct m; try discriminate E. destruct (Hm _ eq_refl).
  - exists e. split; [reflexivity|apply (py_get_raises _ _ _ _ E)].
Qed.

Lemma process_metafield_trace client pid auto (m : PyVal) st :
  exists lookups,
    Forall is_lookup lookups
    /\ (List.length lookups <= 2)%nat
    /\ (auto = false \/ typed_entry m -> lookups = [])
    /\ calls (snd (process_metafield client pid auto m st)) = calls st ++ lookups
    /\ match fst (process_metafield client pid auto m st) with
       | Ok _ => True
       | Raise e => cls e <> Exception
       end.
Proof.
  assert (Hnil : forall r : Result (option PyVal),
            match r with Ok _ => True | Raise e => cls e <> Exception end ->
            exists lookups : list Call,
              Forall is_lookup lookups /\ (List.length lookups <= 2)%nat
              /\ (auto = false \/ typed_entry m -> lookups = [])
              /\ calls (snd (r, st)) = calls st ++ lookups
              /\ match fst (r, st) with Ok _ => True | Raise e => cls e <> Exception end).
  { intros r Hr. exists []. split; [constructor|]. split; [cbn; lia|].
    split; [reflexivity|]. split; [cbn [snd]; rewrite app_nil_r; reflexivity|exact Hr]. }
  assert (Htail : forall (ns key value ty : PyVal) (st1 : Store),
            match fst (if negb (truthy ty)
                       then (Raise (batch_type_undeterminable ns key), st1)
                       else match transform_value_dyn value ty with
                            | Ok s => (Ok (Some (processed_entry ns key ty s)), st1)
                            | Raise e => (@Raise (option PyVal) e, st1)
                            end) with
            | Ok _ => True
            | Raise e => cls e <> Exception
            end
            /\ snd (if negb (truthy ty)
                    then (@Raise (option PyVal) (batch_type_undeterminable ns key), st1)
                    else match transform_value_dyn value ty with
                         | Ok s => (Ok (Some (processed_entry ns key ty s)), st1)
                         | Raise e => (Raise e, st1)
                         end) = st1).
  { intros ns key value ty st1. destruct (negb (truthy ty)); [split; [discriminate|reflexivity]|].
    destruct (transform_value_dyn value ty) as [s|e] eqn:E.
    - split; [exact I|reflexivity].
    - split; [apply (transform_value_dyn_raises _ _ _ E)|reflexivity]. }
  destruct m as [| | | | | |d];
    try (match goal with
         | |- context [process_metafield client pid auto ?m st] =>
             destruct (process_metafield_not_dict client pid auto m st ltac:(discriminate))
               as (e & -> & He); apply (Hnil (Raise e) He)
         end).
  rewrite process_metafield_dict. cbv zeta.
  destruct (negb _ || negb _); [apply (Hnil (Ok None) I)|].
  destruct (auto && negb (truthy (dict_get d (lit "type") PNone))) eqn:Eauto.
  - destruct (batch_type_resolution_trace client pid
                (dict_get d (lit "namespace") PNone) (dict_get d (lit "key") PNone)
                (dict_get d (lit "type") PNone) st) as (lookups & Hl & Hlen & Hcalls & Hr).
    exists lookups. split; [exact Hl|]. split; [exact Hlen|].
    split.
    { intros [Ha|(d' & Hd' & Ht)].
      - rewrite Ha in Eauto. discriminate Eauto.
      - injection Hd' as <-. rewrite Ht in Eauto. rewrite andb_false_r in Eauto.
        discriminate Eauto. }
    destruct (batch_type_resolution client pid _ _ _ st) as [[ty|e] st1];
      cbn [fst snd] in Hcalls, Hr.
    + destruct (Htail (dict_get d (lit "namespace") PNone) (dict_get d (lit "key") PNone)
                  (dict_get d (lit "value") PNone) ty st1) as [H1 H2].
      split; [rewrite H2; exact Hcalls|exact H1].
    + split; [exact Hcalls|exact Hr].
  - unfold ret.
    destruct (Htail (dict_get d (lit "namespace") PNone) (dict_get d (lit "key") PNone)
                (dict_get d (lit "value") PNone) (dict_get d (lit "type") PNone) st) as [H1 H2].
    exists []. split; [constructor|]. split; [cbn; lia|]. split; [reflexivity|].
    split; [rewrite H2, app_nil_r; reflexivity|exact H1].
Qed.

Lemma process_metafields_trace client pid auto (metafields : list PyVal) :
  forall processed st,
    exists lookups,
      Forall is_lookup lookups
      /\ (List.length lookups <= 2 * List.length metafields)%nat
      /\ (auto = false \/ Forall typed_entry metafields -> lookups = [])
      /\ calls (snd (process_metafields client pid auto metafields processed st))
         = calls st ++ lookups
      /\ match fst (process_metafields client pid auto metafields processed st) with
         | Ok _ => True
         | Raise e => cls e <> Exception
         end.
Proof.
  induction metafields as [|m ms IH]; intros processed st.
  - exists []. split; [constructor|]. split; [cbn; lia|]. split; [reflexivity|].
    cbn. rewrite app_nil_r. split; [reflexivity|exact I].
  - cbn [process_metafields]. unfold bind.
    destruct (process_metafield_trace client pid auto m st) as (l1 & Hl1 & Hlen1 & Hno1 & Hc1 & Hr1).
    destruct (process_metafield client pid auto m st) as [[entry|e] st1];
      cbn [fst snd] in Hc1, Hr1.
    + destruct (IH (match entry with Some x => processed ++ [x] | None => processed end) st1)
        as (l2 & Hl2 & Hlen2 & Hno2 & Hc2 & Hr2).
      exists (l1 ++ l2). split; [apply Forall_app; split; assumption|].
      split; [rewrite length_app; cbn [List.length]; lia|].
      split.
      { intros H. rewrite Hno1, Hno2; [reflexivity| |].
        - destruct H as [H|H]; [left; exact H|right].
          apply Forall_cons in H. tauto.
        - destruct H as [H|H]; [left; exact H|right].
          apply Forall_cons in H. tauto. }
      destruct entry as [x|]; rewrite Hc1, <- app_assoc in Hc2; split; assumption.
    + exists l1. split; [exact Hl1|]. split; [cbn [List.length]; lia|].
      split.
      { intros H. apply Hno1. destruct H as [H|H]; [left; exact H|right].
        apply Forall_cons in H. tauto. }
      split; [exact Hc1|exact Hr1].
Qed.

(** The class of a failed batch tells whether the mutation was sent.  A
    batch makes at most two lookups for each entry and then at most one
    mutation call, which is the last call.  A failure while the entries are
    processed is passed on as it is, with a class other than [Exception], and
    nothing is sent, although the lookups of the earlier entries have been
    made; when the batch returns or fails with the class [Exception], the
    mutation was sent. *)
Theorem batch_failure_class_tells_whether_sent client pid (metafields : list PyVal) auto st :
  exists lookups,
    Forall is_lookup lookups
    /\ (List.length lookups <= 2 * List.length metafields)%nat
    /\ match write_product_metafields_batch client pid metafields auto st with
       | (Ok _, st') =>
           exists processed ids,
             calls st' = calls st ++ lookups ++ [batch_call pid processed ids]
       | (Raise e, st') =>
           (cls e = Exception
            /\ exists processed ids,
                 calls st' = calls st ++ lookups ++ [batch_call pid processed ids])
           \/ (cls e <> Exception /\ calls st' = calls st ++ lookups)
       end.
Proof.
  destruct (process_metafields_trace client pid auto metafields [] st)
    as (lookups & Hl & Hlen & _ & Hcalls & Hr).
  exists lookups. split; [exact Hl|]. split; [exact Hlen|].
  rewrite batch_run.
  destruct (process_metafields client pid auto metafields [] st) as [[processed|e] st1] eqn:Ep;
    cbn [fst snd] in Hcalls, Hr.
  - destruct (identifiers_of_entries processed) as [ids Hids].
    { eapply process_metafields_entries; [constructor|exact Ep]. }
    rewrite Hids.
    assert (Hc : calls (logged st1 [batch_call pid processed ids] [])
                 = calls st ++ lookups ++ [batch_call pid processed ids]).
    { cbn [logged calls]. rewrite Hcalls, <- app_assoc. reflexivity. }
    destruct (mutation_outcome _ _ _) as [u|e] eqn:Em.
    + exists processed, ids. exact Hc.
    + left. split; [apply (mutation_outcome_class _ _ _ _ Em)|].
      exists processed, ids. exact Hc.
  - right. split; [exact Hr|exact Hcalls].
Qed.

(** A batch makes no lookup at all when type detection is off or when
    every entry carries a type: it leaves the cache alone and makes the
    mutation call only, or no call when an entry fails.  (The single write
    without [force_type] makes its lookups even with an explicit type.) *)
Theorem typed_batch_makes_no_lookup client pid (metafields : list PyVal) auto st :
  auto = false \/ Forall typed_entry metafields ->
  calls (snd (process_metafields client pid auto metafields [] st)) = calls st
  /\ (calls (snd (write_product_metafields_batch client pid metafields auto st)) = calls st
      \/ exists processed ids,
           calls (snd (write_product_metafields_batch client pid metafields auto st))
           = calls st ++ [batch_call pid processed ids]).
Proof.
  intros H.
  destruct (process_metafields_trace client pid auto metafields [] st)
    as (lookups & _ & _ & Hno & Hcalls & _).
  rewrite (Hno H), app_nil_r in Hcalls. split; [exact Hcalls|].
  rewrite batch_run.
  destruct (process_metafields client pid auto metafields [] st) as [[processed|e] st1];
    cbn [fst snd] in Hcalls.
  - destruct (identifiers_of processed) as [ids|e].
    + right. exists processed, ids. cbn [snd logged calls]. rewrite Hcalls. reflexivity.
    + left. exact Hcalls.
  - left. exact Hcalls.
Qed.

(** The two fields of the sample carry their types. *)
Lemma typed_batch_witness :
  Forall typed_entry two_fields
  /\ calls (snd (process_metafields accepting_client product_P1 true two_fields []
                   empty_store)) = calls empty_store.
Proof.
  assert (H : Forall typed_entry two_fields).
  { constructor; [eexists; split; reflexivity|].
    constructor; [eexists; split; reflexivity|constructor]. }
  split; [exact H|].
  exact (proj1 (typed_batch_makes_no_lookup accepting_client product_P1 two_fields true
                  empty_store (or_intror H))).
Defined.

(** An entry of a batch without a type takes the type of the definition
    of its pair (as the single write does not): with a cached definition of
    type [ty] the value is transformed for [ty], and a failure of the
    transformation is passed on as it is. *)
Theorem batch_entry_takes_definition_type client pid (m : list (pystr * PyVal)) st
    (d ty : PyVal) :
  let namespace := dict_get m (lit "namespace") PNone in
  let key := dict_get m (lit "key") PNone in
  let value := dict_get m (lit "value") PNone in
  truthy namespace = true ->
  truthy key = true ->
  truthy (dict_get m (lit "type") PNone) = false ->
  _definition_cache st !! cache_key_of namespace key = Some d ->
  truthy d = true ->
  py_get d (lit "type") PNone = Ok ty ->
  truthy ty = true ->
  process_metafield client pid true (PDict m) st
  = (match transform_value_dyn value ty with
     | Ok s => Ok (Some (processed_entry namespace key ty s))
     | Raise e => Raise e
     end, st).
Proof.
  cbv zeta. intros Hns Hkey Hty Hd Hdt Hg Ht.
  rewrite process_metafield_dict. cbv zeta. rewrite Hns, Hkey, Hty. cbn [negb orb andb].
  unfold batch_type_resolution.
  rewrite (bind_run _ _ _ _ _ (cached_definition_hit client _ _ st d Hd)), Hdt.
  unfold lift. rewrite Hg, Ht. cbn [negb].
  destruct (transform_value_dyn _ ty); reflexivity.
Qed.

(** The cached definition of [custom.count] has the type
    [number_integer]: the entry with the text [abc] fails. *)
Lemma batch_entry_witness :
  process_metafield accepting_client product_P1 true
    (PDict [(lit "namespace", custom); (lit "key", count); (lit "value", PStr (lit "abc"))])
    store_with_definition
  = (Raise (invalid_integer (lit "abc")), store_with_definition).
Proof.
  rewrite (batch_entry_takes_definition_type accepting_client product_P1
             [(lit "namespace", custom); (lit "key", count); (lit "value", PStr (lit "abc"))]
             store_with_definition count_definition (PStr (lit "number_integer"))
             eq_refl eq_refl eq_refl ltac:(vm_compute; reflexivity) eq_refl eq_refl eq_refl).
  vm_compute. reflexivity.
Defined.

(** ** The address and the response of a request *)

Lemma lstrip_char_spec (c : N) (s : pystr) :
  exists k : nat,
    s = repeat c k ++ lstrip_char c s
    /\ match lstrip_char c s with x :: _ => x <> c | [] => True end.
Proof.
  induction s as [|x s (k & IH1 & IH2)].
  - exists O. split; [reflexivity|exact I].
  - cbn [lstrip_char]. destruct (N.eqb_spec x c) as [->|Hx].
    + exists (S k). split; [cbn [repeat app]; f_equal; exact IH1|exact IH2].
    + exists O. split; [reflexivity|exact Hx].
Qed.

Lemma lstrip_char_repeat (c : N) (k : nat) (s : pystr) :
  lstrip_char c (repeat c k ++ s) = lstrip_char c s.
Proof.
  induction k as [|k IH]; [reflexivity|].
  cbn [repeat app lstrip_char]. rewrite N.eqb_refl. exact IH.
Qed.

Lemma rev_repeat (c : N) (k : nat) : rev (repeat c k) = repeat c k.
Proof.
  induction k as [|k IH]; [reflexivity|].
  cbn [repeat rev]. rewrite IH. clear IH.
  induction k as [|k IH]; [reflexivity|]. cbn [repeat app]. rewrite IH. reflexivity.
Qed.

(** Trailing slashes of the shop domain, however many, do not reach the
    address of the requests: the domain kept by the client is the given one
    without them, it does not end with a slash, and the address is the same
    as for the domain without the slashes. *)
Theorem trailing_slashes_are_dropped (domain token version : pystr) :
  (exists k : nat,
     domain = shop_domain (init_config domain token version) ++ repeat 47%N k)
  /\ last (shop_domain (init_config domain token version)) <> Some 47%N
  /\ graphql_url (init_config domain token version)
     = lit "https://" ++ shop_domain (init_config domain token version)
       ++ lit "/admin/api/" ++ version ++ lit "/graphql.json"
  /\ (forall k : nat,
        graphql_url (init_config (domain ++ repeat 47%N k) token version)
        = graphql_url (init_config domain token version)).
Proof.
  unfold init_config, graphql_url. cbn [shop_domain base_url]. unfold rstrip_char.
  destruct (lstrip_char_spec 47 (rev domain)) as (k & H1 & H2).
  split; [|split; [|split]].
  - exists k. rewrite <- (rev_involutive domain) at 1. rewrite H1 at 1.
    rewrite rev_app_distr, rev_repeat. reflexivity.
  - destruct (lstrip_char 47 (rev domain)) as [|x r]; [discriminate|].
    cbn [rev]. rewrite last_snoc. intros H. injection H as H. exact (H2 H).
  - rewrite <- !app_assoc. reflexivity.
  - intros j. rewrite rev_app_distr, rev_repeat, lstrip_char_repeat. reflexivity.
Qed.

(** ** GraphQL errors *)




(** ** The lookups *)





(* ===================================================================== *)
(** * Part V: the integer branch and the failing lookups *)
(* ===================================================================== *)

(** ** [number_integer]: the float parse and the integer cast *)

(** [int] of a finite float is its truncation toward zero. *)
Lemma int_of_float_truncates (f : pyfloat) :
  is_finite f = true -> exists z, int_of_float f = Ok z /\ truncates f z.
Proof.
  destruct f as [|neg|neg|neg m e]; intros H; try discriminate H.
  - exists 0. split; reflexivity.
  - cbn [int_of_float truncates]. eexists. split; [reflexivity|].
    destruct (Z.ltb_spec e 0) as [E|E].
    + assert (Hp : 0 < 2 ^ (- e)) by (apply Z.pow_pos_nonneg; lia).
      exists (Z.pos m / 2 ^ (- e)). split; [apply Z.div_pos; lia|]. split; [|reflexivity].
      pose proof (Z.mul_div_le (Z.pos m) (2 ^ (- e)) Hp).
      pose proof (Z.mul_succ_div_gt (Z.pos m) (2 ^ (- e)) Hp). lia.
    + assert (Hp : 0 < 2 ^ e) by (apply Z.pow_pos_nonneg; lia).
      exists (Z.pos m * 2 ^ e). split; [nia|]. split; [lia|reflexivity].
Qed.

(** C7 (the claim fails as stated): the numeral [1e999] is a numeric
    string, but it is beyond the floats, through which the conversion goes:
    [float] reads it as an infinity, and the call returns no integer text and
    fails with the [OverflowError] of [int], which is not the transformer's
    own failure. *)
Lemma number_integer_counterexample :
  float_of_str (lit "1e999") = Ok (FInf false)
  /\ transform_value (PStr (lit "1e999")) (lit "number_integer")
     = Raise (mk_exn OverflowError (lit "cannot convert float infinity to integer")).
Proof. split; vm_compute; reflexivity. Qed.

(** C7 (amended): under [number_integer] a string goes through [float]
    and then [int].  When [float] reads it as a finite number, the result is
    the base-10 text of that number truncated toward zero ([42] and [123.0]
    give [42] and [123]), and the text of an integer up to [2^53] in absolute
    value comes back as it is; an integer gives its own text, and a finite
    float the text of its truncation ([42.0] gives [42]); the text written is
    read back as the integer.  A string that [float] refuses, or reads as
    NaN, fails with the transformer's own [ValueError]. *)
Theorem number_integer_float_then_int :
  (forall (s : pystr) (f : pyfloat),
     float_of_str s = Ok f -> is_finite f = true ->
     exists z : Z,
       transform_value (PStr s) (lit "number_integer") = Ok (str_of_Z z) /\ truncates f z)
  /\ (forall s : pystr,
        (exists e, float_of_str s = Raise e) \/ float_of_str s = Ok FNaN ->
        transform_value (PStr s) (lit "number_integer") = Raise (invalid_integer s))
  /\ (forall z : Z, transform_value (PInt z) (lit "number_integer") = Ok (str_of_Z z))
  /\ (forall f : pyfloat,
        is_finite f = true ->
        exists z : Z,
          transform_value (PFloat f) (lit "number_integer") = Ok (str_of_Z z)
          /\ truncates f z)
  /\ (forall z : Z, int_of_lexeme (str_of_Z z) = z)
  /\ (forall n : Z,
        Z.abs n <= 2 ^ 53 ->
        transform_value (PStr (str_of_Z n)) (lit "number_integer") = Ok (str_of_Z n))
  /\ transform_value (PStr (lit "42")) (lit "number_integer") = Ok (lit "42")
  /\ transform_value (PFloat (FNum false 5910974510923776 (-47))) (lit "number_integer")
     = Ok (lit "42")
  /\ float_of_str (lit "42.0") = Ok (FNum false 5910974510923776 (-47))
  /\ transform_value (PStr (lit "123.0")) (lit "number_integer") = Ok (lit "123")
  /\ transform_value (PStr (lit "forty-two")) (lit "number_integer")
     = Raise (invalid_integer (lit "forty-two")).
Proof.
  split; [|split; [|split; [|split; [|split; [|split]]]]].
  - intros s f Hf Hfin. destruct (int_of_float_truncates f Hfin) as (z & Hz & Ht).
    exists z. split; [|exact Ht].
    rewrite transform_integer_str, Hf. cbn [mbind Result_bind]. rewrite Hz. reflexivity.
  - intros s [[e He]| Hnan]; rewrite transform_integer_str.
    + rewrite He. cbn [mbind Result_bind]. unfold try_except, isinstance. cbn [existsb].
      rewrite (float_of_str_raises s e He). reflexivity.
    + rewrite Hnan. reflexivity.
  - intros z. reflexivity.
  - intros f Hfin. destruct (int_of_float_truncates f Hfin) as (z & Hz & Ht).
    exists z. split; [|exact Ht].
    rewrite transform_integer_other by discriminate. cbn [py_int]. rewrite Hz. reflexivity.
  - apply int_of_lexeme_str_of_Z.
  - apply transform_integer_text.
  - repeat split; vm_compute; reflexivity.
Qed.

(** C7 at the string [-7.9], whose float is truncated to [-7], and at the
    word [seven]. *)
Lemma number_integer_witness :
  (exists f : pyfloat,
     float_of_str (lit "-7.9") = Ok f /\ is_finite f = true
     /\ transform_value (PStr (lit "-7.9")) (lit "number_integer") = Ok (lit "-7")
     /\ exists z : Z,
          transform_value (PStr (lit "-7.9")) (lit "number_integer") = Ok (str_of_Z z)
          /\ truncates f z)
  /\ ((exists e, float_of_str (lit "seven") = Raise e)
      /\ transform_value (PStr (lit "seven")) (lit "number_integer")
         = Raise (invalid_integer (lit "seven"))).
Proof.
  split.
  - eexists. split; [vm_compute; reflexivity|]. split; [reflexivity|].
    split; [vm_compute; reflexivity|].
    apply (proj1 number_integer_float_then_int); [vm_compute; reflexivity|reflexivity].
  - assert (H : exists e, float_of_str (lit "seven") = Raise e)
      by (eexists; vm_compute; reflexivity).
    split; [exact H|].
    apply (proj1 (proj2 number_integer_float_then_int)). left. exact H.
Defined.

(** ** The lookups that fail *)


